(** * palette: colour values and their cached colour-space projections

    A shallow embedding of [palette/__init__.py]: the module-level helpers
    [hex_to_rgb], [clamped_property] and [colorspace], the class [Color] with
    its six projections, and the class [ColorSpace].

    Python numbers are modelled as IEEE binary64 floats (Rocq's primitive
    [float], the same format CPython uses); the integers the module handles
    (the literals 0 and 255, the results of [round] and of [int(val, 16)])
    are carried as [Z] where the code needs them as integers and are exactly
    representable otherwise.  Exceptions are values of [error]; a method that
    mutates its object and may raise is a function from the store to a new
    store and a [result], so the store a caller sees after an exception is
    part of the model.  [Dangling] is no Python exception: it marks a
    reference that names no object of the store, which no store built by
    the methods contains. *)

From Stdlib Require Import ZArith Floats String Ascii List Lia.
From Stdlib Require Import HexadecimalString.
From Stdlib Require DecimalString.
From stdpp Require Import base option gmap strings list.

Set Warnings "-inexact-float".
Local Open Scope string_scope.
Local Open Scope Z_scope.

(** ** Exceptions and results *)

Inductive error : Type :=
| ValueError (msg : string)
| KeyError (key : string)
| IndexError
| TypeError
| ZeroDivisionError
| OverflowError
| AttributeError
| Dangling.

Inductive result (A : Type) : Type :=
| Ok (a : A)
| Raise (e : error).
Arguments Ok {A} a.
Arguments Raise {A} e.

#[global] Instance result_ret : MRet result := fun _ a => Ok a.
#[global] Instance result_bind : MBind result := fun _ _ f r =>
  match r with
  | Ok a => f a
  | Raise e => Raise e
  end.

(** ** The Python builtins the module calls *)

Module Py.

(** *** Floats *)

(** The binary64 nearest to an integer. *)
Definition float_of_Z (z : Z) : float :=
  SF2Prim (binary_normalize prec emax z 0 false).

(** [float(z)] for an integer: correctly rounded, [OverflowError] when the
    integer is too large for a binary64. *)
Definition float_of_int (z : Z) : result float :=
  let f := float_of_Z z in
  if is_infinity f then Raise OverflowError else Ok f.

(** The integer an integral float denotes; [None] for the others. *)
Definition int_of_float (x : float) : option Z :=
  match Prim2SF x with
  | S754_zero _ => Some 0
  | S754_finite s m e =>
      if 0 <=? e then Some ((if s then -1 else 1) * (Z.pos m * 2 ^ e))
      else if Z.pos m mod 2 ^ (- e) =? 0
           then Some ((if s then -1 else 1) * (Z.pos m / 2 ^ (- e)))
           else None
  | _ => None
  end.

(** [round(x)] with one argument, Python 3: the nearest integer, ties to
    the even one; NaN and the infinities raise. *)
Definition round (x : float) : result Z :=
  match Prim2SF x with
  | S754_nan => Raise (ValueError "cannot convert float NaN to integer")
  | S754_infinity _ => Raise OverflowError
  | S754_zero _ => Ok 0
  | S754_finite s m e =>
      let n :=
        if 0 <=? e then Z.pos m * 2 ^ e
        else
          let d := 2 ^ (- e) in
          let q := Z.pos m / d in
          match 2 * (Z.pos m mod d) ?= d with
          | Lt => q
          | Gt => q + 1
          | Eq => if Z.even q then q else q + 1
          end in
      Ok (if s then - n else n)
  end.

(** C's [fmod(x, 1.0)]: exact, with the sign of [x]. *)
Definition fmod1 (x : float) : float :=
  match Prim2SF x with
  | S754_zero _ => x
  | S754_finite s m e =>
      if 0 <=? e then (if s then (-0)%float else 0%float)
      else
        let frac := Z.pos m mod 2 ^ (- e) in
        SF2Prim (binary_normalize prec emax (if s then - frac else frac) e s)
  | _ => nan
  end.

(** [x % 1.0] on floats ([float_rem] of CPython): the remainder takes the
    sign of the divisor. *)
Definition mod1 (x : float) : float :=
  let m := fmod1 x in
  if (m =? 0)%float then 0%float
  else if (m <? 0)%float then (m + 1)%float
  else m.

(** [x / y] on floats: a zero divisor raises. *)
Definition div (x y : float) : result float :=
  if (y =? 0)%float then Raise ZeroDivisionError else Ok (x / y)%float.

(** [max(a, b, c)] and [min(a, b, c)]: the first item is kept unless a
    later one compares strictly greater (smaller). *)
Definition max (a b c : float) : float :=
  let m := if (a <? b)%float then b else a in
  if (m <? c)%float then c else m.

Definition min (a b c : float) : float :=
  let m := if (b <? a)%float then b else a in
  if (c <? m)%float then c else m.

(** *** Strings *)

Definition is_hash (c : ascii) : bool := Ascii.eqb c "#"%char.

Fixpoint lstrip_hash (s : string) : string :=
  match s with
  | String c s' => if is_hash c then lstrip_hash s' else s
  | EmptyString => EmptyString
  end.

Fixpoint rstrip_hash (s : string) : string :=
  match s with
  | String c s' =>
      match rstrip_hash s' with
      | EmptyString => if is_hash c then EmptyString else String c EmptyString
      | t => String c t
      end
  | EmptyString => EmptyString
  end.

(** [s.strip("#")]: every leading and every trailing '#' goes. *)
Definition strip_hash (s : string) : string := rstrip_hash (lstrip_hash s).

(** [s.startswith("#")]. *)
Definition startswith_hash (s : string) : bool :=
  match s with
  | String c _ => is_hash c
  | EmptyString => false
  end.

(** [len(s)] as an integer and the slice [s[i:j]] for [0 <= i <= j]. *)
Definition len (s : string) : Z := Z.of_nat (String.length s).

Definition slice (s : string) (i j : Z) : string :=
  substring (Z.to_nat i) (Z.to_nat (j - i)) s.

(** The value of a hexadecimal digit, either case. *)
Definition hex_digit (c : ascii) : option Z :=
  let n := Z.of_N (N_of_ascii c) in
  if (48 <=? n) && (n <=? 57) then Some (n - 48)
  else if (97 <=? n) && (n <=? 102) then Some (n - 87)
  else if (65 <=? n) && (n <=? 70) then Some (n - 55)
  else None.

Fixpoint hex_value (acc : Z) (s : string) : option Z :=
  match s with
  | EmptyString => Some acc
  | String c s' =>
      match hex_digit c with
      | Some d => hex_value (16 * acc + d) s'
      | None => None
      end
  end.

(** [int(s, 16)] on strings of hexadecimal digits.  The empty string and
    any other character raise [ValueError].  (CPython also accepts
    surrounding blanks, a sign, a [0x] prefix and single underscores; no
    statement below concerns such strings.) *)
Definition int16 (s : string) : result Z :=
  match s with
  | EmptyString => Raise (ValueError "invalid literal for int() with base 16")
  | _ =>
      match hex_value 0 s with
      | Some n => Ok n
      | None => Raise (ValueError "invalid literal for int() with base 16")
      end
  end.

(** ["%02x" % n]: lowercase hexadecimal, padded with zeros to two
    characters, the sign counting as one. *)
Definition hex_of_nonneg (n : Z) : string :=
  NilZero.string_of_uint (N.to_hex_uint (Z.to_N n)).

Definition format_02x (n : Z) : string :=
  let s := if n <? 0 then "-" +:+ hex_of_nonneg (- n) else hex_of_nonneg n in
  if (String.length s <? 2)%nat then "0" +:+ s else s.

End Py.

(** ** More of the builtins: two-argument [min] and [max], ["%d"], ["%0.2f"] *)

Module PyFormat.

(** [min(x, y)] and [max(x, y)]: the first argument is kept unless the
    second compares strictly smaller (greater). *)
Definition min2 (x y : float) : float := if (y <? x)%float then y else x.
Definition max2 (x y : float) : float := if (x <? y)%float then y else x.

(** ["%d" % n] for an integer. *)
Definition format_d (n : Z) : string :=
  DecimalString.NilZero.string_of_int (Z.to_int n).

(** Two decimal digits of a number below 100. *)
Definition two_digits (n : Z) : string :=
  let s := DecimalString.NilZero.string_of_uint (N.to_uint (Z.to_N n)) in
  if (String.length s <? 2)%nat then "0" +:+ s else s.

(** ["%0.2f" % x]: the exact binary value rounded to two decimals, ties to
    even; the sign of a negative zero is kept. *)
Definition format_2f (x : float) : string :=
  match Prim2SF x with
  | S754_nan => "nan"
  | S754_infinity s => if s then "-inf" else "inf"
  | S754_zero s => if s then "-0.00" else "0.00"
  | S754_finite s m e =>
      let n :=
        if 0 <=? e then 100 * (Z.pos m * 2 ^ e)
        else
          let d := 2 ^ (- e) in
          let q := (100 * Z.pos m) / d in
          match 2 * ((100 * Z.pos m) mod d) ?= d with
          | Lt => q
          | Gt => q + 1
          | Eq => if Z.even q then q else q + 1
          end in
      (if s then "-" else "") +:+
      DecimalString.NilZero.string_of_uint (N.to_uint (Z.to_N (n / 100))) +:+ "." +:+
      two_digits (n mod 100)
  end.

End PyFormat.

(** ** The module [colorsys] of the standard library (CPython 3.12) *)

Module colorsys.
Local Open Scope float_scope.

Definition ONE_THIRD : float := 1.0 / 3.0.
Definition ONE_SIXTH : float := 1.0 / 6.0.
Definition TWO_THIRD : float := 2.0 / 3.0.

Definition rgb_to_yiq (r g b : float) : float * float * float :=
  let y := 0.30 * r + 0.59 * g + 0.11 * b in
  let i := 0.74 * (r - y) - 0.27 * (b - y) in
  let q := 0.48 * (r - y) + 0.41 * (b - y) in
  (y, i, q).

Definition yiq_to_rgb (y i q : float) : float * float * float :=
  let r := y + 0.9468822170900693 * i + 0.6235565819861433 * q in
  let g := y - 0.27478764629897834 * i - 0.6356910791873801 * q in
  let b := y - 1.1085450346420322 * i + 1.7090069284064666 * q in
  let r := if r <? 0.0 then 0.0 else r in
  let g := if g <? 0.0 then 0.0 else g in
  let b := if b <? 0.0 then 0.0 else b in
  let r := if 1.0 <? r then 1.0 else r in
  let g := if 1.0 <? g then 1.0 else g in
  let b := if 1.0 <? b then 1.0 else b in
  (r, g, b).

Definition rgb_to_hls (r g b : float) : result (float * float * float) :=
  let maxc := Py.max r g b in
  let minc := Py.min r g b in
  let sumc := maxc + minc in
  let rangec := maxc - minc in
  let l := sumc / 2.0 in
  if minc =? maxc then Ok (0.0, l, 0.0)
  else
    s ← (if l <=? 0.5 then Py.div rangec sumc
         else Py.div rangec (2.0 - maxc - minc));
    rc ← Py.div (maxc - r) rangec;
    gc ← Py.div (maxc - g) rangec;
    bc ← Py.div (maxc - b) rangec;
    let h := if r =? maxc then bc - gc
             else if g =? maxc then 2.0 + rc - bc
             else 4.0 + gc - rc in
    Ok (Py.mod1 (h / 6.0), l, s).

Definition _v (m1 m2 hue : float) : float :=
  let hue := Py.mod1 hue in
  if hue <? ONE_SIXTH then m1 + (m2 - m1) * hue * 6.0
  else if hue <? 0.5 then m2
  else if hue <? TWO_THIRD then m1 + (m2 - m1) * (TWO_THIRD - hue) * 6.0
  else m1.

Definition hls_to_rgb (h l s : float) : float * float * float :=
  if s =? 0.0 then (l, l, l)
  else
    let m2 := if l <=? 0.5 then l * (1.0 + s) else l + s - (l * s) in
    let m1 := 2.0 * l - m2 in
    (_v m1 m2 (h + ONE_THIRD), _v m1 m2 h, _v m1 m2 (h - ONE_THIRD)).

End colorsys.

(** ** The data model *)

(** The six projections, named in the source by the decorated method
    ([f.__name__] in [colorspace], [name] in [ColorSpace]). *)
Inductive space : Type := srgb | linear_rgb | rgb8 | hls | hsl | yiq.

Definition fname (f : space) : string :=
  match f with
  | srgb => "srgb"
  | linear_rgb => "linear_rgb"
  | rgb8 => "rgb8"
  | hls => "hls"
  | hsl => "hsl"
  | yiq => "yiq"
  end.

(** [Color.workspace] names the projection that [rgb] stands for.  [rgb] is
    well founded for the two names below; with any other name the getter of
    [rgb] recurses without bound or raises, and such Colors are outside the
    model. *)
Inductive workspace_name : Type := ws_srgb | ws_linear_rgb.

Definition workspace_space (ws : workspace_name) : space :=
  match ws with
  | ws_srgb => srgb
  | ws_linear_rgb => linear_rgb
  end.

(** References to [ColorSpace] objects: positions in the store's heap. *)
Definition loc : Type := nat.

(** A [ColorSpace] object.  [parent] is the one [Color] of the store.  The
    four attributes bound by [__init__] are fields; [extra] holds whatever
    else [__setattr__] has put into the instance dictionary. *)
Record ColorSpace : Type := mkColorSpace {
  name : space;
  axes : list string;
  coords : gmap string float;
  extra : gmap string float
}.

(** The attributes of a [Color] object. *)
Record Color : Type := mkColor {
  _r : float;
  _g : float;
  _b : float;
  _a : float;
  a : float;
  workspace : workspace_name;
  spaces : gmap string loc
}.

(** The store: a [Color] and the [ColorSpace] objects created for it, cached
    or not. *)
Record Store : Type := mkStore {
  self : Color;
  heap : list ColorSpace
}.

(** ** Methods as store transformers *)

Definition M (A : Type) : Type := Store -> Store * result A.

#[global] Instance M_ret : MRet M := fun _ x st => (st, Ok x).
#[global] Instance M_bind : MBind M := fun _ _ f m st =>
  match m st with
  | (st', Ok x) => f x st'
  | (st', Raise e) => (st', Raise e)
  end.

Definition raise {A : Type} (e : error) : M A := fun st => (st, Raise e).
Definition lift {A : Type} (r : result A) : M A := fun st => (st, r).

Definition get_self : M Color := fun st => (st, Ok (self st)).
Definition put_self (c : Color) : M unit := fun st => (mkStore c (heap st), Ok tt).

(** A new object gets the next free position of the heap. *)
Definition alloc (sp : ColorSpace) : M loc := fun st =>
  (mkStore (self st) (heap st ++ [sp]), Ok (length (heap st))).

Definition deref (l : loc) : M ColorSpace := fun st =>
  (st, match heap st !! l with
       | Some sp => Ok sp
       | None => Raise Dangling
       end).

Definition update (l : loc) (sp : ColorSpace) : M unit := fun st =>
  (mkStore (self st) (<[l := sp]> (heap st)), Ok tt).

(** *** Sequences handed to the setters *)

(** [v[i]]. *)
Definition item (v : list float) (i : nat) : result float :=
  match v !! i with
  | Some x => Ok x
  | None => Raise IndexError
  end.

(** [x, y, z = v]. *)
Definition unpack3 (v : list float) : result (float * float * float) :=
  match v with
  | [x; y; z] => Ok (x, y, z)
  | _ => Raise (ValueError "wrong number of values to unpack")
  end.

(** [f( *v )] for a function of three positional parameters. *)
Definition star3 (v : list float) : result (float * float * float) :=
  match v with
  | [x; y; z] => Ok (x, y, z)
  | _ => Raise TypeError
  end.

(** ** [hex_to_rgb] *)

Definition hex_to_rgb (h : string) : result (Z * Z * Z) :=
  let h := Py.strip_hash h in
  if negb (Py.len h mod 3 =? 0) then Raise (ValueError "Invalid hex color")
  else
    let i := Py.len h / 3 in
    let vals := (Py.slice h 0 i, Py.slice h i (2 * i), Py.slice h (2 * i) (3 * i)) in
    let vals := if Py.len h =? 3
                then (vals.1.1 +:+ vals.1.1, vals.1.2 +:+ vals.1.2, vals.2 +:+ vals.2)
                else vals in
    r ← Py.int16 vals.1.1;
    g ← Py.int16 vals.1.2;
    b ← Py.int16 vals.2;
    Ok (r, g, b).

(** ** [ColorSpace]: construction and reads *)

(** What an attribute read can yield. *)
Inductive value : Type :=
| VNone
| VNum (x : float)
| VStr (s : string)
| VAxes (l : list string)
| VCoords (m : gmap string float)
| VParent.

(** A value used as a number; anything else makes the arithmetic raise. *)
Definition number (v : value) : result float :=
  match v with
  | VNum x => Ok x
  | _ => Raise TypeError
  end.

(** [dict(coords)]: a later pair replaces an earlier one with the same key. *)
Definition dict_of (cs : list (string * float)) : gmap string float :=
  foldl (fun m p => <[p.1 := p.2]> m) ∅ cs.

(** [ColorSpace.__init__(self, parent, name, coords)]. *)
Definition ColorSpace_init (f : space) (cs : list (string * float)) : ColorSpace :=
  {| name := f; axes := map fst cs; coords := dict_of cs; extra := ∅ |}.

(** The instance dictionary [self.__dict__]. *)
Definition ColorSpace_dict (sp : ColorSpace) (k : string) : option value :=
  if String.eqb k "parent" then Some VParent
  else if String.eqb k "name" then Some (VStr (fname (name sp)))
  else if String.eqb k "axes" then Some (VAxes (axes sp))
  else if String.eqb k "coords" then Some (VCoords (coords sp))
  else VNum <$> extra sp !! k.

(** [ColorSpace.__getattr__(self, k)], the hook Python calls when the
    ordinary lookup of [k] fails: when neither test holds the body ends and
    the call returns [None]. *)
Definition ColorSpace_getattr (sp : ColorSpace) (k : string) : value :=
  match coords sp !! k with
  | Some x => VNum x
  | None =>
      match ColorSpace_dict sp k with
      | Some v => v
      | None => VNone
      end
  end.

(** The expression [sp.k]: the instance dictionary first, the hook
    otherwise.  (The methods and special attributes of the class are not
    modelled.) *)
Definition attribute (sp : ColorSpace) (k : string) : value :=
  match ColorSpace_dict sp k with
  | Some v => v
  | None => ColorSpace_getattr sp k
  end.

(** [ColorSpace.__getitem__(self, k)]: [getattr(self, 'coords', k)[k]]. *)
Definition ColorSpace_getitem (sp : ColorSpace) (k : string) : result float :=
  match coords sp !! k with
  | Some x => Ok x
  | None => Raise (KeyError k)
  end.

(** [tuple(self)] through [ColorSpace.__iter__]: [self.coords[a]] for each
    [a] of [self.axes], in order. *)
Fixpoint coords_in_order (m : gmap string float) (ks : list string) : result (list float) :=
  match ks with
  | [] => Ok []
  | k :: ks' =>
      match m !! k with
      | Some x => xs ← coords_in_order m ks'; Ok (x :: xs)
      | None => Raise (KeyError k)
      end
  end.

Definition ColorSpace_tuple (sp : ColorSpace) : result (list float) :=
  coords_in_order (coords sp) (axes sp).

(** ** [Color] *)

(** Functional updates of the attributes of a [Color]. *)
Definition with__r (c : Color) (v : float) : Color :=
  mkColor v (_g c) (_b c) (_a c) (a c) (workspace c) (spaces c).
Definition with__g (c : Color) (v : float) : Color :=
  mkColor (_r c) v (_b c) (_a c) (a c) (workspace c) (spaces c).
Definition with__b (c : Color) (v : float) : Color :=
  mkColor (_r c) (_g c) v (_a c) (a c) (workspace c) (spaces c).
Definition with_a (c : Color) (v : float) : Color :=
  mkColor (_r c) (_g c) (_b c) (_a c) v (workspace c) (spaces c).
Definition with_spaces (c : Color) (m : gmap string loc) : Color :=
  mkColor (_r c) (_g c) (_b c) (_a c) (a c) (workspace c) m.

(** The attribute names [clamped_property] is instantiated with. *)
Inductive attr : Type := attr__r | attr__g | attr__b.

Definition getattr (c : Color) (n : attr) : float :=
  match n with
  | attr__r => _r c
  | attr__g => _g c
  | attr__b => _b c
  end.

Definition setattr (c : Color) (n : attr) (v : float) : Color :=
  match n with
  | attr__r => with__r c v
  | attr__g => with__g c v
  | attr__b => with__b c v
  end.

(** [clamped_property(name, lo, hi)]: the getter and the setter of the
    property it returns. *)
Definition clamped_getter (n : attr) : M float :=
  c ← get_self; mret (getattr c n).

Definition clamped_setter (n : attr) (lo hi : float) (v : float) : M unit :=
  if ((v <? lo) || (hi <? v))%float
  then raise (ValueError "Outside of valid range")
  else c ← get_self; put_self (setattr c n v).

(** [r = clamped_property("_r", 0, 1)] and its siblings. *)
Definition Color_r : M float := clamped_getter attr__r.
Definition Color_g : M float := clamped_getter attr__g.
Definition Color_b : M float := clamped_getter attr__b.
Definition Color_set_r : float -> M unit := clamped_setter attr__r 0 1.
Definition Color_set_g : float -> M unit := clamped_setter attr__g 0 1.
Definition Color_set_b : float -> M unit := clamped_setter attr__b 0 1.

(** [self.a] is an ordinary attribute: the class defines no property of
    that name, so [color.a = v] binds it. *)
Definition Color_a : M float := c ← get_self; mret (a c).
Definition Color_set_a (v : float) : M unit := c ← get_self; put_self (with_a c v).

(** [self.spaces = {}]. *)
Definition clear_spaces : M unit := c ← get_self; put_self (with_spaces c ∅).

(** [colorspace(f)]: the getter [prop_get] of the property built around the
    method [f], whose body is [body]. *)
Definition colorspace (f : space) (body : M (list (string * float))) : M loc :=
  c ← get_self;
  match spaces c !! fname f with
  | Some l => mret l
  | None =>
      cs ← body;
      l ← alloc (ColorSpace_init f cs);
      c' ← get_self;
      put_self (with_spaces c' (<[fname f := l]> (spaces c')));;
      mret l
  end.

(** The keyword of a keyword argument of the constructor, by what
    [getattr(self, k)] does in [__init__]: the name of a projection; [rgb],
    the alias of the workspace; [hex] and [css], the two properties that
    read a projection and return a string; [kw_other], the name of any
    other attribute a Color has ([r], [g], [b], [luminance], [spaces], a
    method, ...), whose read changes nothing and yields no [ColorSpace];
    [kw_unknown], a name that is no attribute of a Color.  ([self],
    [descr], [a] and [workspace] are parameters of [__init__], never keys
    of [kwargs].) *)
Inductive keyword : Type :=
| kw_space (f : space)
| kw_rgb
| kw_hex
| kw_css
| kw_other
| kw_unknown.

(** [e.k] for an expression [e] yielding a [ColorSpace], read as a number. *)
Definition coord (e : M loc) (k : string) : M float :=
  l ← e; sp ← deref l; lift (number (attribute sp k)).

Section WithPow.

(** [x ** y] on floats is the C library's [pow], which CPython lets raise
    [OverflowError] or [ZeroDivisionError]; its values are left to the
    platform. *)
Variable fpow : float -> float -> result float.

Local Open Scope float_scope.

(** The [tx] of the getter of [srgb] (gamma encoding). *)
Definition srgb_tx (c : float) : result float :=
  if c <=? 0.0031308 then Ok (12.92 * c)
  else p ← fpow c (1 / 2.4); Ok (1.055 * p - 0.055).

(** The [tx] of the setter of [srgb] (gamma decoding). *)
Definition srgb_setter_tx (c : float) : result float :=
  if c <=? 0.04045 then Ok (c / 12.92)
  else fpow ((c + 0.055) / 1.055) 2.4.

(** *** Getters *)

Definition Color_srgb : M loc :=
  colorspace srgb
    (r ← Color_r; x ← lift (srgb_tx r);
     g ← Color_g; y ← lift (srgb_tx g);
     b ← Color_b; z ← lift (srgb_tx b);
     mret [("r", x); ("g", y); ("b", z)]).

Definition Color_linear_rgb : M loc :=
  colorspace linear_rgb
    (r ← Color_r; g ← Color_g; b ← Color_b;
     mret [("r", r); ("g", g); ("b", b)]).

(** [rgb]: [getattr(self, self.workspace)]. *)
Definition Color_rgb : M loc :=
  c ← get_self;
  match workspace c with
  | ws_srgb => Color_srgb
  | ws_linear_rgb => Color_linear_rgb
  end.

Definition Color_rgb8 : M loc :=
  colorspace rgb8
    (r ← coord Color_rgb "r"; x ← lift (Py.round (r * 255));
     g ← coord Color_rgb "g"; y ← lift (Py.round (g * 255));
     b ← coord Color_rgb "b"; z ← lift (Py.round (b * 255));
     mret [("r", Py.float_of_Z x); ("g", Py.float_of_Z y); ("b", Py.float_of_Z z)]).

Definition Color_hls : M loc :=
  colorspace hls
    (r ← coord Color_rgb "r";
     g ← coord Color_rgb "g";
     b ← coord Color_rgb "b";
     t ← lift (colorsys.rgb_to_hls r g b);
     mret [("h", t.1.1); ("l", t.1.2); ("s", t.2)]).

Definition Color_hsl : M loc :=
  colorspace hsl
    (l ← Color_hls; sp ← deref l;
     t ← lift (ColorSpace_tuple sp);
     h0 ← lift (item t 0);
     h2 ← lift (item t 2);
     h1 ← lift (item t 1);
     mret [("h", h0); ("s", h2); ("l", h1)]).

Definition Color_yiq : M loc :=
  colorspace yiq
    (r ← coord Color_rgb "r";
     g ← coord Color_rgb "g";
     b ← coord Color_rgb "b";
     let t := colorsys.rgb_to_yiq r g b in
     mret [("y", t.1.1); ("i", t.1.2); ("q", t.2)]).

(** *** Setters *)

Definition Color_set_srgb (v : list float) : M unit :=
  clear_spaces;;
  c0 ← lift (item v 0); x ← lift (srgb_setter_tx c0); Color_set_r x;;
  c1 ← lift (item v 1); y ← lift (srgb_setter_tx c1); Color_set_g y;;
  c2 ← lift (item v 2); z ← lift (srgb_setter_tx c2); Color_set_b z.

Definition Color_set_linear_rgb (v : list float) : M unit :=
  clear_spaces;;
  t ← lift (unpack3 v);
  Color_set_r t.1.1;;
  Color_set_g t.1.2;;
  Color_set_b t.2.

(** [rgb.setter]: [setattr(self, self.workspace, v)]. *)
Definition Color_set_rgb (v : list float) : M unit :=
  c ← get_self;
  match workspace c with
  | ws_srgb => Color_set_srgb v
  | ws_linear_rgb => Color_set_linear_rgb v
  end.

Definition Color_set_rgb8 (v : list float) : M unit :=
  clear_spaces;;
  v0 ← lift (item v 0);
  v1 ← lift (item v 1);
  v2 ← lift (item v 2);
  Color_set_rgb [v0 / 255.0; v1 / 255.0; v2 / 255.0].

Definition Color_set_hls (v : list float) : M unit :=
  clear_spaces;;
  t ← lift (star3 v);
  let u := colorsys.hls_to_rgb t.1.1 t.1.2 t.2 in
  Color_set_rgb [u.1.1; u.1.2; u.2].

Definition Color_set_hsl (v : list float) : M unit :=
  clear_spaces;;
  v0 ← lift (item v 0);
  v2 ← lift (item v 2);
  v1 ← lift (item v 1);
  Color_set_hls [v0; v2; v1].

Definition Color_set_yiq (v : list float) : M unit :=
  clear_spaces;;
  t ← lift (star3 v);
  let u := colorsys.yiq_to_rgb t.1.1 t.1.2 t.2 in
  Color_set_rgb [u.1.1; u.1.2; u.2].

(** [getattr(color, name)] and [setattr(color, name, v)] for the name of a
    projection. *)
Definition Color_getattr (f : space) : M loc :=
  match f with
  | srgb => Color_srgb
  | linear_rgb => Color_linear_rgb
  | rgb8 => Color_rgb8
  | hls => Color_hls
  | hsl => Color_hsl
  | yiq => Color_yiq
  end.

Definition Color_setattr (f : space) (v : list float) : M unit :=
  match f with
  | srgb => Color_set_srgb v
  | linear_rgb => Color_set_linear_rgb v
  | rgb8 => Color_set_rgb8 v
  | hls => Color_set_hls v
  | hsl => Color_set_hsl v
  | yiq => Color_set_yiq v
  end.

(** *** [ColorSpace.__setattr__] *)

Definition with_coords (sp : ColorSpace) (m : gmap string float) : ColorSpace :=
  mkColorSpace (name sp) (axes sp) m (extra sp).
Definition with_extra (sp : ColorSpace) (m : gmap string float) : ColorSpace :=
  mkColorSpace (name sp) (axes sp) (coords sp) m.

(** [sp.k = v] on the object at [l], after its construction (so that
    ['coords' in self.__dict__] holds).  Rebinding one of the four
    attributes of [__init__] is not modelled. *)
Definition ColorSpace_setattr (l : loc) (k : string) (v : float) : M unit :=
  sp ← deref l;
  match coords sp !! k with
  | Some _ =>
      update l (with_coords sp (<[k := v]> (coords sp)));;
      sp' ← deref l;
      t ← lift (ColorSpace_tuple sp');
      Color_setattr (name sp') t
  | None => update l (with_extra sp (<[k := v]> (extra sp)))
  end.

(** *** [hex] *)

(** One ["%02x"] of the format of [hex], applied to a coordinate: the
    coordinates of [rgb8] are the integers of [round], carried as integral
    floats; a value that is no integer is refused by the format. *)
Definition format_coord (x : float) : result string :=
  match Py.int_of_float x with
  | Some n => Ok (Py.format_02x n)
  | None => Raise TypeError
  end.

Definition Color_hex : M string :=
  r ← coord Color_rgb8 "r";
  g ← coord Color_rgb8 "g";
  b ← coord Color_rgb8 "b";
  x ← lift (format_coord r);
  y ← lift (format_coord g);
  z ← lift (format_coord b);
  mret ("#" +:+ x +:+ y +:+ z)%string.

(** *** [css] and the constructor *)

(** [round(v * 255) for v in self.srgb]: the generator of [__iter__] is
    consumed one coordinate at a time. *)
Fixpoint css_channels (m : gmap string float) (ks : list string) : result (list Z) :=
  match ks with
  | [] => Ok []
  | k :: ks' =>
      match m !! k with
      | Some v => n ← Py.round (v * 255); ns ← css_channels m ks'; Ok (n :: ns)
      | None => Raise (KeyError k)
      end
  end.

(** [Color.css]: the formats take exactly three (four) arguments. *)
Definition Color_css : M string :=
  l ← Color_srgb; sp ← deref l;
  ns ← lift (css_channels (coords sp) (axes sp));
  c ← get_self;
  if a c <? 1 then
    match ns with
    | [x; y; z] =>
        mret ("rgba(" +:+ PyFormat.format_d x +:+ ", " +:+ PyFormat.format_d y +:+ ", "
              +:+ PyFormat.format_d z +:+ ", " +:+ PyFormat.format_2f (a c) +:+ ")")%string
    | _ => raise TypeError
    end
  else
    match ns with
    | [x; y; z] =>
        mret ("rgb(" +:+ PyFormat.format_d x +:+ ", " +:+ PyFormat.format_d y +:+ ", "
              +:+ PyFormat.format_d z +:+ ")")%string
    | _ => raise TypeError
    end.

(** The loop of [__init__] over [kwargs], in the order of the call:
    [getattr(self, k)] is evaluated for each key; the first one that yields
    a [ColorSpace] is assigned its value and ends the constructor, the
    others are passed over with whatever their read has done. *)
Fixpoint Color_init_kwargs (kwargs : list (keyword * list float)) : M unit :=
  match kwargs with
  | [] => mret tt
  | (kw_space f, v) :: _ => Color_getattr f;; Color_setattr f v
  | (kw_rgb, v) :: _ => Color_rgb;; Color_set_rgb v
  | (kw_hex, _) :: rest => Color_hex;; Color_init_kwargs rest
  | (kw_css, _) :: rest => Color_css;; Color_init_kwargs rest
  | (kw_other, _) :: rest => Color_init_kwargs rest
  | (kw_unknown, _) :: _ => raise AttributeError
  end.

(** [Color.__init__(self, descr, a, workspace, **kwargs)], run on the
    object being built.  The guard [descr and descr.startswith("#")] decides
    whether [descr] is parsed.  The integers of [hex_to_rgb] become floats at
    the first division of the setter of [rgb8]. *)

Definition Color_init (descr : option string) (a0 : float)
    (ws : workspace_name) (kwargs : list (keyword * list float)) : M unit :=
  put_self (mkColor 0 0 0 0 0 ws ∅);;
  Color_set_a a0;;
  if match descr with
     | Some d => negb (String.eqb d "") && Py.startswith_hash d
     | None => false
     end
  then
    t ← lift (hex_to_rgb (default "" descr));
    x ← lift (Py.float_of_int t.1.1);
    y ← lift (Py.float_of_int t.1.2);
    z ← lift (Py.float_of_int t.2);
    Color_set_rgb8 [x; y; z]
  else Color_init_kwargs kwargs.

(** [Color(descr, a, workspace, **kwargs)]: the store holding the new
    object, or the exception of [__init__]. *)
Definition Color_new (descr : option string) (a0 : float)
    (ws : workspace_name) (kwargs : list (keyword * list float)) : result Store :=
  match Color_init descr a0 ws kwargs (mkStore (mkColor 0 0 0 0 0 ws ∅) []) with
  | (st, Ok _) => Ok st
  | (_, Raise e) => Raise e
  end.

End WithPow.

(** ** Observations and assignments *)

(** [tuple(e)] for an expression [e] yielding a [ColorSpace]. *)
Definition tuple_of (e : M loc) : M (list float) :=
  l ← e; sp ← deref l; lift (ColorSpace_tuple sp).

(** The test of [clamped_property]'s setter with [lo = 0] and [hi = 1],
    negated: the values the setter stores. *)
Definition in_range (v : float) : bool := negb ((v <? 0) || (1 <? v))%float.

(** The canonical channels [(r, g, b)] of the store's Color. *)
Definition channels (st : Store) : float * float * float :=
  (_r (self st), _g (self st), _b (self st)).

(** The assignments to a Color: [color.r = v] and its siblings,
    [color.a = v], [color.<space> = v] and [color.rgb = v]. *)
Inductive assignment : Type :=
| assign_channel (n : attr) (v : float)
| assign_alpha (v : float)
| assign_space (f : space) (v : list float)
| assign_rgb (v : list float).

Definition assign (fpow : float -> float -> result float) (asg : assignment) : M unit :=
  match asg with
  | assign_channel n v => clamped_setter n 0 1 v
  | assign_alpha v => Color_set_a v
  | assign_space f v => Color_setattr fpow f v
  | assign_rgb v => Color_set_rgb fpow v
  end.

(** ** The write-back formulas as functions of the coordinate tuple

    The table of section 4.1 of the specification, read with the code's
    [rgb] alias: [srgb] decodes each coordinate, [linear_rgb] is the
    identity, and [rgb8], [hls], [hsl] and [yiq] produce the coordinates of
    the workspace projection, which are then written back by its own row. *)

Section WriteBack.

Variable fpow : float -> float -> result float.

Definition decode3 (v : list float) : result (float * float * float) :=
  c0 ← item v 0; x ← srgb_setter_tx fpow c0;
  c1 ← item v 1; y ← srgb_setter_tx fpow c1;
  c2 ← item v 2; z ← srgb_setter_tx fpow c2;
  Ok (x, y, z).

Definition write_back_rgb (ws : workspace_name) (v : list float)
    : result (float * float * float) :=
  match ws with
  | ws_srgb => decode3 v
  | ws_linear_rgb => unpack3 v
  end.

Definition write_back_hls (ws : workspace_name) (v : list float)
    : result (float * float * float) :=
  t ← star3 v;
  let u := colorsys.hls_to_rgb t.1.1 t.1.2 t.2 in
  write_back_rgb ws [u.1.1; u.1.2; u.2].

Definition write_back (ws : workspace_name) (f : space) (v : list float)
    : result (float * float * float) :=
  match f with
  | srgb => decode3 v
  | linear_rgb => unpack3 v
  | rgb8 =>
      v0 ← item v 0; v1 ← item v 1; v2 ← item v 2;
      write_back_rgb ws [v0 / 255.0; v1 / 255.0; v2 / 255.0]%float
  | hls => write_back_hls ws v
  | hsl =>
      v0 ← item v 0; v2 ← item v 2; v1 ← item v 1;
      write_back_hls ws [v0; v2; v1]
  | yiq =>
      t ← star3 v;
      let u := colorsys.yiq_to_rgb t.1.1 t.1.2 t.2 in
      write_back_rgb ws [u.1.1; u.1.2; u.2]
  end.

(** The coordinates of the workspace projection derived from the
    canonical channels: what [self.rgb] holds after a cache miss. *)
Definition derive_rgb (ws : workspace_name) (c : float * float * float)
    : result (float * float * float) :=
  match ws with
  | ws_srgb =>
      x ← srgb_tx fpow c.1.1; y ← srgb_tx fpow c.1.2; z ← srgb_tx fpow c.2;
      Ok (x, y, z)
  | ws_linear_rgb => Ok c
  end.

(** *** The 8-bit round trip of one channel

    For the 8-bit value [k]: the workspace's write-back of [k / 255.0] is
    defined and passes the range test, and deriving the workspace
    coordinate from it and scaling by 255 rounds to [k] again. *)
Definition channel_write (ws : workspace_name) (x : float) : result float :=
  match ws with
  | ws_srgb => srgb_setter_tx fpow x
  | ws_linear_rgb => Ok x
  end.

Definition channel_read (ws : workspace_name) (c : float) : result float :=
  match ws with
  | ws_srgb => srgb_tx fpow c
  | ws_linear_rgb => Ok c
  end.

Definition channel_exact (ws : workspace_name) (k : Z) : bool :=
  match channel_write ws (Py.float_of_Z k / 255.0)%float with
  | Ok c =>
      in_range c &&
      match channel_read ws c with
      | Ok e =>
          match Py.round (e * 255)%float with
          | Ok k' => k' =? k
          | Raise _ => false
          end
      | Raise _ => false
      end
  | Raise _ => false
  end.

Definition gamma_exact (ws : workspace_name) : bool :=
  forallb (fun n => channel_exact ws (Z.of_nat n)) (seq 0 256).

End WriteBack.

(** ** Hexadecimal strings, in the words of the specification *)

Definition is_hex_digit (c : ascii) : bool :=
  match Py.hex_digit c with
  | Some _ => true
  | None => false
  end.

Fixpoint all_hex (s : string) : bool :=
  match s with
  | EmptyString => true
  | String c s' => is_hex_digit c && all_hex s'
  end.

(** A valid input: three or six hexadecimal digits, either case. *)
Definition valid_hex (d : string) : bool :=
  all_hex d && ((String.length d =? 3)%nat || (String.length d =? 6)%nat).

Definition lower (c : ascii) : ascii :=
  let n := N_of_ascii c in
  if ((65 <=? n) && (n <=? 90))%N then ascii_of_N (n + 32) else c.

Fixpoint lowercase (s : string) : string :=
  match s with
  | EmptyString => EmptyString
  | String c s' => String (lower c) (lowercase s')
  end.

Fixpoint double_digits (s : string) : string :=
  match s with
  | EmptyString => EmptyString
  | String c s' => String c (String c (double_digits s'))
  end.

(** The normalized form: ['#'], then six lowercase digits, a three-digit
    shorthand expanded by doubling each digit. *)
Definition normalized (d : string) : string :=
  "#" +:+ lowercase (if (String.length d =? 3)%nat then double_digits d else d).

(** ** A stand-in for the C library's [pow]

    Used to run the model on examples only: [exp (y * ln x)] for a positive
    finite [x], by series, accurate to about fifteen significant digits (the
    last digits may differ from the platform's).  The statements about the
    methods hold for every [pow]. *)

Module Libm.
Local Open Scope float_scope.

Definition LN2 : float := 0.6931471805599453.
Definition SQRT2 : float := 1.4142135623730951.

(** [1/k + t2/(k-2) + ...] by Horner's rule, [n] terms, [k] odd. *)
Fixpoint atanh_series (n : nat) (t2 : float) (k : Z) (acc : float) : float :=
  match n with
  | O => acc
  | S n' => atanh_series n' t2 (k - 2) (1 / Py.float_of_Z k + t2 * acc)
  end.

Definition ln (x : float) : float :=
  match Prim2SF x with
  | S754_finite false m e =>
      let w := Z.log2 (Z.pos m) in
      let f := Py.float_of_Z (Z.pos m) / Py.float_of_Z (2 ^ w) in
      let fe := if SQRT2 <? f then (f / 2, (e + w + 1)%Z) else (f, (e + w)%Z) in
      let t := (fe.1 - 1) / (fe.1 + 1) in
      2 * t * atanh_series 14 (t * t) 27 0 + Py.float_of_Z fe.2 * LN2
  | _ => nan
  end.

Fixpoint exp_series (n : nat) (r : float) (k : Z) (acc : float) : float :=
  match n with
  | O => acc
  | S n' => exp_series n' r (k - 1) (1 + r * acc / Py.float_of_Z k)
  end.

Definition exp (z : float) : float :=
  match Py.round (z / LN2) with
  | Ok n =>
      let p := exp_series 20 (z - Py.float_of_Z n * LN2) 20 1 in
      if (0 <=? n)%Z then p * Py.float_of_Z (2 ^ n)
      else p / Py.float_of_Z (2 ^ (- n))
  | Raise _ => nan
  end.

Definition pow (x y : float) : result float :=
  if x =? 0 then Ok 0 else Ok (exp (y * ln x)).

End Libm.

(** ** Stores used in the examples *)

(** [Color()]. *)
Definition blank (ws : workspace_name) : Store :=
  mkStore (mkColor 0 0 0 0 1 ws ∅) [].

(** What a projection setter leaves behind, against the pure formula [wb]
    of the channels: the cache is empty and the heap, alpha and the
    workspace are as in [st]; the assignment succeeds exactly when the
    formula is defined and its three values pass the range test, and then
    they are the new channels. *)
Definition setter_post (st : Store) (wb : result (float * float * float))
    (r : Store * result unit) : Prop :=
  spaces (self r.1) = ∅ /\ heap r.1 = heap st /\
  a (self r.1) = a (self st) /\ _a (self r.1) = _a (self st) /\
  workspace (self r.1) = workspace (self st) /\
  match wb with
  | Ok (x, y, z) =>
      if in_range x && in_range y && in_range z
      then r = (mkStore (mkColor x y z (_a (self st)) (a (self st))
                           (workspace (self st)) ∅) (heap st), Ok tt)
      else (exists e, r.2 = Raise e) /\ _b (self r.1) = _b (self st)
  | Raise _ => (exists e, r.2 = Raise e) /\ _b (self r.1) = _b (self st)
  end.

(** The coordinate tuple of a space after [sp.k = v], axis by axis. *)
Definition updated_tuple (sp : ColorSpace) (k : string) (v : float) : list float :=
  map (fun x => if String.eqb x k then v else default 0%float (coords sp !! x)) (axes sp).

(** Every axis of the space has a coordinate, as [ColorSpace.__init__]
    builds it. *)
Definition axes_have_coords (sp : ColorSpace) : Prop :=
  Forall (fun x => is_Some (coords sp !! x)) (axes sp).

(** The store after a cache miss of the projection [f]: the new object at
    the end of the heap, bound to [f]'s name in the cache. *)
Definition cache_add (st : Store) (f : space) (cs : list (string * float)) : Store :=
  mkStore (with_spaces (self st) (<[fname f := List.length (heap st)]> (spaces (self st))))
          (heap st ++ [ColorSpace_init f cs]).

(** Checks over finite domains, decided by evaluation: the 256 characters
    paired, and the 256 values of an 8-bit channel. *)
Definition all_ascii : list ascii := map ascii_of_nat (seq 0 256).

Definition hex_pair_ok (c1 c2 : ascii) : bool :=
  match Py.hex_digit c1, Py.hex_digit c2 with
  | Some d1, Some d2 =>
      let k := 16 * d1 + d2 in
      (0 <=? k) && (k <? 256) && negb (Py.is_hash c1) &&
      String.eqb (Py.format_02x k) (String (lower c1) (String (lower c2) EmptyString))
  | _, _ => true
  end.

Definition byte_ok (k : Z) : bool :=
  negb (is_infinity (Py.float_of_Z k)) &&
  match Py.int_of_float (Py.float_of_Z k) with
  | Some n => n =? k
  | None => false
  end.

(** [Color("#0a0bcc")], the colour of the module's docstring, with the
    stand-in [pow]. *)
Definition example_0a0bcc : Store :=
  match Color_new Libm.pow (Some "#0a0bcc") 1 ws_srgb [] with
  | Ok st => st
  | Raise _ => blank ws_srgb
  end.

(** ** The rest of [Color]: named constructors, [lighter], [darker],
    [__str__] *)

Section MoreColor.

Variable fpow : float -> float -> result float.

Local Open Scope float_scope.

(** [Color.from_rgb(r, g, b, a)] is [Color(rgb=(r, g, b), a=a)] and
    [Color.from_hls(h, l, s, a)] is [Color(hls=(h, l, s), a=a)]; the
    workspace is the default one. *)
Definition Color_from_rgb (r g b a0 : float) : result Store :=
  Color_new fpow None a0 ws_srgb [(kw_rgb, [r; g; b])].

Definition Color_from_hls (h l s a0 : float) : result Store :=
  Color_new fpow None a0 ws_srgb [(kw_space hls, [h; l; s])].

(** [Color.lighter(self, amt)] and [Color.darker(self, amt)]: the new Color
    lives in a store of its own. *)
Definition Color_lighter (amt : float) : M Store :=
  l0 ← coord (Color_hls fpow) "l";
  let l := PyFormat.min2 (l0 + amt) 1.0 in
  h ← coord (Color_hls fpow) "h";
  s ← coord (Color_hls fpow) "s";
  al ← Color_a;
  lift (Color_from_hls h l s al).

Definition Color_darker (amt : float) : M Store :=
  l0 ← coord (Color_hls fpow) "l";
  let l := PyFormat.max2 (l0 - amt) 0.0 in
  h ← coord (Color_hls fpow) "h";
  s ← coord (Color_hls fpow) "s";
  al ← Color_a;
  lift (Color_from_hls h l s al).

(** [Color.__str__]. *)
Definition Color_str : M string :=
  c ← get_self;
  if a c <? 1 then Color_css fpow else Color_hex fpow.

(** *** The derivation of each projection from the canonical channels

    What the body of each getter computes when nothing it reads is cached:
    a function of the channels and of the workspace. *)

Definition rgb_coords (t : float * float * float) : list (string * float) :=
  [("r", t.1.1); ("g", t.1.2); ("b", t.2)].

Definition derive (ws : workspace_name) (f : space) (c : float * float * float)
    : result (list (string * float)) :=
  match f with
  | srgb => t ← derive_rgb fpow ws_srgb c; Ok (rgb_coords t)
  | linear_rgb => Ok (rgb_coords c)
  | rgb8 =>
      t ← derive_rgb fpow ws c;
      x ← Py.round (t.1.1 * 255);
      y ← Py.round (t.1.2 * 255);
      z ← Py.round (t.2 * 255);
      Ok [("r", Py.float_of_Z x); ("g", Py.float_of_Z y); ("b", Py.float_of_Z z)]
  | hls =>
      t ← derive_rgb fpow ws c;
      u ← colorsys.rgb_to_hls t.1.1 t.1.2 t.2;
      Ok [("h", u.1.1); ("l", u.1.2); ("s", u.2)]
  | hsl =>
      t ← derive_rgb fpow ws c;
      u ← colorsys.rgb_to_hls t.1.1 t.1.2 t.2;
      Ok [("h", u.1.1); ("s", u.2); ("l", u.1.2)]
  | yiq =>
      t ← derive_rgb fpow ws c;
      let u := colorsys.rgb_to_yiq t.1.1 t.1.2 t.2 in
      Ok [("y", u.1.1); ("i", u.1.2); ("q", u.2)]
  end.

(** *** Operations on a Color and its spaces *)

Inductive operation : Type :=
| op_get (f : space)
| op_rgb
| op_hex
| op_css
| op_str
| op_lighter (amt : float)
| op_darker (amt : float)
| op_assign (asg : assignment)
| op_coord (l : loc) (k : string) (v : float).

(** The store an operation leaves, whether it returns or raises. *)
Definition run (op : operation) (st : Store) : Store :=
  match op with
  | op_get f => (Color_getattr fpow f st).1
  | op_rgb => (Color_rgb fpow st).1
  | op_hex => (Color_hex fpow st).1
  | op_css => (Color_css fpow st).1
  | op_str => (Color_str st).1
  | op_lighter amt => (Color_lighter amt st).1
  | op_darker amt => (Color_darker amt st).1
  | op_assign asg => (assign fpow asg st).1
  | op_coord l k v => (ColorSpace_setattr fpow l k v st).1
  end.


(** An operation that reads only. *)
Definition is_read (op : operation) : bool :=
  match op with
  | op_assign _ | op_coord _ _ _ => false
  | _ => true
  end.


End MoreColor.

(** ** Invariants of the store *)

(** Every cache entry names an object of the heap that carries the entry's
    key as its name and has a coordinate for each of its axes. *)
Definition cache_wf (st : Store) : Prop :=
  forall k l, spaces (self st) !! k = Some l ->
    exists sp, heap st !! l = Some sp /\ fname (name sp) = k /\ axes_have_coords sp.

(** No channel is below 0 or above 1. *)
Definition channels_in_range (st : Store) : Prop :=
  in_range (_r (self st)) = true /\ in_range (_g (self st)) = true /\
  in_range (_b (self st)) = true.

(** What a read may do to the store: it adds objects at the end of the heap
    and entries to the cache, under keys of [S] only. *)
Definition reads (S : list string) (st st' : Store) : Prop :=
  channels st' = channels st /\
  a (self st') = a (self st) /\ _a (self st') = _a (self st) /\
  workspace (self st') = workspace (self st) /\
  heap st `prefix_of` heap st' /\
  spaces (self st) ⊆ spaces (self st') /\
  (forall k, k ∉ S -> spaces (self st') !! k = spaces (self st) !! k) /\
  (cache_wf st -> cache_wf st').

Definition reader (S : list string) {A : Type} (m : M A) : Prop :=
  forall st, reads S st (m st).1.

Definition preserves (P : Store -> Prop) {A : Type} (m : M A) : Prop :=
  forall st, P st -> P (m st).1.

(** The names of the six projections. *)
Definition all_names : list string := map fname [srgb; linear_rgb; rgb8; hls; hsl; yiq].

(** An object as [ColorSpace.__init__] builds it from the pairs [cs] under
    the name of [f], to which [__setattr__] may have added attributes, none
    of them under the name of an axis. *)
Definition shaped (sp : ColorSpace) (f : space) (cs : list (string * float)) : Prop :=
  name sp = f /\ axes sp = map fst cs /\ coords sp = dict_of cs /\
  (forall k, k ∈ axes sp -> extra sp !! k = None).

(** Every cached projection is what its derivation gives for the current
    channels. *)
Definition consistent (fpow : float -> float -> result float) (st : Store) : Prop :=
  forall f l, spaces (self st) !! fname f = Some l ->
    exists sp cs,
      heap st !! l = Some sp /\
      derive fpow (workspace (self st)) f (channels st) = Ok cs /\
      shaped sp f cs.

(** A getter of the projection [f] on a store whose cache is consistent:
    it keeps the cache consistent, and it returns an object holding the
    derivation of [f] from the channels, or raises what the derivation
    raises. *)
Definition getter_ok (fpow : float -> float -> result float) (f : space) (m : M loc)
    : Prop :=
  forall st, consistent fpow st ->
    consistent fpow (m st).1 /\
    match derive fpow (workspace (self st)) f (channels st) with
    | Ok cs =>
        exists l sp, (m st).2 = Ok l /\ heap (m st).1 !! l = Some sp /\
                     spaces (self (m st).1) !! fname f = Some l /\ shaped sp f cs
    | Raise e => (m st).2 = Raise e
    end.

(** The body of the getter of [f]: it computes the derivation. *)
Definition body_ok (fpow : float -> float -> result float) (f : space)
    (body : M (list (string * float))) : Prop :=
  forall st, consistent fpow st ->
    exists st1, consistent fpow st1 /\ channels st1 = channels st /\
                workspace (self st1) = workspace (self st) /\
                body st = (st1, derive fpow (workspace (self st)) f (channels st)).

(** A special name: one that begins with two underscores.  Among them are
    [__class__] and [__dict__], descriptors of the class that the attribute
    lookup prefers to the instance dictionary. *)
Definition special_name (k : string) : bool :=
  match k with
  | String "_" (String "_" _) => true
  | _ => false
  end.

(** Whether two characters are told apart by [hex_to_rgb] once one is put
    in lower case. *)
Definition lower_ok (c : ascii) : bool :=
  Bool.eqb (Py.is_hash (lower c)) (Py.is_hash c) &&
  match Py.hex_digit (lower c), Py.hex_digit c with
  | Some x, Some y => x =? y
  | None, None => true
  | _, _ => false
  end.

(** The store holding [Color("#0a0bcc").lighter(0.2)] and the one holding
    [Color("#0a0bcc").darker(0.2)], with the stand-in [pow]. *)
Definition example_lighter : Store :=
  match (Color_lighter Libm.pow 0.2 example_0a0bcc).2 with
  | Ok new => new
  | Raise _ => blank ws_srgb
  end.

Definition example_darker : Store :=
  match (Color_darker Libm.pow 0.2 example_0a0bcc).2 with
  | Ok new => new
  | Raise _ => blank ws_srgb
  end.

(** * Properties *)

Ltac unfold_M :=
  unfold clear_spaces, Color_set_r, Color_set_g, Color_set_b, Color_set_a,
    Color_r, Color_g, Color_b, Color_a, clamped_setter, clamped_getter;
  unfold mbind, mret, M_bind, M_ret, result_bind, result_ret,
    lift, raise, get_self, put_self, alloc, deref, update.

Ltac split_cases :=
  repeat (cbn -[srgb_setter_tx srgb_tx];
          match goal with
          | |- context [match srgb_setter_tx ?p ?c with _ => _ end] =>
              destruct (srgb_setter_tx p c)
          | |- context [if (?x <? ?y)%float || _ then _ else _] =>
              destruct (x <? y)%float
          | |- context [if (?x <? ?y)%float then _ else _] =>
              destruct (x <? y)%float
          | |- context [negb ((?x <? ?y)%float || _)] =>
              destruct (x <? y)%float
          | |- context [negb (?x <? ?y)%float] =>
              destruct (x <? y)%float
          end).

(** ** Assignments to the channels and to alpha *)

Lemma clamped_setter_in_range (n : attr) (v : float) (st : Store) :
  in_range v = true ->
  clamped_setter n 0 1 v st = (mkStore (setattr (self st) n v) (heap st), Ok tt).
Proof.
  unfold in_range, clamped_setter. intros H.
  destruct ((v <? 0)%float || (1 <? v)%float); [discriminate|reflexivity].
Qed.

Lemma clamped_setter_out_of_range (n : attr) (v : float) (st : Store) :
  in_range v = false ->
  clamped_setter n 0 1 v st = (st, Raise (ValueError "Outside of valid range")).
Proof.
  unfold in_range, clamped_setter. intros H.
  destruct ((v <? 0)%float || (1 <? v)%float); [reflexivity|discriminate].
Qed.


(** C10: for every Color and every value [v], [color.a = v] succeeds and
    changes the attribute [a] only: the canonical channels, the cache
    (the same keys bound to the same objects) and the objects themselves
    are as before. *)
Theorem alpha_assignment_changes_only_alpha (v : float) (st : Store) :
  Color_set_a v st = (mkStore (with_a (self st) v) (heap st), Ok tt) /\
  a (self (Color_set_a v st).1) = v /\
  channels (Color_set_a v st).1 = channels st /\
  spaces (self (Color_set_a v st).1) = spaces (self st) /\
  heap (Color_set_a v st).1 = heap st.
Proof. repeat split. Qed.

(** C8, evaluated: on [Color()], [color.a = 2] and [color.a = -1] store the
    value and raise nothing; no range test guards the attribute [a]. *)
Example alpha_assignment_is_unchecked :
  Color_set_a 2 (blank ws_srgb) = (mkStore (mkColor 0 0 0 0 2 ws_srgb ∅) [], Ok tt) /\
  Color_set_a (-1) (blank ws_srgb) = (mkStore (mkColor 0 0 0 0 (-1) ws_srgb ∅) [], Ok tt).
Proof. split; reflexivity. Qed.

(** C1, evaluated: on [Color()] whose [hls] has been read, [color.r = 0.002]
    succeeds and leaves the cache as it was, so the next [tuple(color.hls)]
    is the stale [(0, 0, 0)]; from an empty cache the same channels give
    [(0, 0.01292, 1)]. *)
Example channel_assignment_leaves_cache_stale :
  let st1 := (Color_hls Libm.pow (blank ws_srgb)).1 in
  let st2 := (Color_set_r 0.002 st1).1 in
  (Color_set_r 0.002 st1).2 = Ok tt /\
  channels st2 = (0.002, 0, 0)%float /\
  spaces (self st2) = spaces (self st1) /\
  map_to_list (spaces (self st2)) = [("srgb", 0%nat); ("hls", 1%nat)] /\
  (tuple_of (Color_hls Libm.pow) st2).2 = Ok [0; 0; 0]%float /\
  (tuple_of (Color_hls Libm.pow) (clear_spaces st2).1).2
    = Ok [0; 0.012920000000000001; 1]%float.
Proof. vm_compute. repeat split. Qed.

(** ** Assignments to the projections *)

Section Setters.

Variable fpow : float -> float -> result float.

Lemma Color_set_linear_rgb_post (v : list float) (st : Store) :
  setter_post st (unpack3 v) (Color_set_linear_rgb v st).
Proof.
  destruct st as [[r g b a_ al ws sp] hp].
  unfold setter_post, Color_set_linear_rgb, in_range. unfold_M.
  destruct v as [|x [|y [|z [|? ?]]]]; split_cases; repeat split; eauto.
Qed.

Lemma Color_set_srgb_post (v : list float) (st : Store) :
  setter_post st (decode3 fpow v) (Color_set_srgb fpow v st).
Proof.
  destruct st as [[r g b a_ al ws sp] hp].
  unfold setter_post, decode3, Color_set_srgb, in_range. unfold_M.
  destruct v as [|c0 [|c1 [|c2 v]]]; split_cases; repeat split; eauto.
Qed.

Lemma Color_set_rgb_post (v : list float) (st : Store) :
  setter_post st (write_back_rgb fpow (workspace (self st)) v)
    (Color_set_rgb fpow v st).
Proof.
  unfold Color_set_rgb, write_back_rgb, mbind, M_bind, get_self.
  destruct (workspace (self st)).
  - apply Color_set_srgb_post.
  - apply Color_set_linear_rgb_post.
Qed.

(** A setter first clears the cache; what follows starts from the cleared
    store, which differs from the original one in [spaces] only. *)
Lemma setter_post_after_clear (st : Store) wb (m : M unit) :
  setter_post (clear_spaces st).1 wb (m (clear_spaces st).1) ->
  setter_post st wb ((clear_spaces ;; m) st).
Proof. destruct st as [[r g b a_ al ws sp] hp]. exact id. Qed.

Lemma setter_post_raise (st : Store) (e e' : error) :
  setter_post (clear_spaces st).1 (Raise e) ((clear_spaces st).1, Raise e').
Proof. destruct st as [[r g b a_ al ws sp] hp]. cbn. repeat split; eauto. Qed.

Lemma Color_set_hls_post (v : list float) (st : Store) :
  setter_post st (write_back_hls fpow (workspace (self st)) v)
    (Color_set_hls fpow v st).
Proof.
  apply setter_post_after_clear.
  destruct v as [|x [|y [|z [|? ?]]]]; try apply setter_post_raise.
  apply (Color_set_rgb_post _ (clear_spaces st).1).
Qed.

Lemma Color_setattr_post (f : space) (v : list float) (st : Store) :
  setter_post st (write_back fpow (workspace (self st)) f v)
    (Color_setattr fpow f v st).
Proof.
  destruct f; cbn [Color_setattr write_back].
  - apply Color_set_srgb_post.
  - apply Color_set_linear_rgb_post.
  - apply setter_post_after_clear.
    destruct v as [|x [|y [|z v]]]; try apply setter_post_raise.
    apply (Color_set_rgb_post _ (clear_spaces st).1).
  - apply Color_set_hls_post.
  - apply setter_post_after_clear.
    destruct v as [|x [|y [|z v]]]; try apply setter_post_raise.
    apply (Color_set_hls_post _ (clear_spaces st).1).
  - apply setter_post_after_clear.
    destruct v as [|x [|y [|z [|? ?]]]]; try apply setter_post_raise.
    apply (Color_set_rgb_post _ (clear_spaces st).1).
Qed.

(** A failed projection assignment: what is left of the store. *)
Lemma setter_post_failed (st : Store) wb (st' : Store) (e : error) :
  setter_post st wb (st', Raise e) ->
  spaces (self st') = ∅ /\ heap st' = heap st /\ a (self st') = a (self st) /\
  workspace (self st') = workspace (self st) /\ _b (self st') = _b (self st).
Proof.
  intros (Hs & Hh & Ha & _ & Hw & Hm). cbn in *.
  repeat split; try done.
  destruct wb as [[[x y] z]|]; [|by destruct Hm].
  destruct (in_range x && in_range y && in_range z); [discriminate|by destruct Hm].
Qed.

(** C5 (amended): an assignment to a channel or of a tuple that raises
    leaves the store as follows.  A channel assignment [color.r = v] (or
    [g], [b]) leaves it unchanged.  An assignment of a tuple to a
    projection or to [rgb] leaves alpha, the workspace, the channel [b]
    and the objects of the heap unchanged and the cache empty; [r] and
    [g] may already hold their new values.  (Nothing is stated of an
    assignment to alpha.) *)
Theorem failed_assignment_state (asg : assignment) (st st' : Store) (e : error) :
  assign fpow asg st = (st', Raise e) ->
  match asg with
  | assign_channel _ _ => st' = st
  | assign_alpha _ => True
  | assign_space _ _ | assign_rgb _ =>
      spaces (self st') = ∅ /\ heap st' = heap st /\
      a (self st') = a (self st) /\ workspace (self st') = workspace (self st) /\
      _b (self st') = _b (self st)
  end.
Proof.
  destruct asg as [n v|v|f v|v]; cbn [assign]; intros H.
  - destruct (in_range v) eqn:Hv.
    + rewrite clamped_setter_in_range in H by done. discriminate.
    + rewrite clamped_setter_out_of_range in H by done. congruence.
  - exact I.
  - pose proof (Color_setattr_post f v st) as P. rewrite H in P.
    exact (setter_post_failed _ _ _ _ P).
  - pose proof (Color_set_rgb_post v st) as P. rewrite H in P.
    exact (setter_post_failed _ _ _ _ P).
Qed.

End Setters.

Lemma coords_in_order_updated (m : gmap string float) (k : string) (v : float)
    (ks : list string) :
  Forall (fun x => is_Some (m !! x)) ks ->
  coords_in_order (<[k := v]> m) ks
  = Ok (map (fun x => if String.eqb x k then v else default 0%float (m !! x)) ks).
Proof.
  induction 1 as [|x ks [y Hy] _ IH]; [reflexivity|].
  cbn [coords_in_order map]. rewrite IH. 
  destruct (String.eqb_spec x k) as [->|Hne].
  - by rewrite lookup_insert_eq.
  - rewrite lookup_insert_ne by congruence. by rewrite Hy.
Qed.

(** ** Mutating a coordinate *)

Section Mutation.

Variable fpow : float -> float -> result float.

(** C9 (amended): for every cached ColorSpace whose axes all have a
    coordinate, [sp.k = v] for an axis [k] updates the coordinate in place,
    hands the setter of the space's projection the tuple of all its
    coordinates in axis order, and leaves the parent's cache empty (so it
    holds no object cached before, this one included), whether it returns
    or raises.  The assignment returns exactly when the write-back of the
    space is defined on that tuple with values in range, and only then are
    these the parent's channels; otherwise it raises, with the channel [b]
    as before.  The write-back is the code's ([write_back]): for [rgb8],
    [hls], [hsl] and [yiq] the values of the table are handed to the
    workspace projection [rgb], which decodes them under the default
    workspace [srgb]. *)
Theorem coordinate_mutation_writes_back (st : Store) (l : loc) (sp : ColorSpace)
    (k : string) (v : float) :
  spaces (self st) !! fname (name sp) = Some l ->
  heap st !! l = Some sp ->
  axes_have_coords sp ->
  k ∈ axes sp ->
  let t := updated_tuple sp k v in
  let sp' := with_coords sp (<[k := v]> (coords sp)) in
  let r := ColorSpace_setattr fpow l k v st in
  ColorSpace_tuple sp' = Ok t /\
  r = Color_setattr fpow (name sp) t (mkStore (self st) (<[l := sp']> (heap st))) /\
  heap r.1 = <[l := sp']> (heap st) /\
  spaces (self r.1) = ∅ /\
  match write_back fpow (workspace (self st)) (name sp) t with
  | Ok (x, y, z) =>
      if in_range x && in_range y && in_range z
      then r.2 = Ok tt /\ channels r.1 = (x, y, z)
      else (exists e, r.2 = Raise e) /\ _b (self r.1) = _b (self st)
  | Raise _ => (exists e, r.2 = Raise e) /\ _b (self r.1) = _b (self st)
  end.
Proof.
  intros _ Hl Hwf Hk t sp' r.
  assert (Ht : ColorSpace_tuple sp' = Ok t) by exact (coords_in_order_updated _ _ _ _ Hwf).
  assert (Hc : is_Some (coords sp !! k)).
  { unfold axes_have_coords in Hwf. rewrite Forall_forall in Hwf. exact (Hwf k Hk). }
  destruct Hc as [x0 Hx0].
  set (st1 := mkStore (self st) (<[l := sp']> (heap st))).
  assert (Hr : r = Color_setattr fpow (name sp) t st1).
  { subst r. unfold ColorSpace_setattr. unfold mbind at 1, M_bind at 1, deref at 1.
    rewrite Hl, Hx0. unfold mbind at 1, M_bind at 1, update at 1. fold sp' st1.
    unfold mbind at 1, M_bind at 1, deref at 1.
    replace (heap st1 !! l) with (Some sp')
      by (symmetry; apply list_lookup_insert_eq; by eapply lookup_lt_Some).
    unfold mbind at 1, M_bind at 1, lift at 1. rewrite Ht. reflexivity. }
  pose proof (Color_setattr_post fpow (name sp) t st1) as P.
  rewrite <- Hr in P. destruct P as (Hs & Hh & _ & _ & _ & Hm).
  split; [done|]. split; [exact Hr|]. split; [done|]. split; [done|].
  change (workspace (self st1)) with (workspace (self st)) in Hm.
  destruct (write_back fpow (workspace (self st)) (name sp) t) as [[[x y] z]|]; [|exact Hm].
  destruct (in_range x && in_range y && in_range z); [|exact Hm].
  by rewrite Hm.
Qed.
End Mutation.

(** ** The monad and the cache protocol *)

Lemma bind_ok {A B : Type} (m : M A) (f : A -> M B) (st st1 : Store) (x : A) :
  m st = (st1, Ok x) -> (m ≫= f) st = f x st1.
Proof. unfold mbind, M_bind. by intros ->. Qed.

Lemma bind_raise {A B : Type} (m : M A) (f : A -> M B) (st st1 : Store) (e : error) :
  m st = (st1, Raise e) -> (m ≫= f) st = (st1, Raise e).
Proof. unfold mbind, M_bind. by intros ->. Qed.

Lemma colorspace_hit (f : space) body (st : Store) (l : loc) :
  spaces (self st) !! fname f = Some l -> colorspace f body st = (st, Ok l).
Proof. unfold colorspace. unfold_M. by intros ->. Qed.

Lemma colorspace_miss (f : space) body (st st1 : Store) cs :
  spaces (self st) !! fname f = None ->
  body st = (st1, Ok cs) ->
  colorspace f body st = (cache_add st1 f cs, Ok (List.length (heap st1))).
Proof. unfold colorspace. unfold_M. by intros -> ->. Qed.

Lemma colorspace_miss_raise (f : space) body (st st1 : Store) (e : error) :
  spaces (self st) !! fname f = None ->
  body st = (st1, Raise e) ->
  colorspace f body st = (st1, Raise e).
Proof. unfold colorspace. unfold_M. by intros -> ->. Qed.

Lemma cache_add_heap_lookup (st : Store) (f : space) cs :
  heap (cache_add st f cs) !! List.length (heap st) = Some (ColorSpace_init f cs).
Proof. by apply list_lookup_middle. Qed.

Lemma cache_add_spaces_lookup (st : Store) (f : space) cs :
  spaces (self (cache_add st f cs)) !! fname f = Some (List.length (heap st)).
Proof. destruct st as [[] ?]. apply lookup_insert_eq. Qed.

Lemma coord_ok (e : M loc) (k : string) (st st1 : Store) (l : loc) (sp : ColorSpace) (x : float) :
  e st = (st1, Ok l) -> heap st1 !! l = Some sp -> attribute sp k = VNum x ->
  coord e k st = (st1, Ok x).
Proof. unfold coord. unfold_M. by intros -> -> ->. Qed.

Lemma coord_raise (e : M loc) (k : string) (st st1 : Store) (err : error) :
  e st = (st1, Raise err) -> coord e k st = (st1, Raise err).
Proof. unfold coord. unfold_M. by intros ->. Qed.

(** ** Reading a projection *)

Section Getters.

Variable fpow : float -> float -> result float.

Lemma Color_rgb_hit (st : Store) (l : loc) :
  spaces (self st) !! fname (workspace_space (workspace (self st))) = Some l ->
  Color_rgb fpow st = (st, Ok l).
Proof.
  unfold Color_rgb. unfold mbind at 1, M_bind at 1, get_self at 1.
  destruct (workspace (self st)); apply colorspace_hit.
Qed.

Lemma Color_rgb_miss (st : Store) :
  spaces (self st) !! fname (workspace_space (workspace (self st))) = None ->
  Color_rgb fpow st
  = match derive_rgb fpow (workspace (self st)) (channels st) with
    | Ok c => (cache_add st (workspace_space (workspace (self st)))
                 [("r", c.1.1); ("g", c.1.2); ("b", c.2)],
               Ok (List.length (heap st)))
    | Raise e => (st, Raise e)
    end.
Proof.
  unfold Color_rgb. unfold mbind at 1, M_bind at 1, get_self at 1.
  unfold derive_rgb, channels.
  destruct (workspace (self st)); cbn [workspace_space fst snd]; intros H.
  - unfold Color_srgb.
    destruct (srgb_tx fpow (_r (self st))) as [x|e] eqn:Hx;
    [destruct (srgb_tx fpow (_g (self st))) as [y|e] eqn:Hy;
     [destruct (srgb_tx fpow (_b (self st))) as [z|e] eqn:Hz|]|].
    + cbn. apply colorspace_miss; [done|]. unfold_M. cbn -[srgb_tx]. by rewrite Hx, Hy, Hz.
    + cbn. apply colorspace_miss_raise; [done|]. unfold_M. cbn -[srgb_tx]. by rewrite Hx, Hy, Hz.
    + cbn. apply colorspace_miss_raise; [done|]. unfold_M. cbn -[srgb_tx]. by rewrite Hx, Hy.
    + cbn. apply colorspace_miss_raise; [done|]. unfold_M. cbn -[srgb_tx]. by rewrite Hx.
  - unfold Color_linear_rgb. by apply colorspace_miss.
Qed.

(** The three reads [self.rgb.r], [self.rgb.g], [self.rgb.b] that open the
    bodies of [rgb8], [hls] and [yiq], from a store whose cache lacks the
    workspace projection. *)
Lemma rgb_reads_miss {A : Type} (k : float -> float -> float -> M A) (st : Store) :
  spaces (self st) !! fname (workspace_space (workspace (self st))) = None ->
  (r ← coord (Color_rgb fpow) "r"; g ← coord (Color_rgb fpow) "g";
   b ← coord (Color_rgb fpow) "b"; k r g b) st
  = match derive_rgb fpow (workspace (self st)) (channels st) with
    | Ok c => k c.1.1 c.1.2 c.2
                (cache_add st (workspace_space (workspace (self st)))
                   [("r", c.1.1); ("g", c.1.2); ("b", c.2)])
    | Raise e => (st, Raise e)
    end.
Proof.
  intros H. pose proof (Color_rgb_miss st H) as Hm.
  destruct (derive_rgb fpow (workspace (self st)) (channels st)) as [[[x y] z]|e].
  - set (f := workspace_space (workspace (self st))) in *.
    set (cs := [("r", x); ("g", y); ("b", z)]) in *. cbn [fst snd] in *.
    set (st1 := cache_add st f cs) in *.
    assert (Hh : Color_rgb fpow st1 = (st1, Ok (List.length (heap st)))).
    { apply Color_rgb_hit. destruct st as [[] ?]. apply lookup_insert_eq. }
    rewrite (bind_ok _ _ st st1 x)
      by (eapply coord_ok; [exact Hm|apply cache_add_heap_lookup|reflexivity]).
    rewrite (bind_ok _ _ st1 st1 y)
      by (eapply coord_ok; [exact Hh|apply cache_add_heap_lookup|reflexivity]).
    rewrite (bind_ok _ _ st1 st1 z)
      by (eapply coord_ok; [exact Hh|apply cache_add_heap_lookup|reflexivity]).
    reflexivity.
  - apply bind_raise. by apply coord_raise.
Qed.

(** C2 (amended): when neither [hls] nor the workspace projection is
    cached, [tuple(color.hls)] is the RGB-to-HLS transform of [colorsys]
    applied to the coordinates of the workspace projection [rgb] derived from
    the canonical channels: their gamma encoding under the default
    workspace [srgb], the channels themselves under [linear_rgb]. *)
Theorem hls_is_derived_from_the_workspace_projection (st : Store) :
  spaces (self st) !! "hls" = None ->
  spaces (self st) !! fname (workspace_space (workspace (self st))) = None ->
  (tuple_of (Color_hls fpow) st).2
  = (c ← derive_rgb fpow (workspace (self st)) (channels st);
     t ← colorsys.rgb_to_hls c.1.1 c.1.2 c.2;
     Ok [t.1.1; t.1.2; t.2]).
Proof.
  intros H1 H2. unfold tuple_of, Color_hls.
  pose proof (rgb_reads_miss
    (fun r g b => t ← lift (colorsys.rgb_to_hls r g b);
                  mret [("h", t.1.1); ("l", t.1.2); ("s", t.2)]) st H2) as Hb.
  destruct (derive_rgb fpow (workspace (self st)) (channels st)) as [[[x y] z]|e];
    cbn [mbind result_bind fst snd] in *.
  - destruct (colorsys.rgb_to_hls x y z) as [[[h l] s]|e].
    + erewrite bind_ok; cycle 1.
      { eapply colorspace_miss; [exact H1|]. rewrite Hb. reflexivity. }
      erewrite bind_ok; cycle 1.
      { unfold deref. rewrite cache_add_heap_lookup. reflexivity. }
      reflexivity.
    + erewrite bind_raise; [reflexivity|].
      eapply colorspace_miss_raise; [exact H1|]. rewrite Hb. reflexivity.
  - erewrite bind_raise; [reflexivity|].
    eapply colorspace_miss_raise; [exact H1|]. exact Hb.
Qed.
End Getters.

(** ** Hexadecimal strings *)

Lemma byte_cases (P : Z -> bool) :
  forallb (fun n => P (Z.of_nat n)) (seq 0 256) = true ->
  forall k, 0 <= k < 256 -> P k = true.
Proof.
  intros H k Hk. rewrite forallb_forall in H.
  specialize (H (Z.to_nat k)). rewrite Z2Nat.id in H by lia.
  apply H, in_seq. lia.
Qed.

Lemma in_all_ascii (c : ascii) : In c all_ascii.
Proof.
  unfold all_ascii. rewrite <- (ascii_nat_embedding c).
  apply in_map, in_seq. pose proof (nat_ascii_bounded c). lia.
Qed.

Lemma hex_pairs_checked :
  forallb (fun c1 => forallb (hex_pair_ok c1) all_ascii) all_ascii = true.
Proof. vm_compute. reflexivity. Qed.

Lemma hex_pair (c1 c2 : ascii) (d1 d2 : Z) :
  Py.hex_digit c1 = Some d1 -> Py.hex_digit c2 = Some d2 ->
  let k := 16 * d1 + d2 in
  0 <= k < 256 /\ Py.is_hash c1 = false /\
  Py.format_02x k = String (lower c1) (String (lower c2) EmptyString).
Proof.
  intros H1 H2 k.
  pose proof hex_pairs_checked as H. rewrite forallb_forall in H.
  specialize (H c1 (in_all_ascii c1)). rewrite forallb_forall in H.
  specialize (H c2 (in_all_ascii c2)). unfold hex_pair_ok in H.
  rewrite H1, H2 in H. fold k in H.
  apply andb_prop in H as [H Hf]. apply andb_prop in H as [H Hh].
  apply andb_prop in H as [Hlo Hhi].
  repeat split; try lia.
  - by destruct (Py.is_hash c1).
  - by apply String.eqb_eq.
Qed.

Lemma bytes_checked : forallb (fun n => byte_ok (Z.of_nat n)) (seq 0 256) = true.
Proof. vm_compute. reflexivity. Qed.

Lemma float_of_int_byte (k : Z) :
  0 <= k < 256 -> Py.float_of_int k = Ok (Py.float_of_Z k).
Proof.
  intros Hk. pose proof (byte_cases byte_ok bytes_checked k Hk) as H.
  unfold byte_ok in H. apply andb_prop in H as [H _].
  unfold Py.float_of_int. by destruct (is_infinity (Py.float_of_Z k)).
Qed.

Lemma is_hex_digit_value (c : ascii) :
  is_hex_digit c = true -> exists d, Py.hex_digit c = Some d.
Proof. unfold is_hex_digit. destruct (Py.hex_digit c); [eauto|discriminate]. Qed.

Lemma int16_pair (c1 c2 : ascii) (d1 d2 : Z) :
  Py.hex_digit c1 = Some d1 -> Py.hex_digit c2 = Some d2 ->
  Py.int16 (String c1 (String c2 EmptyString)) = Ok (16 * d1 + d2).
Proof.
  intros H1 H2. unfold Py.int16. cbn [Py.hex_value]. rewrite H1, H2.
  f_equal; lia.
Qed.

Lemma hex_digit_not_hash (c : ascii) :
  is_hex_digit c = true -> Py.is_hash c = false.
Proof.
  intros [d H]%is_hex_digit_value. by destruct (hex_pair c c d d H H) as (_ & N & _).
Qed.

Lemma strip_hash_hex (d : string) :
  all_hex d = true -> Py.strip_hash (String "#" d) = d.
Proof.
  intros H. unfold Py.strip_hash. cbn [Py.lstrip_hash].
  change (Py.is_hash "#") with true. cbn iota.
  assert (Hl : Py.lstrip_hash d = d).
  { destruct d as [|c d]; [reflexivity|]. cbn in *.
    apply andb_prop in H as [H _]. by rewrite (hex_digit_not_hash c H). }
  rewrite Hl. clear Hl.
  induction d as [|c d IH]; [reflexivity|].
  cbn in *. apply andb_prop in H as [Hc H].
  rewrite (IH H), (hex_digit_not_hash c Hc). by destruct d.
Qed.

Lemma hex_to_rgb_valid (d : string) :
  valid_hex d = true ->
  exists k1 k2 k3,
    hex_to_rgb (String "#" d) = Ok (k1, k2, k3) /\
    (0 <= k1 < 256) /\ (0 <= k2 < 256) /\ (0 <= k3 < 256) /\
    normalized d
    = String "#" (Py.format_02x k1 +:+ (Py.format_02x k2 +:+ Py.format_02x k3)).
Proof.
  unfold valid_hex. intros H. apply andb_prop in H as [Hd Hl].
  unfold hex_to_rgb. rewrite (strip_hash_hex d Hd).
  destruct d as [|c1 [|c2 [|c3 [|c4 [|c5 [|c6 [|c7 d]]]]]]]; try discriminate Hl; clear Hl.
  - cbn [all_hex] in Hd.
    apply andb_prop in Hd as [[d1 H1]%is_hex_digit_value Hd].
    apply andb_prop in Hd as [[d2 H2]%is_hex_digit_value Hd].
    apply andb_prop in Hd as [[d3 H3]%is_hex_digit_value _].
    destruct (hex_pair c1 c1 d1 d1 H1 H1) as (K1 & _ & F1).
    destruct (hex_pair c2 c2 d2 d2 H2 H2) as (K2 & _ & F2).
    destruct (hex_pair c3 c3 d3 d3 H3 H3) as (K3 & _ & F3).
    exists (16 * d1 + d1), (16 * d2 + d2), (16 * d3 + d3).
    split; [|repeat split; try lia; rewrite F1, F2, F3; reflexivity].
    match goal with |- _ = ?rhs => remember rhs as R end; cbv -[Py.int16]; subst R.
    rewrite (int16_pair _ _ _ _ H1 H1), (int16_pair _ _ _ _ H2 H2), (int16_pair _ _ _ _ H3 H3).
    reflexivity.
  - cbn [all_hex] in Hd.
    apply andb_prop in Hd as [[d1 H1]%is_hex_digit_value Hd].
    apply andb_prop in Hd as [[d2 H2]%is_hex_digit_value Hd].
    apply andb_prop in Hd as [[d3 H3]%is_hex_digit_value Hd].
    apply andb_prop in Hd as [[d4 H4]%is_hex_digit_value Hd].
    apply andb_prop in Hd as [[d5 H5]%is_hex_digit_value Hd].
    apply andb_prop in Hd as [[d6 H6]%is_hex_digit_value _].
    destruct (hex_pair c1 c2 d1 d2 H1 H2) as (K1 & _ & F1).
    destruct (hex_pair c3 c4 d3 d4 H3 H4) as (K2 & _ & F2).
    destruct (hex_pair c5 c6 d5 d6 H5 H6) as (K3 & _ & F3).
    exists (16 * d1 + d2), (16 * d3 + d4), (16 * d5 + d6).
    split; [|repeat split; try lia; rewrite F1, F2, F3; reflexivity].
    match goal with |- _ = ?rhs => remember rhs as R end; cbv -[Py.int16]; subst R.
    rewrite (int16_pair _ _ _ _ H1 H2), (int16_pair _ _ _ _ H3 H4), (int16_pair _ _ _ _ H5 H6).
    reflexivity.
Qed.

Lemma format_coord_byte (k : Z) :
  0 <= k < 256 -> format_coord (Py.float_of_Z k) = Ok (Py.format_02x k).
Proof.
  intros Hk. pose proof (byte_cases byte_ok bytes_checked k Hk) as H.
  unfold byte_ok in H. apply andb_prop in H as [_ H].
  unfold format_coord. destruct (Py.int_of_float (Py.float_of_Z k)); [|discriminate].
  apply Z.eqb_eq in H. by subst.
Qed.

Lemma gamma_exact_channel fpow (ws : workspace_name) (k : Z) :
  gamma_exact fpow ws = true -> 0 <= k < 256 ->
  exists c e,
    channel_write fpow ws (Py.float_of_Z k / 255.0)%float = Ok c /\
    in_range c = true /\
    channel_read fpow ws c = Ok e /\
    Py.round (e * 255)%float = Ok k.
Proof.
  intros H Hk. pose proof (byte_cases (channel_exact fpow ws) H k Hk) as E.
  unfold channel_exact in E.
  destruct (channel_write fpow ws (Py.float_of_Z k / 255.0)%float) as [c|]; [|discriminate].
  apply andb_prop in E as [Hc E].
  destruct (channel_read fpow ws c) as [e|] eqn:He; [|discriminate].
  destruct (Py.round (e * 255)%float) as [k'|] eqn:Hr; [|discriminate].
  apply Z.eqb_eq in E. subst k'. exists c, e. repeat split; done.
Qed.

Section HexRoundTrip.

Variable fpow : float -> float -> result float.

Lemma write_back_rgb_channels (ws : workspace_name) (x1 x2 x3 c1 c2 c3 : float) :
  channel_write fpow ws x1 = Ok c1 -> channel_write fpow ws x2 = Ok c2 ->
  channel_write fpow ws x3 = Ok c3 ->
  write_back_rgb fpow ws [x1; x2; x3] = Ok (c1, c2, c3).
Proof.
  destruct ws; cbn -[srgb_setter_tx]; intros H1 H2 H3.
  - unfold decode3. cbn -[srgb_setter_tx]. by rewrite H1, H2, H3.
  - congruence.
Qed.

Lemma derive_rgb_channels (ws : workspace_name) (c1 c2 c3 e1 e2 e3 : float) :
  channel_read fpow ws c1 = Ok e1 -> channel_read fpow ws c2 = Ok e2 ->
  channel_read fpow ws c3 = Ok e3 ->
  derive_rgb fpow ws (c1, c2, c3) = Ok (e1, e2, e3).
Proof.
  destruct ws; cbn -[srgb_tx]; intros H1 H2 H3.
  - by rewrite H1, H2, H3.
  - congruence.
Qed.

(** The constructor on a ['#']-prefixed string whose three 8-bit values the
    workspace writes back in range. *)
Lemma Color_new_hex (d : string) (a0 : float) (ws : workspace_name) kwargs
    (k1 k2 k3 : Z) (c1 c2 c3 : float) :
  hex_to_rgb (String "#" d) = Ok (k1, k2, k3) ->
  0 <= k1 < 256 -> 0 <= k2 < 256 -> 0 <= k3 < 256 ->
  channel_write fpow ws (Py.float_of_Z k1 / 255.0)%float = Ok c1 ->
  channel_write fpow ws (Py.float_of_Z k2 / 255.0)%float = Ok c2 ->
  channel_write fpow ws (Py.float_of_Z k3 / 255.0)%float = Ok c3 ->
  in_range c1 = true -> in_range c2 = true -> in_range c3 = true ->
  Color_new fpow (Some (String "#" d)) a0 ws kwargs
  = Ok (mkStore (mkColor c1 c2 c3 0 a0 ws ∅) []).
Proof.
  intros Hh K1 K2 K3 W1 W2 W3 R1 R2 R3.
  unfold Color_new, Color_init.
  change (negb (String "#" d =? "")%string && Py.startswith_hash (String "#" d)) with true.
  cbn iota. change (default "" (Some (String "#" d))) with (String "#" d).
  set (st0 := mkStore (mkColor 0 0 0 0 a0 ws ∅) []).
  rewrite (bind_ok _ _ _ (mkStore (mkColor 0 0 0 0 0 ws ∅) []) tt) by reflexivity.
  rewrite (bind_ok _ _ _ st0 tt) by reflexivity.
  rewrite (bind_ok _ _ _ st0 (k1, k2, k3)) by (unfold lift; by rewrite Hh).
  cbn [fst snd].
  rewrite (bind_ok _ _ _ st0 (Py.float_of_Z k1)) by (unfold lift; by rewrite float_of_int_byte).
  rewrite (bind_ok _ _ _ st0 (Py.float_of_Z k2)) by (unfold lift; by rewrite float_of_int_byte).
  rewrite (bind_ok _ _ _ st0 (Py.float_of_Z k3)) by (unfold lift; by rewrite float_of_int_byte).
  pose proof (Color_setattr_post fpow rgb8
    [Py.float_of_Z k1; Py.float_of_Z k2; Py.float_of_Z k3] st0) as P.
  destruct P as (_ & _ & _ & _ & _ & P). cbn [Color_setattr] in P.
  unfold write_back in P. cbn [item lookup list_lookup mbind result_bind] in P.
  change (workspace (self st0)) with ws in P.
  rewrite (write_back_rgb_channels ws _ _ _ c1 c2 c3 W1 W2 W3), R1, R2, R3 in P.
  cbn [andb] in P. rewrite P. reflexivity.
Qed.

Lemma coord_rgb_miss (k : string) (st : Store) (c : float * float * float) (x : float) :
  spaces (self st) !! fname (workspace_space (workspace (self st))) = None ->
  derive_rgb fpow (workspace (self st)) (channels st) = Ok c ->
  attribute (ColorSpace_init (workspace_space (workspace (self st)))
               [("r", c.1.1); ("g", c.1.2); ("b", c.2)]) k = VNum x ->
  coord (Color_rgb fpow) k st
  = (cache_add st (workspace_space (workspace (self st)))
       [("r", c.1.1); ("g", c.1.2); ("b", c.2)], Ok x).
Proof.
  intros H D A. eapply coord_ok; [|apply cache_add_heap_lookup|exact A].
  rewrite (Color_rgb_miss fpow st H), D. reflexivity.
Qed.

Lemma coord_cached (e : M loc) (f : space) (k : string) (st : Store) cs (x : float) :
  e (cache_add st f cs) = (cache_add st f cs, Ok (List.length (heap st))) ->
  attribute (ColorSpace_init f cs) k = VNum x ->
  coord e k (cache_add st f cs) = (cache_add st f cs, Ok x).
Proof. intros H A. eapply coord_ok; [exact H|apply cache_add_heap_lookup|exact A]. Qed.

Lemma Color_rgb_cached (st : Store) cs :
  Color_rgb fpow (cache_add st (workspace_space (workspace (self st))) cs)
  = (cache_add st (workspace_space (workspace (self st))) cs, Ok (List.length (heap st))).
Proof. apply Color_rgb_hit. destruct st as [[] ?]. apply lookup_insert_eq. Qed.

(** [self.rgb8] on a cache that lacks it and the workspace projection. *)
Lemma Color_rgb8_miss (st : Store) (e1 e2 e3 : float) (k1 k2 k3 : Z) :
  spaces (self st) !! "rgb8" = None ->
  spaces (self st) !! fname (workspace_space (workspace (self st))) = None ->
  derive_rgb fpow (workspace (self st)) (channels st) = Ok (e1, e2, e3) ->
  Py.round (e1 * 255)%float = Ok k1 ->
  Py.round (e2 * 255)%float = Ok k2 ->
  Py.round (e3 * 255)%float = Ok k3 ->
  let st1 := cache_add st (workspace_space (workspace (self st)))
               [("r", e1); ("g", e2); ("b", e3)] in
  Color_rgb8 fpow st
  = (cache_add st1 rgb8
       [("r", Py.float_of_Z k1); ("g", Py.float_of_Z k2); ("b", Py.float_of_Z k3)],
     Ok (List.length (heap st1))).
Proof.
  intros H8 Hw D R1 R2 R3 st1. unfold Color_rgb8.
  apply colorspace_miss; [exact H8|].
  rewrite (bind_ok _ _ st st1 e1) by (by apply (coord_rgb_miss "r" st (e1, e2, e3))).
  rewrite (bind_ok _ _ st1 st1 k1) by (unfold lift; by rewrite R1).
  rewrite (bind_ok _ _ st1 st1 e2) by (apply coord_cached; [apply Color_rgb_cached|done]).
  rewrite (bind_ok _ _ st1 st1 k2) by (unfold lift; by rewrite R2).
  rewrite (bind_ok _ _ st1 st1 e3) by (apply coord_cached; [apply Color_rgb_cached|done]).
  rewrite (bind_ok _ _ st1 st1 k3) by (unfold lift; by rewrite R3).
  reflexivity.
Qed.

(** [color.hex] on such a cache. *)
Lemma Color_hex_miss (st : Store) (e1 e2 e3 : float) (k1 k2 k3 : Z) :
  spaces (self st) !! "rgb8" = None ->
  spaces (self st) !! fname (workspace_space (workspace (self st))) = None ->
  derive_rgb fpow (workspace (self st)) (channels st) = Ok (e1, e2, e3) ->
  Py.round (e1 * 255)%float = Ok k1 ->
  Py.round (e2 * 255)%float = Ok k2 ->
  Py.round (e3 * 255)%float = Ok k3 ->
  0 <= k1 < 256 -> 0 <= k2 < 256 -> 0 <= k3 < 256 ->
  (Color_hex fpow st).2
  = Ok (String "#" (Py.format_02x k1 +:+ (Py.format_02x k2 +:+ Py.format_02x k3))).
Proof.
  intros H8 Hw D R1 R2 R3 K1 K2 K3.
  pose proof (Color_rgb8_miss st e1 e2 e3 k1 k2 k3 H8 Hw D R1 R2 R3) as Hm.
  cbn zeta in Hm.
  set (st1 := cache_add st _ _) in Hm.
  set (cs := [("r", Py.float_of_Z k1); ("g", Py.float_of_Z k2); ("b", Py.float_of_Z k3)]) in Hm.
  set (st2 := cache_add st1 rgb8 cs) in Hm.
  assert (Hh : Color_rgb8 fpow st2 = (st2, Ok (List.length (heap st1)))).
  { apply colorspace_hit. apply cache_add_spaces_lookup. }
  unfold Color_hex.
  rewrite (bind_ok _ _ st st2 (Py.float_of_Z k1))
    by (eapply coord_ok; [exact Hm|apply cache_add_heap_lookup|reflexivity]).
  rewrite (bind_ok _ _ st2 st2 (Py.float_of_Z k2)) by (by apply coord_cached).
  rewrite (bind_ok _ _ st2 st2 (Py.float_of_Z k3)) by (by apply coord_cached).
  rewrite (bind_ok _ _ st2 st2 (Py.format_02x k1))
    by (unfold lift; by rewrite format_coord_byte).
  rewrite (bind_ok _ _ st2 st2 (Py.format_02x k2))
    by (unfold lift; by rewrite format_coord_byte).
  rewrite (bind_ok _ _ st2 st2 (Py.format_02x k3))
    by (unfold lift; by rewrite format_coord_byte).
  reflexivity.
Qed.

(** C3 (amended): for every valid 3- or 6-digit hexadecimal string [d],
    either case, the Color built from ['#'] followed by [d] has [hex] equal
    to the normalized form of [d], provided the platform's [pow] makes the
    8-bit round trip through the workspace exact ([gamma_exact]: each of
    the 256 channel values is written back in range and read back as
    itself). *)
Theorem hex_round_trip (ws : workspace_name) (d : string) (a0 : float) kwargs :
  valid_hex d = true ->
  gamma_exact fpow ws = true ->
  exists st,
    Color_new fpow (Some ("#" +:+ d)) a0 ws kwargs = Ok st /\
    (Color_hex fpow st).2 = Ok (normalized d).
Proof.
  intros Hd Hg.
  destruct (hex_to_rgb_valid d Hd) as (k1 & k2 & k3 & Hh & K1 & K2 & K3 & Hn).
  destruct (gamma_exact_channel fpow ws k1 Hg K1) as (c1 & e1 & W1 & I1 & E1 & R1).
  destruct (gamma_exact_channel fpow ws k2 Hg K2) as (c2 & e2 & W2 & I2 & E2 & R2).
  destruct (gamma_exact_channel fpow ws k3 Hg K3) as (c3 & e3 & W3 & I3 & E3 & R3).
  eexists. split.
  - exact (Color_new_hex d a0 ws kwargs k1 k2 k3 c1 c2 c3 Hh K1 K2 K3 W1 W2 W3 I1 I2 I3).
  - rewrite Hn. apply (Color_hex_miss _ e1 e2 e3); try done.
    by apply derive_rgb_channels.
Qed.
End HexRoundTrip.

(** ** The constructor *)

Section Constructor.

Variable fpow : float -> float -> result float.

Lemma startswith_hash_nonempty (d : string) :
  Py.startswith_hash d = true -> (d =? "")%string = false.
Proof. by destruct d. Qed.

(** C6 (amended): for every string that starts with ['#'] and whose length
    after stripping ['#'] is not a multiple of 3, constructing a Color from
    it fails with [ValueError("Invalid hex color")], the specification's
    InvalidFormat.  (A length that is another multiple of 3, such as 9 or
    12, is not rejected for its length.) *)
Theorem hex_length_not_a_multiple_of_three (d : string) (a0 : float)
    (ws : workspace_name) kwargs :
  Py.startswith_hash d = true ->
  (Py.len (Py.strip_hash d) mod 3 =? 0) = false ->
  Color_new fpow (Some d) a0 ws kwargs = Raise (ValueError "Invalid hex color").
Proof.
  intros Hs Hl. unfold Color_new, Color_init.
  rewrite (startswith_hash_nonempty d Hs), Hs. cbn [negb andb default from_option id].
  set (st0 := mkStore (mkColor 0 0 0 0 a0 ws ∅) []).
  rewrite (bind_ok _ _ _ (mkStore (mkColor 0 0 0 0 0 ws ∅) []) tt) by reflexivity.
  rewrite (bind_ok _ _ _ st0 tt) by reflexivity.
  rewrite (bind_raise _ _ st0 st0 (ValueError "Invalid hex color")); [reflexivity|].
  unfold lift, hex_to_rgb. by rewrite Hl.
Qed.

(** C7 (amended): a string without a leading ['#'] is ignored by the
    constructor: the Color is the one built with no description at all, and
    with no keyword coordinates its canonical channels are (0, 0, 0).  Only
    a ['#']-prefixed string is parsed as hexadecimal. *)
Theorem constructor_ignores_unprefixed_string (d : string) (a0 : float)
    (ws : workspace_name) kwargs :
  Py.startswith_hash d = false ->
  Color_new fpow (Some d) a0 ws kwargs = Color_new fpow None a0 ws kwargs /\
  Color_new fpow (Some d) a0 ws [] = Ok (mkStore (mkColor 0 0 0 0 a0 ws ∅) []).
Proof.
  intros Hs. unfold Color_new, Color_init. rewrite Hs, andb_false_r. done.
Qed.

End Constructor.

(** ** Looking a coordinate up *)

Lemma ColorSpace_getitem_axis (sp : ColorSpace) (k : string) (x : float) :
  coords sp !! k = Some x ->
  ColorSpace_getitem sp k = Ok x /\ ColorSpace_getattr sp k = VNum x.
Proof. unfold ColorSpace_getitem, ColorSpace_getattr. by intros ->. Qed.

Lemma ColorSpace_getitem_unknown (sp : ColorSpace) (k : string) :
  coords sp !! k = None -> ColorSpace_getitem sp k = Raise (KeyError k).
Proof. unfold ColorSpace_getitem. by intros ->. Qed.

Lemma ColorSpace_getattr_unknown (sp : ColorSpace) (k : string) :
  coords sp !! k = None -> ColorSpace_dict sp k = None ->
  ColorSpace_getattr sp k = VNone /\ attribute sp k = VNone.
Proof. unfold attribute, ColorSpace_getattr. by intros -> ->. Qed.

(** C4, evaluated: on the [hls] space of [Color()], the attribute lookup
    [space.q] of a name that is no axis ends [__getattr__] without a
    [return] or a [raise] and yields [None]; the subscript lookup
    [space["q"]] raises [KeyError], and [space["h"]] returns the value. *)
Example unknown_attribute_reads_None :
  let sp := ColorSpace_init hls [("h", 0); ("l", 0); ("s", 0)]%float in
  (tuple_of (Color_hls Libm.pow) (blank ws_srgb)).2 = Ok [0; 0; 0]%float /\
  heap (Color_hls Libm.pow (blank ws_srgb)).1 !! 1%nat = Some sp /\
  attribute sp "q" = VNone /\
  ColorSpace_getattr sp "q" = VNone /\
  ColorSpace_getitem sp "q" = Raise (KeyError "q") /\
  ColorSpace_getitem sp "h" = Ok 0%float.
Proof. vm_compute. repeat split. Qed.

(** The module's docstring, run on the model with the stand-in [pow]:
    [Color("#0a0bcc").hls] and [str(c)]. *)
Example docstring_hls :
  (tuple_of (Color_hls Libm.pow) example_0a0bcc).2
  = Ok [0.66580756013745701; 0.41960784313725491; 0.90654205607476646]%float /\
  (Color_hex Libm.pow example_0a0bcc).2 = Ok "#0a0bcc".
Proof. vm_compute. repeat split. Qed.

(** C2, counterexample: on [Color()] after [color.r = 0.002], under the
    default workspace, [tuple(color.hls)] is [(0, 0.01292, 1)], the
    transform of the gamma-encoded [(0.02584, 0, 0)], while the RGB-to-HLS
    transform of the linear channels [(0.002, 0, 0)] is [(0, 0.001, 1)]. *)
Example hls_of_linear_channels_differs :
  let st := (Color_set_r 0.002 (blank ws_srgb)).1 in
  channels st = (0.002, 0, 0)%float /\
  (tuple_of (Color_hls Libm.pow) st).2 = Ok [0; 0.012920000000000001; 1]%float /\
  colorsys.rgb_to_hls 0.002 0 0 = Ok (0, 0.001, 1)%float.
Proof. vm_compute. repeat split. Qed.

(** C2, witness: [Color("#0a0bcc")], whose cache is empty. *)
Lemma hls_is_derived_from_the_workspace_projection_witness :
  spaces (self example_0a0bcc) !! "hls" = None /\
  spaces (self example_0a0bcc) !! fname (workspace_space (workspace (self example_0a0bcc))) = None /\
  (tuple_of (Color_hls Libm.pow) example_0a0bcc).2
  = (c ← derive_rgb Libm.pow (workspace (self example_0a0bcc)) (channels example_0a0bcc);
     t ← colorsys.rgb_to_hls c.1.1 c.1.2 c.2;
     Ok [t.1.1; t.1.2; t.2]).
Proof.
  split; [reflexivity|]. split; [reflexivity|].
  apply (hls_is_derived_from_the_workspace_projection Libm.pow example_0a0bcc); reflexivity.
Defined.

(** C3, counterexample: ["fff"] is a valid 3-digit input whose normalized
    form is ["#ffffff"], but [Color("fff")] is [Color()] and its [hex] is
    ["#000000"]. *)
Example hex_of_unprefixed_string :
  valid_hex "fff" = true /\
  normalized "fff" = "#ffffff" /\
  Color_new Libm.pow (Some "fff") 1 ws_srgb [] = Ok (blank ws_srgb) /\
  (Color_hex Libm.pow (blank ws_srgb)).2 = Ok "#000000".
Proof. vm_compute. repeat split. Qed.

(** C3, witness: [Color("#0A0bcc").hex] under the default workspace, with
    the stand-in [pow], for which the 8-bit round trip is exact. *)
Lemma hex_round_trip_witness :
  valid_hex "0A0bcc" = true /\
  gamma_exact Libm.pow ws_srgb = true /\
  exists st,
    Color_new Libm.pow (Some "#0A0bcc") 1 ws_srgb [] = Ok st /\
    (Color_hex Libm.pow st).2 = Ok "#0a0bcc".
Proof.
  split; [reflexivity|]. split; [vm_compute; reflexivity|].
  apply (hex_round_trip Libm.pow ws_srgb "0A0bcc" 1 []); vm_compute; reflexivity.
Defined.

(** C5, counterexample: on [Color()] whose [linear_rgb] has been read,
    [color.linear_rgb = (0.5, 2, 0)] raises at the second channel; by then
    the cache has been emptied and [r] is 0.5. *)
Example failed_tuple_assignment_is_partial :
  let st1 := (Color_linear_rgb (blank ws_srgb)).1 in
  let r := assign Libm.pow (assign_space linear_rgb [0.5; 2; 0]%float) st1 in
  r.2 = Raise (ValueError "Outside of valid range") /\
  channels st1 = (0, 0, 0)%float /\
  channels r.1 = (0.5, 0, 0)%float /\
  map_to_list (spaces (self st1)) = [("linear_rgb", 0%nat)] /\
  map_to_list (spaces (self r.1)) = [].
Proof. vm_compute. repeat split. Qed.

(** C5, witness: the same failing assignment. *)
Lemma failed_assignment_state_witness :
  let st1 := (Color_linear_rgb (blank ws_srgb)).1 in
  let st' := mkStore (mkColor 0.5 0 0 0 1 ws_srgb ∅) (heap st1) in
  assign Libm.pow (assign_space linear_rgb [0.5; 2; 0]%float) st1
  = (st', Raise (ValueError "Outside of valid range")) /\
  (spaces (self st') = ∅ /\ heap st' = heap st1 /\
   a (self st') = a (self st1) /\ workspace (self st') = workspace (self st1) /\
   _b (self st') = _b (self st1)).
Proof.
  cbv zeta. split; [reflexivity|].
  apply (failed_assignment_state Libm.pow (assign_space linear_rgb [0.5; 2; 0]%float)
           (Color_linear_rgb (blank ws_srgb)).1 _ (ValueError "Outside of valid range")).
  reflexivity.
Defined.

(** C6, counterexample: nine hexadecimal digits after the ['#'] are
    accepted: [Color("#000000000")] is built, with channels (0, 0, 0). *)
Example nine_digits_are_accepted :
  Color_new Libm.pow (Some "#000000000") 1 ws_srgb [] = Ok (blank ws_srgb) /\
  Py.len (Py.strip_hash "#000000000") = 9.
Proof. vm_compute. repeat split. Qed.

(** C6, witness: [Color("#0a0b")]. *)
Lemma hex_length_not_a_multiple_of_three_witness :
  Py.startswith_hash "#0a0b" = true /\
  (Py.len (Py.strip_hash "#0a0b") mod 3 =? 0) = false /\
  Color_new Libm.pow (Some "#0a0b") 1 ws_srgb [] = Raise (ValueError "Invalid hex color").
Proof.
  split; [reflexivity|]. split; [reflexivity|].
  apply (hex_length_not_a_multiple_of_three Libm.pow "#0a0b" 1 ws_srgb []); reflexivity.
Defined.

(** C7, counterexample: [Color("fff")] has channels (0, 0, 0) and
    [Color("#fff")] has channels (1, 1, 1). *)
Example unprefixed_string_gives_black :
  Color_new Libm.pow (Some "fff") 1 ws_srgb [] = Ok (mkStore (mkColor 0 0 0 0 1 ws_srgb ∅) []) /\
  Color_new Libm.pow (Some "#fff") 1 ws_srgb [] = Ok (mkStore (mkColor 1 1 1 0 1 ws_srgb ∅) []).
Proof. vm_compute. repeat split. Qed.

(** C7, witness: [Color("fff")]. *)
Lemma constructor_ignores_unprefixed_string_witness :
  Py.startswith_hash "fff" = false /\
  Color_new Libm.pow (Some "fff") 1 ws_srgb [] = Color_new Libm.pow None 1 ws_srgb [] /\
  Color_new Libm.pow (Some "fff") 1 ws_srgb [] = Ok (mkStore (mkColor 0 0 0 0 1 ws_srgb ∅) []).
Proof.
  split; [reflexivity|].
  apply (constructor_ignores_unprefixed_string Libm.pow "fff" 1 ws_srgb []); reflexivity.
Defined.

(** C9, witness: [c = Color("#0a0bcc")], then [c.hls.l = 0.5] on its
    cached [hls] space. *)
Lemma coordinate_mutation_writes_back_witness :
  let st := (Color_hls Libm.pow example_0a0bcc).1 in
  let sp := ColorSpace_init hls
              [("h", 0.66580756013745701); ("l", 0.41960784313725491);
               ("s", 0.90654205607476646)]%float in
  let t := updated_tuple sp "l" 0.5%float in
  let sp' := with_coords sp (<["l" := 0.5%float]> (coords sp)) in
  let r := ColorSpace_setattr Libm.pow 1%nat "l" 0.5%float st in
  spaces (self st) !! fname (name sp) = Some 1%nat /\
  heap st !! 1%nat = Some sp /\
  axes_have_coords sp /\
  "l" ∈ axes sp /\
  ColorSpace_tuple sp' = Ok t /\
  r = Color_setattr Libm.pow (name sp) t (mkStore (self st) (<[1%nat := sp']> (heap st))) /\
  heap r.1 = <[1%nat := sp']> (heap st) /\
  spaces (self r.1) = ∅ /\
  match write_back Libm.pow (workspace (self st)) (name sp) t with
  | Ok (x, y, z) =>
      if in_range x && in_range y && in_range z
      then r.2 = Ok tt /\ channels r.1 = (x, y, z)
      else (exists e, r.2 = Raise e) /\ _b (self r.1) = _b (self st)
  | Raise _ => (exists e, r.2 = Raise e) /\ _b (self r.1) = _b (self st)
  end.
Proof.
  intros st sp t sp' r.
  assert (H1 : spaces (self st) !! fname (name sp) = Some 1%nat)
    by (vm_compute; reflexivity).
  assert (H2 : heap st !! 1%nat = Some sp) by (vm_compute; reflexivity).
  assert (H3 : axes_have_coords sp) by (repeat constructor; eexists; reflexivity).
  assert (H4 : "l" ∈ axes sp) by (apply list_elem_of_further, list_elem_of_here).
  split; [exact H1|]. split; [exact H2|]. split; [exact H3|]. split; [exact H4|].
  exact (coordinate_mutation_writes_back Libm.pow st 1%nat sp "l" 0.5%float H1 H2 H3 H4).
Defined.

(** The same mutation, evaluated: it succeeds, the channels are the
    write-back of [(h, 0.5, s)], the cache is empty and [hex] is recomputed. *)
Example coordinate_mutation_example :
  let st := (Color_hls Libm.pow example_0a0bcc).1 in
  let r := ColorSpace_setattr Libm.pow 1%nat "l" 0.5%float st in
  r.2 = Ok tt /\
  write_back Libm.pow ws_srgb hls [0.66580756013745701; 0.5; 0.90654205607476646]%float
  = Ok (channels r.1) /\
  map_to_list (spaces (self r.1)) = [] /\
  (Color_hex Libm.pow r.1).2 = Ok "#0c0df3".
Proof. vm_compute. repeat split. Qed.

(** C9, counterexample.  [c = Color(workspace="linear_rgb")],
    [c.linear_rgb = (0.45, 0.75, 0.25)], [sp = c.hls], [sp.s = 1.5]: the
    write-back of the updated tuple is [(r', 1.25, -0.25)]; the assignment
    raises at [g], and the channels are [(r', 0.75, 0.25)], not the
    write-back, while the cache has been emptied and [sp] holds [s = 1.5].
    And on [Color("#0a0bcc")], under the default workspace, [c.hls.l = 0.5]
    returns with channels that are not the HLS-to-RGB transform of the
    updated tuple but its gamma decoding. *)
Example failed_coordinate_mutation_is_partial :
  let st1 := mkStore (mkColor 0.45 0.75 0.25 0 1 ws_linear_rgb ∅) [] in
  let st := (Color_hls Libm.pow st1).1 in
  let t := [0.26666666666666666; 0.5; 1.5]%float in
  let r := ColorSpace_setattr Libm.pow 1%nat "s" 1.5%float st in
  let st2 := (Color_hls Libm.pow example_0a0bcc).1 in
  let r2 := ColorSpace_setattr Libm.pow 1%nat "l" 0.5%float st2 in
  let u := colorsys.hls_to_rgb 0.66580756013745701 0.5 0.90654205607476646 in
  Color_set_linear_rgb [0.45; 0.75; 0.25]%float (blank ws_linear_rgb) = (st1, Ok tt) /\
  spaces (self st) !! "hls" = Some 1%nat /\
  (tuple_of (Color_hls Libm.pow) st).2 = Ok [0.26666666666666666; 0.5; 0.5]%float /\
  (sp ← heap r.1 !! 1%nat; Some (ColorSpace_tuple sp)) = Some (Ok t) /\
  write_back Libm.pow ws_linear_rgb hls t = Ok (_r (self r.1), 1.25, -0.25)%float /\
  r.2 = Raise (ValueError "Outside of valid range") /\
  _g (self r.1) = 0.75%float /\ _b (self r.1) = 0.25%float /\
  (_r (self r.1) =? 0.45)%float = false /\
  map_to_list (spaces (self r.1)) = [] /\
  r2.2 = Ok tt /\
  decode3 Libm.pow [u.1.1; u.1.2; u.2] = Ok (channels r2.1) /\
  (_r (self r2.1) =? u.1.1)%float = false /\
  (_g (self r2.1) =? u.1.2)%float = false /\
  (_b (self r2.1) =? u.2)%float = false.
Proof. vm_compute. repeat split. Qed.

(** * Further properties *)

(** ** Reads: what they may change *)

(** Inclusion and non-membership for lists of names. *)
Ltac names_solver :=
  cbn [fname];
  first [ intros ? ?; rewrite ?elem_of_cons, ?elem_of_nil in *; tauto
        | rewrite ?not_elem_of_cons; repeat split;
          first [discriminate | apply not_elem_of_nil] ].

Lemma ColorSpace_init_axes_have_coords (f : space) (cs : list (string * float)) :
  axes_have_coords (ColorSpace_init f cs).
Proof.
  unfold axes_have_coords, ColorSpace_init, dict_of. cbn [axes coords].
  assert (G : forall (m : gmap string float) k,
             (is_Some (m !! k) \/ k ∈ map fst cs) ->
             is_Some (foldl (fun m p => <[p.1 := p.2]> m) m cs !! k)).
  { induction cs as [|[k' v] cs IH]; intros m k H; cbn [foldl map fst] in *.
    - destruct H as [H|H]; [done|]. by apply elem_of_nil in H.
    - apply IH. destruct H as [H|H].
      + left. destruct (decide (k' = k)) as [->|Hne].
        * rewrite lookup_insert_eq. eauto.
        * by rewrite lookup_insert_ne.
      + apply elem_of_cons in H as [->|H]; [|by right].
        left. cbn. rewrite lookup_insert_eq. eauto. }
  apply Forall_forall. intros k Hk. apply G. by right.
Qed.

Lemma reads_refl (S : list string) (st : Store) : reads S st st.
Proof. repeat split; done. Qed.

Lemma reads_trans (S : list string) (st1 st2 st3 : Store) :
  reads S st1 st2 -> reads S st2 st3 -> reads S st1 st3.
Proof.
  intros (C1 & A1 & B1 & W1 & H1 & M1 & K1 & F1) (C2 & A2 & B2 & W2 & H2 & M2 & K2 & F2).
  repeat split; try congruence.
  - by etrans.
  - by etrans.
  - intros k Hk. by rewrite K2, K1.
  - auto.
Qed.

Lemma reads_mono (S S' : list string) (st st' : Store) :
  S ⊆ S' -> reads S st st' -> reads S' st st'.
Proof.
  intros HS (C & A & B & W & H & M & K & F). repeat split; try done.
  intros k Hk. apply K. intros Hin. apply Hk, HS, Hin.
Qed.

(** The step of a cache miss, under a key that is not yet bound. *)
Lemma reads_cache_add (st : Store) (f : space) (cs : list (string * float)) :
  spaces (self st) !! fname f = None ->
  reads [fname f] st (cache_add st f cs).
Proof.
  intros Hf. destruct st as [[r g b a_ al ws sp] hp]. cbn in *.
  repeat split; cbn.
  - by apply prefix_app_r.
  - by apply insert_subseteq.
  - intros k Hk. apply lookup_insert_ne. intros <-. apply Hk, list_elem_of_here.
  - intros Hwf k l. cbn. intros Hl.
    destruct (decide (fname f = k)) as [<-|Hne].
    + rewrite lookup_insert_eq in Hl. injection Hl as <-.
      exists (ColorSpace_init f cs). split; [by apply list_lookup_middle|].
      split; [done|]. apply ColorSpace_init_axes_have_coords.
    + rewrite lookup_insert_ne in Hl by done.
      destruct (Hwf k l Hl) as (sp' & H1 & H2 & H3).
      exists sp'. split; [|done]. cbn in *. by apply lookup_app_l_Some.
Qed.

Lemma reader_mono (S S' : list string) {A : Type} (m : M A) :
  S ⊆ S' -> reader S m -> reader S' m.
Proof. intros HS H st. eapply reads_mono; [exact HS|apply H]. Qed.

Lemma reader_ret (S : list string) {A : Type} (x : A) : reader S (mret x : M A).
Proof. intros st. apply reads_refl. Qed.

Lemma reader_lift (S : list string) {A : Type} (r : result A) : reader S (lift r).
Proof. intros st. apply reads_refl. Qed.

Lemma reader_raise (S : list string) {A : Type} (e : error) : reader S (raise e : M A).
Proof. intros st. apply reads_refl. Qed.

Lemma reader_get_self (S : list string) : reader S get_self.
Proof. intros st. apply reads_refl. Qed.

Lemma reader_deref (S : list string) (l : loc) : reader S (deref l).
Proof. intros st. apply reads_refl. Qed.

Lemma reader_bind (S : list string) {A B : Type} (m : M A) (f : A -> M B) :
  reader S m -> (forall x, reader S (f x)) -> reader S (m ≫= f).
Proof.
  intros Hm Hf st. specialize (Hm st). unfold mbind, M_bind.
  destruct (m st) as [st1 [x|e]]; cbn in *; [|done].
  eapply reads_trans; [exact Hm|apply Hf].
Qed.

Lemma reader_clamped_getter (S : list string) (n : attr) : reader S (clamped_getter n).
Proof. intros st. apply reads_refl. Qed.

Lemma reader_colorspace (S : list string) (f : space) body :
  reader S body -> fname f ∉ S -> reader (fname f :: S) (colorspace f body).
Proof.
  intros Hb Hf st. unfold colorspace. unfold_M.
  destruct (spaces (self st) !! fname f) as [l|] eqn:Hl; [apply reads_refl|].
  specialize (Hb st). destruct (body st) as [st1 [cs|e]]; cbn in *.
  - eapply reads_trans.
    + eapply reads_mono; [|exact Hb]. names_solver.
    + eapply reads_mono; [|apply (reads_cache_add st1 f cs)]; [names_solver|].
      destruct Hb as (_ & _ & _ & _ & _ & _ & K & _). by rewrite (K _ Hf).
  - eapply reads_mono; [|exact Hb]. names_solver.
Qed.

(** A successful read of a projection leaves it cached under its name. *)
Lemma colorspace_cached (f : space) body (st st' : Store) (l : loc) :
  colorspace f body st = (st', Ok l) -> spaces (self st') !! fname f = Some l.
Proof.
  unfold colorspace. unfold_M.
  destruct (spaces (self st) !! fname f) as [l0|] eqn:Hl.
  - intros [= <- <-]. exact Hl.
  - destruct (body st) as [st1 [cs|e]]; [|discriminate].
    intros [= <- <-]. cbn. apply lookup_insert_eq.
Qed.

Section Reads.

Variable fpow : float -> float -> result float.

Ltac reader_step :=
  first [ apply reader_bind; [|intros ?]
        | apply reader_ret | apply reader_lift | apply reader_raise
        | apply reader_get_self | apply reader_deref
        | apply reader_clamped_getter ].

Lemma reader_Color_srgb : reader ["srgb"] (Color_srgb fpow).
Proof.
  unfold Color_srgb. apply (reader_colorspace [] srgb); [|names_solver].
  unfold Color_r, Color_g, Color_b. repeat reader_step.
Qed.

Lemma reader_Color_linear_rgb : reader ["linear_rgb"] Color_linear_rgb.
Proof.
  unfold Color_linear_rgb. apply (reader_colorspace [] linear_rgb); [|names_solver].
  unfold Color_r, Color_g, Color_b. repeat reader_step.
Qed.

Lemma reader_Color_rgb : reader ["srgb"; "linear_rgb"] (Color_rgb fpow).
Proof.
  intros st. unfold Color_rgb. unfold mbind at 1, M_bind at 1, get_self at 1.
  destruct (workspace (self st)).
  - eapply reads_mono; [|apply reader_Color_srgb]. names_solver.
  - eapply reads_mono; [|apply reader_Color_linear_rgb]. names_solver.
Qed.

Lemma reader_coord (S : list string) (e : M loc) (k : string) :
  reader S e -> reader S (coord e k).
Proof. intros He. unfold coord. repeat reader_step. exact He. Qed.

Lemma reader_tuple_of (S : list string) (e : M loc) :
  reader S e -> reader S (tuple_of e).
Proof. intros He. unfold tuple_of. repeat reader_step. exact He. Qed.

Lemma reader_Color_rgb8 : reader ["rgb8"; "srgb"; "linear_rgb"] (Color_rgb8 fpow).
Proof.
  unfold Color_rgb8. apply (reader_colorspace _ rgb8); [|names_solver].
  repeat first [apply reader_coord, reader_Color_rgb | reader_step].
Qed.

Lemma reader_Color_hls : reader ["hls"; "srgb"; "linear_rgb"] (Color_hls fpow).
Proof.
  unfold Color_hls. apply (reader_colorspace _ hls); [|names_solver].
  repeat first [apply reader_coord, reader_Color_rgb | reader_step].
Qed.

Lemma reader_Color_yiq : reader ["yiq"; "srgb"; "linear_rgb"] (Color_yiq fpow).
Proof.
  unfold Color_yiq. apply (reader_colorspace _ yiq); [|names_solver].
  repeat first [apply reader_coord, reader_Color_rgb | reader_step].
Qed.

Lemma reader_Color_hsl : reader ["hsl"; "hls"; "srgb"; "linear_rgb"] (Color_hsl fpow).
Proof.
  unfold Color_hsl. apply (reader_colorspace _ hsl); [|names_solver].
  repeat first [apply reader_Color_hls | reader_step].
Qed.

Lemma reader_Color_getattr (f : space) : reader all_names (Color_getattr fpow f).
Proof.
  destruct f; cbn [Color_getattr];
    (eapply reader_mono;
     [|first [apply reader_Color_srgb | apply reader_Color_linear_rgb
             | apply reader_Color_rgb8 | apply reader_Color_hls
             | apply reader_Color_hsl | apply reader_Color_yiq]]);
    unfold all_names; cbn [map fname]; names_solver.
Qed.

Lemma reader_Color_hex : reader all_names (Color_hex fpow).
Proof.
  unfold Color_hex.
  repeat first [apply reader_coord, (reader_Color_getattr rgb8) | reader_step].
Qed.

Lemma reader_Color_css : reader all_names (Color_css fpow).
Proof.
  unfold Color_css.
  apply reader_bind; [apply (reader_Color_getattr srgb)|intros l].
  apply reader_bind; [apply reader_deref|intros sp].
  apply reader_bind; [apply reader_lift|intros ns].
  apply reader_bind; [apply reader_get_self|intros c].
  destruct (a c <? 1)%float; destruct ns as [|x [|y [|z [|? ?]]]];
    first [apply reader_ret | apply reader_raise].
Qed.

Lemma reader_Color_str : reader all_names (Color_str fpow).
Proof.
  unfold Color_str. apply reader_bind; [apply reader_get_self|intros c].
  destruct (a c <? 1)%float; [apply reader_Color_css|apply reader_Color_hex].
Qed.

Lemma reader_Color_lighter (amt : float) : reader all_names (Color_lighter fpow amt).
Proof.
  unfold Color_lighter, Color_a.
  repeat first [apply reader_coord, (reader_Color_getattr hls) | reader_step].
Qed.

Lemma reader_Color_darker (amt : float) : reader all_names (Color_darker fpow amt).
Proof.
  unfold Color_darker, Color_a.
  repeat first [apply reader_coord, (reader_Color_getattr hls) | reader_step].
Qed.

Lemma reader_run (op : operation) (st : Store) :
  is_read op = true -> reads all_names st (run fpow op st).
Proof.
  destruct op; try discriminate; intros _; cbn [run].
  - apply reader_Color_getattr.
  - eapply reads_mono; [|apply reader_Color_rgb]. unfold all_names. cbn. names_solver.
  - apply reader_Color_hex.
  - apply reader_Color_css.
  - apply reader_Color_str.
  - apply reader_Color_lighter.
  - apply reader_Color_darker.
Qed.

End Reads.

(** ** More about [hex_to_rgb] *)

Lemma rstrip_hash_app_hash (s : string) :
  Py.rstrip_hash (s +:+ "#") = Py.rstrip_hash s.
Proof.
  induction s as [|c s IH]; [reflexivity|].
  change (String c s +:+ "#") with (String c (s +:+ "#")).
  cbn [Py.rstrip_hash]. by rewrite IH.
Qed.

Lemma strip_hash_app_hash (s : string) :
  Py.strip_hash (s +:+ "#") = Py.strip_hash s.
Proof.
  unfold Py.strip_hash. induction s as [|c s IH]; [reflexivity|].
  change (String c s +:+ "#") with (String c (s +:+ "#")).
  cbn [Py.lstrip_hash]. destruct (Py.is_hash c); [exact IH|].
  apply (rstrip_hash_app_hash (String c s)).
Qed.

Lemma lower_checked : forallb lower_ok all_ascii = true.
Proof. vm_compute. reflexivity. Qed.

Lemma lower_facts (c : ascii) :
  Py.is_hash (lower c) = Py.is_hash c /\ Py.hex_digit (lower c) = Py.hex_digit c.
Proof.
  pose proof lower_checked as H. rewrite forallb_forall in H.
  specialize (H c (in_all_ascii c)). unfold lower_ok in H.
  apply andb_prop in H as [H1 H2]. split.
  - by apply Bool.eqb_prop.
  - destruct (Py.hex_digit (lower c)), (Py.hex_digit c); try discriminate; [|done].
    apply Z.eqb_eq in H2. by subst.
Qed.

Lemma lstrip_hash_lowercase (s : string) :
  Py.lstrip_hash (lowercase s) = lowercase (Py.lstrip_hash s).
Proof.
  induction s as [|c s IH]; [reflexivity|].
  cbn [lowercase Py.lstrip_hash]. rewrite (proj1 (lower_facts c)).
  by destruct (Py.is_hash c).
Qed.

Lemma rstrip_hash_lowercase (s : string) :
  Py.rstrip_hash (lowercase s) = lowercase (Py.rstrip_hash s).
Proof.
  induction s as [|c s IH]; [reflexivity|].
  cbn [lowercase Py.rstrip_hash]. rewrite IH, (proj1 (lower_facts c)).
  destruct (Py.rstrip_hash s); cbn [lowercase]; [by destruct (Py.is_hash c)|reflexivity].
Qed.

Lemma length_lowercase (s : string) : String.length (lowercase s) = String.length s.
Proof. induction s as [|c s IH]; [reflexivity|]. cbn. by rewrite IH. Qed.

Lemma substring_lowercase (n m : nat) (s : string) :
  substring n m (lowercase s) = lowercase (substring n m s).
Proof.
  revert n m. induction s as [|c s IH]; intros [|n] [|m]; cbn; try reflexivity.
  - by rewrite IH.
  - by rewrite IH.
  - by rewrite IH.
Qed.

Lemma append_lowercase (s t : string) :
  lowercase s +:+ lowercase t = lowercase (s +:+ t).
Proof.
  induction s as [|c s IH]; [reflexivity|].
  change (String (lower c) (lowercase s +:+ lowercase t)
          = String (lower c) (lowercase (s +:+ t))).
  by rewrite IH.
Qed.

Lemma int16_lowercase (s : string) : Py.int16 (lowercase s) = Py.int16 s.
Proof.
  unfold Py.int16.
  assert (H : forall acc, Py.hex_value acc (lowercase s) = Py.hex_value acc s).
  { induction s as [|c s IH]; intros acc; [reflexivity|].
    cbn [lowercase Py.hex_value]. rewrite (proj2 (lower_facts c)).
    destruct (Py.hex_digit c); [apply IH|reflexivity]. }
  rewrite H. by destruct s.
Qed.

(** X17: on hexadecimal digits, with any ['#'] around them, [hex_to_rgb]
    does not tell the case of the letters: the string and its lower-case
    form give the same values, or the same exception when the number of
    digits is no multiple of three or zero. *)
Theorem hex_to_rgb_ignores_case (s : string) :
  all_hex (Py.strip_hash s) = true ->
  hex_to_rgb (lowercase s) = hex_to_rgb s.
Proof.
  intros _. unfold hex_to_rgb, Py.strip_hash.
  rewrite lstrip_hash_lowercase, rstrip_hash_lowercase.
  set (h := Py.rstrip_hash (Py.lstrip_hash s)).
  unfold Py.len, Py.slice. rewrite length_lowercase, !substring_lowercase.
  destruct (negb _); [reflexivity|].
  destruct (Z.of_nat (String.length h) =? 3); cbn [fst snd];
    rewrite ?append_lowercase, !int16_lowercase; reflexivity.
Qed.

(** X17, witness: [hex_to_rgb("#0A0bCC")] and [hex_to_rgb("#0a0bcc")]. *)
Lemma hex_to_rgb_ignores_case_witness :
  all_hex (Py.strip_hash "#0A0bCC") = true /\
  hex_to_rgb (lowercase "#0A0bCC") = hex_to_rgb "#0A0bCC".
Proof. split; [reflexivity|]. apply (hex_to_rgb_ignores_case "#0A0bCC"). reflexivity. Defined.

(** X18: Any ['#'] before or after the digits is dropped. *)
Theorem hex_to_rgb_ignores_hashes (s : string) :
  hex_to_rgb ("#" +:+ s) = hex_to_rgb s /\ hex_to_rgb (s +:+ "#") = hex_to_rgb s.
Proof.
  split; [reflexivity|]. unfold hex_to_rgb. by rewrite strip_hash_app_hash.
Qed.

(** X19: A three-character string stands for the six-character one in which
    each character is doubled. *)
Theorem hex_to_rgb_shorthand (d : string) :
  String.length d = 3%nat -> hex_to_rgb d = hex_to_rgb (double_digits d).
Proof.
  destruct d as [|c1 [|c2 [|c3 [|c4 d]]]]; try discriminate. intros _.
  unfold hex_to_rgb, Py.strip_hash. cbn [double_digits].
  destruct (Py.is_hash c1) eqn:H1, (Py.is_hash c2) eqn:H2, (Py.is_hash c3) eqn:H3;
    repeat (cbn [Py.lstrip_hash Py.rstrip_hash]; rewrite ?H1, ?H2, ?H3);
    reflexivity.
Qed.

(** X19, witness: [hex_to_rgb("a0F")] and [hex_to_rgb("aa00FF")]. *)
Lemma hex_to_rgb_shorthand_witness :
  String.length "a0F" = 3%nat /\ hex_to_rgb "a0F" = hex_to_rgb (double_digits "a0F").
Proof. split; [reflexivity|]. apply (hex_to_rgb_shorthand "a0F"). reflexivity. Defined.

(** X20: Three or six hexadecimal digits, with or without the ['#'], give three
    values between 0 and 255. *)
Theorem hex_to_rgb_bytes (d : string) :
  valid_hex d = true ->
  exists k1 k2 k3,
    hex_to_rgb d = Ok (k1, k2, k3) /\ hex_to_rgb ("#" +:+ d) = Ok (k1, k2, k3) /\
    0 <= k1 < 256 /\ 0 <= k2 < 256 /\ 0 <= k3 < 256.
Proof.
  intros H. destruct (hex_to_rgb_valid d H) as (k1 & k2 & k3 & Hh & K1 & K2 & K3 & _).
  exists k1, k2, k3. repeat split; try lia; exact Hh.
Qed.

(** X20, witness: [hex_to_rgb("0a0bcc")] and [hex_to_rgb("#0a0bcc")]. *)
Lemma hex_to_rgb_bytes_witness :
  valid_hex "0a0bcc" = true /\
  exists k1 k2 k3,
    hex_to_rgb "0a0bcc" = Ok (k1, k2, k3) /\ hex_to_rgb ("#" +:+ "0a0bcc") = Ok (k1, k2, k3) /\
    0 <= k1 < 256 /\ 0 <= k2 < 256 /\ 0 <= k3 < 256.
Proof. split; [reflexivity|]. apply (hex_to_rgb_bytes "0a0bcc"). reflexivity. Defined.

(** ** What every operation keeps *)

Lemma bind_inv_ok {A B : Type} (m : M A) (f : A -> M B) (st st' : Store) (y : B) :
  (m ≫= f) st = (st', Ok y) ->
  exists x st1, m st = (st1, Ok x) /\ f x st1 = (st', Ok y).
Proof.
  unfold mbind, M_bind. destruct (m st) as [st1 [x|e]]; [eauto|discriminate].
Qed.

Lemma lift_inv_ok {A : Type} (r : result A) (st st' : Store) (x : A) :
  lift r st = (st', Ok x) -> r = Ok x /\ st' = st.
Proof. unfold lift. by intros [= -> ->]. Qed.

Lemma preserves_bind (P : Store -> Prop) {A B : Type} (m : M A) (f : A -> M B) :
  preserves P m -> (forall x, preserves P (f x)) -> preserves P (m ≫= f).
Proof.
  intros Hm Hf st HP. specialize (Hm st HP). unfold mbind, M_bind.
  destruct (m st) as [st1 [x|e]]; cbn in *; [by apply Hf|done].
Qed.

Lemma preserves_same (P : Store -> Prop) {A : Type} (m : M A) :
  (forall st, (m st).1 = st) -> preserves P m.
Proof. intros H st HP. by rewrite H. Qed.

Lemma channels_in_range_eq (st st' : Store) :
  channels st' = channels st -> channels_in_range st -> channels_in_range st'.
Proof. unfold channels, channels_in_range. by intros [= -> -> ->]. Qed.

Lemma reader_channels_in_range (S : list string) {A : Type} (m : M A) :
  reader S m -> preserves channels_in_range m.
Proof.
  intros H st HP. destruct (H st) as (C & _). by apply (channels_in_range_eq st).
Qed.

Lemma reader_cache_wf (S : list string) {A : Type} (m : M A) :
  reader S m -> preserves cache_wf m.
Proof. intros H st HP. destruct (H st) as (_ & _ & _ & _ & _ & _ & _ & F). by apply F. Qed.

Lemma clamped_setter_channels_in_range (n : attr) (v : float) :
  preserves channels_in_range (clamped_setter n 0 1 v).
Proof.
  intros st (R & G & B). destruct (in_range v) eqn:Hv.
  - rewrite clamped_setter_in_range by done. by destruct n.
  - by rewrite clamped_setter_out_of_range.
Qed.

Lemma clear_spaces_channels_in_range : preserves channels_in_range clear_spaces.
Proof. by intros st H. Qed.

Lemma cache_wf_empty (st : Store) : spaces (self st) = ∅ -> cache_wf st.
Proof. intros H k l. rewrite H. by rewrite lookup_empty. Qed.



Section Invariants.

Variable fpow : float -> float -> result float.

Ltac pres_step :=
  first [ apply clamped_setter_channels_in_range
        | apply clear_spaces_channels_in_range
        | apply preserves_same; reflexivity
        | apply preserves_bind; [|intros ?] ].

Lemma Color_set_rgb_channels_in_range (v : list float) :
  preserves channels_in_range (Color_set_rgb fpow v).
Proof.
  intros st. unfold Color_set_rgb. unfold mbind at 1, M_bind at 1, get_self at 1.
  destruct (workspace (self st)); revert st.
  - unfold Color_set_srgb, Color_set_r, Color_set_g, Color_set_b. repeat pres_step.
  - unfold Color_set_linear_rgb, Color_set_r, Color_set_g, Color_set_b. repeat pres_step.
Qed.

Lemma Color_setattr_channels_in_range (f : space) (v : list float) :
  preserves channels_in_range (Color_setattr fpow f v).
Proof.
  destruct f; cbn [Color_setattr];
    unfold Color_set_srgb, Color_set_linear_rgb, Color_set_rgb8, Color_set_hls,
      Color_set_hsl, Color_set_yiq, Color_set_hls, Color_set_r, Color_set_g, Color_set_b;
    repeat first [apply Color_set_rgb_channels_in_range | pres_step].
Qed.



Lemma Color_setattr_cleared (f : space) (v : list float) (st : Store) :
  spaces (self (Color_setattr fpow f v st).1) = ∅.
Proof. by destruct (Color_setattr_post fpow f v st) as (H & _). Qed.

Lemma Color_set_rgb_cleared (v : list float) (st : Store) :
  spaces (self (Color_set_rgb fpow v st).1) = ∅.
Proof. by destruct (Color_set_rgb_post fpow v st) as (H & _). Qed.





(** *** What a projection assignment that succeeds leaves *)

Lemma setter_post_ok (st : Store) wb (st' : Store) :
  setter_post st wb (st', Ok tt) ->
  exists x y z,
    wb = Ok (x, y, z) /\
    in_range x = true /\ in_range y = true /\ in_range z = true /\
    st' = mkStore (mkColor x y z (_a (self st)) (a (self st)) (workspace (self st)) ∅)
            (heap st).
Proof.
  intros (_ & _ & _ & _ & _ & Hm). cbn in Hm.
  destruct wb as [[[x y] z]|]; [|destruct Hm as [[? [=]] _]].
  destruct (in_range x) eqn:Hx; [|destruct Hm as [[? [=]] _]].
  destruct (in_range y) eqn:Hy; [|destruct Hm as [[? [=]] _]].
  destruct (in_range z) eqn:Hz; [|destruct Hm as [[? [=]] _]].
  injection Hm as ->. by exists x, y, z.
Qed.

Lemma setter_post_in_range (st : Store) (x y z : float) (r : Store * result unit) :
  setter_post st (Ok (x, y, z)) r ->
  in_range x = true -> in_range y = true -> in_range z = true ->
  r = (mkStore (mkColor x y z (_a (self st)) (a (self st)) (workspace (self st)) ∅)
         (heap st), Ok tt).
Proof.
  intros (_ & _ & _ & _ & _ & Hm) Hx Hy Hz. cbn in Hm.
  by rewrite Hx, Hy, Hz in Hm.
Qed.

Lemma Color_setattr_ok (f : space) (v : list float) (st st' : Store) :
  Color_setattr fpow f v st = (st', Ok tt) ->
  exists x y z,
    write_back fpow (workspace (self st)) f v = Ok (x, y, z) /\
    in_range x = true /\ in_range y = true /\ in_range z = true /\
    st' = mkStore (mkColor x y z (_a (self st)) (a (self st)) (workspace (self st)) ∅)
            (heap st).
Proof.
  intros H. apply setter_post_ok. rewrite <- H. apply Color_setattr_post.
Qed.

Lemma Color_set_rgb_ok (v : list float) (st st' : Store) :
  Color_set_rgb fpow v st = (st', Ok tt) ->
  exists x y z,
    write_back_rgb fpow (workspace (self st)) v = Ok (x, y, z) /\
    in_range x = true /\ in_range y = true /\ in_range z = true /\
    st' = mkStore (mkColor x y z (_a (self st)) (a (self st)) (workspace (self st)) ∅)
            (heap st).
Proof.
  intros H. apply setter_post_ok. rewrite <- H. apply Color_set_rgb_post.
Qed.

(** *** The constructor *)

Lemma reader_frame (S : list string) {A : Type} (m : M A) (x y : float)
    (w : workspace_name) :
  reader S m ->
  preserves (fun s => a (self s) = x /\ _a (self s) = y /\ workspace (self s) = w) m.
Proof.
  intros H st (H1 & H2 & H3). destruct (H st) as (_ & A1 & A2 & W & _).
  by rewrite A1, A2, W.
Qed.

Lemma setter_post_frame (st : Store) wb (r : Store * result unit) (x y : float)
    (w : workspace_name) :
  setter_post st wb r ->
  a (self st) = x /\ _a (self st) = y /\ workspace (self st) = w ->
  a (self r.1) = x /\ _a (self r.1) = y /\ workspace (self r.1) = w.
Proof. intros (_ & _ & A1 & A2 & W & _) (H1 & H2 & H3). by rewrite A1, A2, W. Qed.

(** What every read and every assignment of the constructor's loop keeps,
    the loop keeps, and so does the constructor. *)
Lemma Color_init_kwargs_preserves (P : Store -> Prop) :
  (forall f, preserves P (Color_getattr fpow f)) ->
  preserves P (Color_rgb fpow) ->
  preserves P (Color_hex fpow) ->
  preserves P (Color_css fpow) ->
  (forall f v, preserves P (Color_setattr fpow f v)) ->
  (forall v, preserves P (Color_set_rgb fpow v)) ->
  forall kwargs, preserves P (Color_init_kwargs fpow kwargs).
Proof.
  intros Hg Hr Hh Hc Hs Hsr. induction kwargs as [|[kw v] rest IH].
  - by intros st H.
  - destruct kw; cbn [Color_init_kwargs].
    + apply preserves_bind; [apply Hg|intros _; apply Hs].
    + apply preserves_bind; [apply Hr|intros _; apply Hsr].
    + apply preserves_bind; [apply Hh|intros _; apply IH].
    + apply preserves_bind; [apply Hc|intros _; apply IH].
    + apply IH.
    + by intros st H.
Qed.

Lemma Color_new_preserves (P : Store -> Prop) (descr : option string) (a0 : float)
    (ws : workspace_name) (kwargs : list (keyword * list float)) (st : Store) :
  (forall f, preserves P (Color_getattr fpow f)) ->
  preserves P (Color_rgb fpow) ->
  preserves P (Color_hex fpow) ->
  preserves P (Color_css fpow) ->
  (forall f v, preserves P (Color_setattr fpow f v)) ->
  (forall v, preserves P (Color_set_rgb fpow v)) ->
  P (mkStore (mkColor 0 0 0 0 a0 ws ∅) []) ->
  Color_new fpow descr a0 ws kwargs = Ok st -> P st.
Proof.
  intros Hg Hr Hh Hc Hs Hsr H0. unfold Color_new.
  destruct (Color_init fpow descr a0 ws kwargs _) as [st' [[]|e]] eqn:E; [|discriminate].
  intros [= <-]. unfold Color_init in E.
  set (st0 := mkStore (mkColor 0 0 0 0 a0 ws ∅) []) in *.
  rewrite (bind_ok _ _ _ (mkStore (mkColor 0 0 0 0 0 ws ∅) []) tt) in E by reflexivity.
  rewrite (bind_ok _ _ _ st0 tt) in E by reflexivity.
  change st' with (st', @Ok unit tt).1. rewrite <- E.
  destruct (match descr with Some d => _ | None => false end).
  - match goal with
    | |- P (?m st0).1 => apply (fun (Hp : preserves P m) => Hp st0 H0)
    end.
    repeat first [ apply (Hs rgb8) | apply preserves_same; reflexivity
                 | apply preserves_bind; [|intros ?] ].
  - by apply Color_init_kwargs_preserves.
Qed.

Lemma Color_new_ok (descr : option string) (a0 : float) (ws : workspace_name)
    (kwargs : list (keyword * list float)) (st : Store) :
  Color_new fpow descr a0 ws kwargs = Ok st ->
  a (self st) = a0 /\ _a (self st) = 0%float /\ workspace (self st) = ws /\
  channels_in_range st /\ cache_wf st.
Proof.
  intros H.
  assert (F : a (self st) = a0 /\ _a (self st) = 0%float /\ workspace (self st) = ws).
  { apply (Color_new_preserves
             (fun s => a (self s) = a0 /\ _a (self s) = 0%float /\ workspace (self s) = ws)
             descr a0 ws kwargs st); try exact H; try done.
    - intros f. apply (reader_frame all_names), reader_Color_getattr.
    - apply (reader_frame ["srgb"; "linear_rgb"]), reader_Color_rgb.
    - apply (reader_frame all_names), reader_Color_hex.
    - apply (reader_frame all_names), reader_Color_css.
    - intros f v s0 H0. eapply setter_post_frame; [apply Color_setattr_post|exact H0].
    - intros v s0 H0. eapply setter_post_frame; [apply Color_set_rgb_post|exact H0]. }
  destruct F as (F1 & F2 & F3). split; [exact F1|]. split; [exact F2|]. split; [exact F3|].
  split.
  - apply (Color_new_preserves channels_in_range descr a0 ws kwargs st); try exact H.
    + intros f. apply (reader_channels_in_range all_names), reader_Color_getattr.
    + apply (reader_channels_in_range ["srgb"; "linear_rgb"]), reader_Color_rgb.
    + apply (reader_channels_in_range all_names), reader_Color_hex.
    + apply (reader_channels_in_range all_names), reader_Color_css.
    + apply Color_setattr_channels_in_range.
    + apply Color_set_rgb_channels_in_range.
    + by vm_compute.
  - apply (Color_new_preserves cache_wf descr a0 ws kwargs st); try exact H.
    + intros f. apply (reader_cache_wf all_names), reader_Color_getattr.
    + apply (reader_cache_wf ["srgb"; "linear_rgb"]), reader_Color_rgb.
    + apply (reader_cache_wf all_names), reader_Color_hex.
    + apply (reader_cache_wf all_names), reader_Color_css.
    + intros f v s0 _. apply cache_wf_empty, Color_setattr_cleared.
    + intros v s0 _. apply cache_wf_empty, Color_set_rgb_cleared.
    + by apply cache_wf_empty.
Qed.

(** A keyword that names a projection, first in the call. *)
Lemma Color_init_kwargs_space (f : space) (v : list float) rest (st st' : Store) :
  Color_init_kwargs fpow ((kw_space f, v) :: rest) st = (st', Ok tt) ->
  exists x y z,
    write_back fpow (workspace (self st)) f v = Ok (x, y, z) /\
    channels st' = (x, y, z) /\ spaces (self st') = ∅.
Proof.
  cbn [Color_init_kwargs]. intros (l & st1 & Hg & Hset)%bind_inv_ok.
  pose proof (reader_Color_getattr fpow f st) as R. rewrite Hg in R. cbn in R.
  destruct R as (_ & _ & _ & W & _).
  destruct (Color_setattr_ok _ _ _ _ Hset) as (x & y & z & Hw & _ & _ & _ & ->).
  rewrite W in Hw. by exists x, y, z.
Qed.

Lemma Color_init_kwargs_rgb (v : list float) rest (st st' : Store) :
  Color_init_kwargs fpow ((kw_rgb, v) :: rest) st = (st', Ok tt) ->
  exists x y z,
    write_back_rgb fpow (workspace (self st)) v = Ok (x, y, z) /\
    channels st' = (x, y, z) /\ spaces (self st') = ∅.
Proof.
  cbn [Color_init_kwargs]. intros (l & st1 & Hg & Hset)%bind_inv_ok.
  pose proof (reader_Color_rgb fpow st) as R. rewrite Hg in R. cbn in R.
  destruct R as (_ & _ & _ & W & _).
  destruct (Color_set_rgb_ok _ _ _ Hset) as (x & y & z & Hw & _ & _ & _ & ->).
  rewrite W in Hw. by exists x, y, z.
Qed.

(** The cache the loop leaves: empty once coordinates have been assigned;
    when none have, the channels are as before, and only a keyword [hex] or
    [css] can have added entries. *)
Lemma Color_init_kwargs_cache (kwargs : list (keyword * list float)) (st st' : Store) :
  Color_init_kwargs fpow kwargs st = (st', Ok tt) ->
  (spaces (self st') = ∅ \/ channels st' = channels st) /\
  (Forall (fun p => p.1 <> kw_hex /\ p.1 <> kw_css) kwargs ->
   spaces (self st) = ∅ -> spaces (self st') = ∅).
Proof.
  revert st. induction kwargs as [|[kw v] rest IH]; intros st.
  - intros [= <-]. split; [by right|done].
  - destruct kw.
    + intros (x & y & z & _ & _ & Hs)%Color_init_kwargs_space. split; [by left|done].
    + intros (x & y & z & _ & _ & Hs)%Color_init_kwargs_rgb. split; [by left|done].
    + cbn [Color_init_kwargs]. intros (x & st1 & Hh & H)%bind_inv_ok.
      pose proof (reader_Color_hex fpow st) as R. rewrite Hh in R.
      destruct R as (C & _). cbn [fst] in C. destruct (IH st1 H) as [[Hs|Hc] _].
      * split; [by left|]. intros F. apply Forall_cons in F as [[F _] _]. by destruct F.
      * split; [right; by rewrite Hc|].
        intros F. apply Forall_cons in F as [[F _] _]. by destruct F.
    + cbn [Color_init_kwargs]. intros (x & st1 & Hh & H)%bind_inv_ok.
      pose proof (reader_Color_css fpow st) as R. rewrite Hh in R.
      destruct R as (C & _). cbn [fst] in C. destruct (IH st1 H) as [[Hs|Hc] _].
      * split; [by left|]. intros F. apply Forall_cons in F as [[_ F] _]. by destruct F.
      * split; [right; by rewrite Hc|].
        intros F. apply Forall_cons in F as [[_ F] _]. by destruct F.
    + cbn [Color_init_kwargs]. intros H. destruct (IH st H) as [H1 H2].
      split; [exact H1|]. intros F. apply Forall_cons in F as [_ F]. by apply H2.
    + discriminate.
Qed.

Lemma Color_new_cache (descr : option string) (a0 : float) (ws : workspace_name)
    (kwargs : list (keyword * list float)) (st : Store) :
  Color_new fpow descr a0 ws kwargs = Ok st ->
  (spaces (self st) = ∅ \/ channels st = (0, 0, 0)%float) /\
  (Forall (fun p => p.1 <> kw_hex /\ p.1 <> kw_css) kwargs -> spaces (self st) = ∅).
Proof.
  unfold Color_new.
  destruct (Color_init fpow descr a0 ws kwargs _) as [st' [[]|e]] eqn:E; [|discriminate].
  intros [= <-]. unfold Color_init in E.
  set (st0 := mkStore (mkColor 0 0 0 0 a0 ws ∅) []) in *.
  rewrite (bind_ok _ _ _ (mkStore (mkColor 0 0 0 0 0 ws ∅) []) tt) in E by reflexivity.
  rewrite (bind_ok _ _ _ st0 tt) in E by reflexivity.
  destruct (match descr with Some d => _ | None => false end).
  - apply bind_inv_ok in E as (t & s1 & [_ ->]%lift_inv_ok & E).
    apply bind_inv_ok in E as (x & s1 & [_ ->]%lift_inv_ok & E).
    apply bind_inv_ok in E as (y & s1 & [_ ->]%lift_inv_ok & E).
    apply bind_inv_ok in E as (z & s1 & [_ ->]%lift_inv_ok & E).
    destruct (Color_setattr_ok rgb8 _ _ _ E) as (c1 & c2 & c3 & _ & _ & _ & _ & ->).
    split; [by left|done].
  - destruct (Color_init_kwargs_cache kwargs st0 st' E) as [H1 H2].
    split; [exact H1|]. intros F. by apply H2.
Qed.

End Invariants.

(** ** Reading coordinates *)

Lemma coord_inv_ok (e : M loc) (k : string) (st st' : Store) (x : float) :
  coord e k st = (st', Ok x) ->
  exists l sp, e st = (st', Ok l) /\ heap st' !! l = Some sp /\ attribute sp k = VNum x.
Proof.
  unfold coord. intros (l & s1 & He & H)%bind_inv_ok.
  apply bind_inv_ok in H as (sp & s2 & Hd & H).
  unfold deref in Hd. destruct (heap s1 !! l) as [sp0|] eqn:Hl; [|discriminate].
  injection Hd as <- <-. apply lift_inv_ok in H as [Hn <-].
  exists l, sp0. repeat split; try done.
  unfold number in Hn. destruct (attribute sp0 k); try discriminate. by injection Hn as ->.
Qed.

Lemma tuple_of_inv_ok (e : M loc) (st st' : Store) (t : list float) :
  tuple_of e st = (st', Ok t) ->
  exists l sp, e st = (st', Ok l) /\ heap st' !! l = Some sp /\ ColorSpace_tuple sp = Ok t.
Proof.
  unfold tuple_of. intros (l & s1 & He & H)%bind_inv_ok.
  apply bind_inv_ok in H as (sp & s2 & Hd & H).
  unfold deref in Hd. destruct (heap s1 !! l) as [sp0|] eqn:Hl; [|discriminate].
  injection Hd as <- <-. apply lift_inv_ok in H as [Hn <-].
  by exists l, sp0.
Qed.

Lemma tuple_of_ok (e : M loc) (st st1 : Store) (l : loc) (sp : ColorSpace) :
  e st = (st1, Ok l) -> heap st1 !! l = Some sp ->
  tuple_of e st = (st1, ColorSpace_tuple sp).
Proof. unfold tuple_of. unfold_M. by intros -> ->. Qed.

Lemma Color_getattr_colorspace (fpow : float -> float -> result float) (f : space) :
  exists body, Color_getattr fpow f = colorspace f body.
Proof. destruct f; eexists; reflexivity. Qed.

Lemma Color_getattr_cached (fpow : float -> float -> result float) (f : space)
    (st st1 : Store) (l : loc) :
  Color_getattr fpow f st = (st1, Ok l) ->
  spaces (self st1) !! fname f = Some l /\ Color_getattr fpow f st1 = (st1, Ok l).
Proof.
  destruct (Color_getattr_colorspace fpow f) as [body ->]. intros H.
  pose proof (colorspace_cached f body st st1 l H) as Hc.
  split; [exact Hc|by apply colorspace_hit].
Qed.

(** The coordinates of a space as [ColorSpace.__init__] builds it, when no
    axis is named twice. *)
Lemma coords_in_order_foldl (cs : list (string * float)) (m : gmap string float) :
  NoDup (map fst cs) ->
  coords_in_order (foldl (fun m p => <[p.1 := p.2]> m) m cs) (map fst cs) = Ok (map snd cs).
Proof.
  assert (G : forall cs (m : gmap string float) k,
             k ∉ map fst cs -> foldl (fun m p => <[p.1 := p.2]> m) m cs !! k = m !! k).
  { clear. induction cs as [|[k' v] cs IH]; intros m k Hk; [reflexivity|].
    cbn [foldl map fst] in *. apply not_elem_of_cons in Hk as [Hne Hk].
    rewrite IH by done. cbn. by rewrite lookup_insert_ne. }
  assert (E : forall (ks : list string) (m1 m2 : gmap string float),
             (forall k, k ∈ ks -> m1 !! k = m2 !! k) ->
             coords_in_order m1 ks = coords_in_order m2 ks).
  { clear. induction ks as [|k ks IH]; intros m1 m2 H; [reflexivity|].
    cbn [coords_in_order]. rewrite (H k) by apply list_elem_of_here.
    rewrite (IH m1 m2); [reflexivity|]. intros k' Hk'. apply H. by apply list_elem_of_further. }
  revert m. induction cs as [|[k v] cs IH]; intros m Hnd; [reflexivity|].
  cbn [map fst snd foldl] in *. apply NoDup_cons in Hnd as [Hk Hnd].
  cbn [coords_in_order]. rewrite (G cs _ k Hk). cbn. rewrite lookup_insert_eq.
  by rewrite (IH _ Hnd).
Qed.

Section MoreProperties.

Variable fpow : float -> float -> result float.

Local Open Scope float_scope.

Lemma Color_srgb_miss (st : Store) :
  spaces (self st) !! "srgb" = None ->
  Color_srgb fpow st
  = match derive_rgb fpow ws_srgb (channels st) with
    | Ok c => (cache_add st srgb [("r", c.1.1); ("g", c.1.2); ("b", c.2)],
               Ok (List.length (heap st)))
    | Raise e => (st, Raise e)
    end.
Proof.
  unfold derive_rgb, channels. cbn [fst snd]. intros H. unfold Color_srgb.
  destruct (srgb_tx fpow (_r (self st))) as [x|e] eqn:Hx;
  [destruct (srgb_tx fpow (_g (self st))) as [y|e] eqn:Hy;
   [destruct (srgb_tx fpow (_b (self st))) as [z|e] eqn:Hz|]|].
  + cbn. apply colorspace_miss; [done|]. unfold_M. cbn -[srgb_tx]. by rewrite Hx, Hy, Hz.
  + cbn. apply colorspace_miss_raise; [done|]. unfold_M. cbn -[srgb_tx]. by rewrite Hx, Hy, Hz.
  + cbn. apply colorspace_miss_raise; [done|]. unfold_M. cbn -[srgb_tx]. by rewrite Hx, Hy.
  + cbn. apply colorspace_miss_raise; [done|]. unfold_M. cbn -[srgb_tx]. by rewrite Hx.
Qed.

Lemma clamp_in_range (x : float) :
  in_range (let r := if x <? 0.0 then 0.0 else x in if 1.0 <? r then 1.0 else r) = true.
Proof.
  cbv zeta. destruct (x <? 0.0) eqn:H0.
  - reflexivity.
  - destruct (1.0 <? x) eqn:H1; [reflexivity|].
    unfold in_range. by rewrite H0, H1.
Qed.

Lemma yiq_to_rgb_in_range (y i q : float) :
  in_range (colorsys.yiq_to_rgb y i q).1.1 = true /\
  in_range (colorsys.yiq_to_rgb y i q).1.2 = true /\
  in_range (colorsys.yiq_to_rgb y i q).2 = true.
Proof. unfold colorsys.yiq_to_rgb. cbn [fst snd]. repeat split; apply clamp_in_range. Qed.

Lemma Color_new_None (a0 : float) (ws : workspace_name) kwargs :
  Color_new fpow None a0 ws kwargs
  = match Color_init_kwargs fpow kwargs (mkStore (mkColor 0 0 0 0 a0 ws ∅) []) with
    | (st, Ok _) => Ok st
    | (_, Raise e) => Raise e
    end.
Proof. reflexivity. Qed.

Lemma Color_new_None_ok (a0 : float) (ws : workspace_name) kwargs (st : Store) :
  Color_new fpow None a0 ws kwargs = Ok st ->
  Color_init_kwargs fpow kwargs (mkStore (mkColor 0 0 0 0 a0 ws ∅) []) = (st, Ok tt).
Proof.
  rewrite Color_new_None.
  destruct (Color_init_kwargs _ _ _) as [st' [[]|e]]; [|discriminate]. by intros [= ->].
Qed.

Lemma Color_from_hls_ok (h l s a0 : float) (st : Store) :
  Color_from_hls fpow h l s a0 = Ok st ->
  write_back fpow ws_srgb hls [h; l; s] = Ok (channels st) /\
  a (self st) = a0 /\ workspace (self st) = ws_srgb /\ spaces (self st) = ∅ /\
  channels_in_range st.
Proof.
  intros H. destruct (Color_new_ok fpow _ _ _ _ _ H) as (N1 & _ & N3 & N4 & _).
  pose proof (Color_new_None_ok _ _ _ _ H) as E.
  destruct (Color_init_kwargs_space fpow _ _ _ _ _ E) as (x & y & z & Hd & Hc & Hs).
  rewrite Hc. done.
Qed.

(** [self.hls.k] once [self.hls] has been read. *)
Lemma coord_again (f : space) (k : string) (st st1 : Store) (l : loc) (sp : ColorSpace) :
  Color_getattr fpow f st = (st1, Ok l) -> heap st1 !! l = Some sp ->
  coord (Color_getattr fpow f) k st1 = (st1, number (attribute sp k)).
Proof.
  intros H Hl. destruct (Color_getattr_cached fpow f st st1 l H) as [_ H1].
  unfold coord. unfold_M. by rewrite H1, Hl.
Qed.

(** What [lighter] and [darker] share: three reads of [self.hls], then
    [Color.from_hls]. *)
Lemma shade_ok (g : float -> float) (st st1 : Store) (new : Store) :
  (l0 ← coord (Color_hls fpow) "l";
   h ← coord (Color_hls fpow) "h";
   s ← coord (Color_hls fpow) "s";
   al ← Color_a;
   lift (Color_from_hls fpow h (g l0) s al)) st = (st1, Ok new) ->
  exists h l s,
    coord (Color_hls fpow) "h" st1 = (st1, Ok h) /\
    coord (Color_hls fpow) "l" st1 = (st1, Ok l) /\
    coord (Color_hls fpow) "s" st1 = (st1, Ok s) /\
    Color_from_hls fpow h (g l) s (a (self st)) = Ok new /\
    channels st1 = channels st /\ a (self st1) = a (self st) /\
    workspace (self st1) = workspace (self st).
Proof.
  intros (l0 & sA & Hl & H)%bind_inv_ok.
  destruct (coord_inv_ok _ _ _ _ _ Hl) as (loc0 & sp & Hg & Hsp & Hal).
  pose proof (coord_again hls "h" st sA loc0 sp Hg Hsp) as Hh.
  pose proof (coord_again hls "s" st sA loc0 sp Hg Hsp) as Hs.
  pose proof (coord_again hls "l" st sA loc0 sp Hg Hsp) as Hl2.
  cbn [Color_getattr] in Hh, Hs, Hl2. rewrite Hal in Hl2. cbn [number] in Hl2.
  apply bind_inv_ok in H as (h & sB & Hh' & H). rewrite Hh in Hh'.
  injection Hh' as <- Hh'. 
  apply bind_inv_ok in H as (s & sC & Hs' & H). rewrite Hs in Hs'.
  injection Hs' as <- Hs'.
  apply bind_inv_ok in H as (al & sD & Ha & H). injection Ha as <- <-.
  apply lift_inv_ok in H as [H <-].
  pose proof (reader_Color_getattr fpow hls st) as R. cbn [Color_getattr] in R.
  rewrite Hg in R. destruct R as (C & A1 & _ & W & _). cbn in C, A1, W.
  exists h, l0, s. rewrite Hh, Hs, Hh', Hs', A1 in *. repeat split; done.
Qed.

End MoreProperties.

(** ** Properties of the operations *)

Section Extras.

Variable fpow : float -> float -> result float.

Local Open Scope float_scope.

(** X1: Every read of a Color (a projection, [rgb], [hex], [css], [str],
    [lighter], [darker]), whether it returns or raises, leaves the
    channels, alpha and the workspace as they were; the objects already
    created stay where they are and the cache keeps every entry it had,
    gaining entries under the names of the six projections only. *)
Theorem reads_change_only_the_cache (op : operation) (st : Store) :
  is_read op = true ->
  let st' := run fpow op st in
  channels st' = channels st /\ a (self st') = a (self st) /\
  workspace (self st') = workspace (self st) /\
  heap st `prefix_of` heap st' /\
  spaces (self st) ⊆ spaces (self st') /\
  (forall k, k ∉ all_names -> spaces (self st') !! k = spaces (self st) !! k).
Proof.
  intros Hr st'. destruct (reader_run fpow op st Hr) as (C & A1 & _ & W & P & S & K & _).
  repeat split; done.
Qed.

(** X2: A projection read that returns leaves its object in the cache under the
    projection's name, and reading the projection again returns the same
    object without changing anything. *)
Theorem projection_reads_are_cached (f : space) (st st1 : Store) (l : loc) :
  Color_getattr fpow f st = (st1, Ok l) ->
  spaces (self st1) !! fname f = Some l /\
  Color_getattr fpow f st1 = (st1, Ok l).
Proof. apply Color_getattr_cached. Qed.


(** X5: [color.<space> = v] returns exactly when the write-back formula of the
    projection is defined on [v] and its three values pass the range test;
    the Color then has these channels and an empty cache, and alpha, the
    workspace and the objects created before are untouched. *)
Theorem projection_assignment_succeeds (f : space) (v : list float) (st st' : Store) :
  Color_setattr fpow f v st = (st', Ok tt) <->
  exists x y z,
    write_back fpow (workspace (self st)) f v = Ok (x, y, z) /\
    in_range x = true /\ in_range y = true /\ in_range z = true /\
    st' = mkStore (mkColor x y z (_a (self st)) (a (self st)) (workspace (self st)) ∅)
            (heap st).
Proof.
  split; [apply Color_setattr_ok|].
  intros (x & y & z & Hw & Hx & Hy & Hz & ->).
  pose proof (Color_setattr_post fpow f v st) as P. rewrite Hw in P.
  exact (setter_post_in_range st x y z _ P Hx Hy Hz).
Qed.

(** X6: After [color.linear_rgb = v] has returned, [tuple(color.linear_rgb)] is
    [v]. *)
Theorem linear_rgb_round_trip (v : list float) (st st' : Store) :
  Color_set_linear_rgb v st = (st', Ok tt) ->
  (tuple_of Color_linear_rgb st').2 = Ok v.
Proof.
  intros H. pose proof (Color_set_linear_rgb_post v st) as P. rewrite H in P.
  destruct (setter_post_ok _ _ _ P) as (x & y & z & Hv & _ & _ & _ & ->).
  destruct v as [|x0 [|y0 [|z0 [|? ?]]]]; try discriminate. injection Hv as -> -> ->.
  set (st' := mkStore _ _).
  assert (E : Color_linear_rgb st'
              = (cache_add st' linear_rgb [("r", x); ("g", y); ("b", z)],
                 Ok (List.length (heap st'))))
    by (unfold Color_linear_rgb; by apply colorspace_miss).
  by rewrite (tuple_of_ok _ _ _ _ _ E (cache_add_heap_lookup _ _ _)).
Qed.

(** X7: With a [pow] for which the 8-bit round trip of the workspace is exact,
    assigning three 8-bit values to [rgb8] returns, and [tuple(color.rgb8)]
    then gives the same three values. *)
Theorem rgb8_round_trip (k1 k2 k3 : Z) (st : Store) :
  gamma_exact fpow (workspace (self st)) = true ->
  (0 <= k1 < 256)%Z -> (0 <= k2 < 256)%Z -> (0 <= k3 < 256)%Z ->
  let v := [Py.float_of_Z k1; Py.float_of_Z k2; Py.float_of_Z k3] in
  exists st',
    Color_set_rgb8 fpow v st = (st', Ok tt) /\
    (tuple_of (Color_rgb8 fpow) st').2 = Ok v.
Proof.
  intros Hg K1 K2 K3 v.
  destruct (gamma_exact_channel fpow _ k1 Hg K1) as (c1 & e1 & W1 & I1 & E1 & R1).
  destruct (gamma_exact_channel fpow _ k2 Hg K2) as (c2 & e2 & W2 & I2 & E2 & R2).
  destruct (gamma_exact_channel fpow _ k3 Hg K3) as (c3 & e3 & W3 & I3 & E3 & R3).
  pose proof (Color_setattr_post fpow rgb8 v st) as P. cbn [Color_setattr] in P.
  unfold write_back, v in P. cbn [item lookup list_lookup mbind result_bind] in P.
  rewrite (write_back_rgb_channels fpow _ _ _ _ c1 c2 c3 W1 W2 W3) in P.
  pose proof (setter_post_in_range st c1 c2 c3 _ P I1 I2 I3) as E.
  eexists. split; [exact E|].
  set (st' := mkStore _ _).
  pose proof (Color_rgb8_miss fpow st' e1 e2 e3 k1 k2 k3 eq_refl) as Hm.
  cbv zeta in Hm.
  assert (Hw : spaces (self st') !! fname (workspace_space (workspace (self st'))) = None)
    by (by destruct (workspace (self st))).
  specialize (Hm Hw (derive_rgb_channels fpow _ _ _ _ _ _ _ E1 E2 E3) R1 R2 R3).
  by rewrite (tuple_of_ok _ _ _ _ _ Hm (cache_add_heap_lookup _ _ _)).
Qed.

(** X8: When [hsl] is not cached, [tuple(color.hsl)] is [(h, s, l)] for the
    [(h, l, s)] that [tuple(color.hls)] gives. *)
Theorem hsl_is_hls_reordered (st st1 : Store) (h l s : float) :
  spaces (self st) !! "hsl" = None ->
  tuple_of (Color_hls fpow) st = (st1, Ok [h; l; s]) ->
  (tuple_of (Color_hsl fpow) st).2 = Ok [h; s; l].
Proof.
  intros Hn (l0 & sp & Hg & Hl & Ht)%tuple_of_inv_ok.
  assert (E : Color_hsl fpow st
              = (cache_add st1 hsl [("h", h); ("s", s); ("l", l)],
                 Ok (List.length (heap st1)))).
  { unfold Color_hsl. apply colorspace_miss; [exact Hn|].
    rewrite (bind_ok _ _ st st1 l0) by exact Hg.
    rewrite (bind_ok _ _ st1 st1 sp) by (unfold deref; by rewrite Hl).
    rewrite (bind_ok _ _ st1 st1 [h; l; s]) by (unfold lift; by rewrite Ht).
    reflexivity. }
  by rewrite (tuple_of_ok _ _ _ _ _ E (cache_add_heap_lookup _ _ _)).
Qed.

(** X9: Under the workspace [linear_rgb], [color.yiq = (y, i, q)] returns for
    every three floats: the channels are the values of [colorsys.yiq_to_rgb],
    which are clipped to the range. *)
Theorem yiq_assignment_under_linear_rgb (y i q : float) (st : Store) :
  workspace (self st) = ws_linear_rgb ->
  let u := colorsys.yiq_to_rgb y i q in
  Color_set_yiq fpow [y; i; q] st
  = (mkStore (mkColor u.1.1 u.1.2 u.2 (_a (self st)) (a (self st)) ws_linear_rgb ∅)
       (heap st), Ok tt).
Proof.
  intros Hw u. pose proof (Color_setattr_post fpow yiq [y; i; q] st) as P.
  cbn [Color_setattr] in P. rewrite Hw in P.
  destruct (yiq_to_rgb_in_range y i q) as (I1 & I2 & I3).
  rewrite (setter_post_in_range st _ _ _ _ P I1 I2 I3). by rewrite Hw.
Qed.

(** X10: [Color.from_rgb(r, g, b, a)], when it returns: the arguments are taken
    as sRGB coordinates (the default workspace), so the channels are their
    gamma decoding; alpha is [a] and the cache is empty. *)
Theorem from_rgb_decodes_srgb (r g b a0 : float) (st : Store) :
  Color_from_rgb fpow r g b a0 = Ok st ->
  decode3 fpow [r; g; b] = Ok (channels st) /\
  a (self st) = a0 /\ workspace (self st) = ws_srgb /\ spaces (self st) = ∅.
Proof.
  intros H. destruct (Color_new_ok fpow _ _ _ _ _ H) as (N1 & _ & N3 & _).
  pose proof (Color_new_None_ok fpow _ _ _ _ H) as E.
  destruct (Color_init_kwargs_rgb fpow _ _ _ _ E) as (x & y & z & Hd & Hc & Hs).
  rewrite Hc. done.
Qed.

(** X11: [Color.from_hls(h, l, s, a)], when it returns: the channels are the
    gamma decoding of [colorsys.hls_to_rgb(h, l, s)]. *)
Theorem from_hls_decodes_srgb (h l s a0 : float) (st : Store) :
  Color_from_hls fpow h l s a0 = Ok st ->
  (let u := colorsys.hls_to_rgb h l s in
   decode3 fpow [u.1.1; u.1.2; u.2] = Ok (channels st)) /\
  a (self st) = a0 /\ workspace (self st) = ws_srgb /\ spaces (self st) = ∅.
Proof.
  intros H. destruct (Color_from_hls_ok fpow _ _ _ _ _ H) as (Hd & N1 & N2 & N3 & _).
  done.
Qed.

(** X12: [color.lighter(amt)], when it returns: the new Color is
    [Color.from_hls(h, min(l + amt, 1.0), s, color.a)] for the coordinates
    of [color.hls]; its workspace is the default [srgb] whatever the
    workspace of [color], its cache is empty and its channels pass the
    range test.  [color] keeps its channels, alpha and workspace. *)
Theorem lighter_builds_a_new_color (amt : float) (st st1 new : Store) :
  Color_lighter fpow amt st = (st1, Ok new) ->
  (exists h l s,
     coord (Color_hls fpow) "h" st1 = (st1, Ok h) /\
     coord (Color_hls fpow) "l" st1 = (st1, Ok l) /\
     coord (Color_hls fpow) "s" st1 = (st1, Ok s) /\
     Color_from_hls fpow h (PyFormat.min2 (l + amt) 1.0) s (a (self st)) = Ok new) /\
  a (self new) = a (self st) /\ workspace (self new) = ws_srgb /\
  spaces (self new) = ∅ /\ channels_in_range new /\
  channels st1 = channels st /\ a (self st1) = a (self st) /\
  workspace (self st1) = workspace (self st).
Proof.
  intros H.
  destruct (shade_ok fpow (fun l0 => PyFormat.min2 (l0 + amt) 1.0) st st1 new H)
    as (h & l & s & Hh & Hl & Hs & Hn & C & A1 & W).
  destruct (Color_from_hls_ok fpow _ _ _ _ _ Hn) as (_ & N2 & N4 & N1 & N5).
  split; [by exists h, l, s|].
  exact (conj N2 (conj N4 (conj N1 (conj N5 (conj C (conj A1 W)))))).
Qed.

(** X13: [color.darker(amt)], when it returns: the same with
    [max(l - amt, 0.0)]. *)
Theorem darker_builds_a_new_color (amt : float) (st st1 new : Store) :
  Color_darker fpow amt st = (st1, Ok new) ->
  (exists h l s,
     coord (Color_hls fpow) "h" st1 = (st1, Ok h) /\
     coord (Color_hls fpow) "l" st1 = (st1, Ok l) /\
     coord (Color_hls fpow) "s" st1 = (st1, Ok s) /\
     Color_from_hls fpow h (PyFormat.max2 (l - amt) 0.0) s (a (self st)) = Ok new) /\
  a (self new) = a (self st) /\ workspace (self new) = ws_srgb /\
  spaces (self new) = ∅ /\ channels_in_range new /\
  channels st1 = channels st /\ a (self st1) = a (self st) /\
  workspace (self st1) = workspace (self st).
Proof.
  intros H.
  destruct (shade_ok fpow (fun l0 => PyFormat.max2 (l0 - amt) 0.0) st st1 new H)
    as (h & l & s & Hh & Hl & Hs & Hn & C & A1 & W).
  destruct (Color_from_hls_ok fpow _ _ _ _ _ Hn) as (_ & N2 & N4 & N1 & N5).
  split; [by exists h, l, s|].
  exact (conj N2 (conj N4 (conj N1 (conj N5 (conj C (conj A1 W)))))).
Qed.

(** X14: [sp.k = v] for a name [k] that is no axis, none of the four
    attributes of [__init__] and no special name binds [k] in the object
    alone: nothing is written back, so the parent's channels and cache and
    the coordinates of the object are as before, and [sp.k] then reads
    [v], also for the name of a method such as [keys], which the instance
    dictionary shadows. *)
Theorem non_axis_attribute_assignment (st : Store) (l : loc) (sp : ColorSpace)
    (k : string) (v : float) :
  heap st !! l = Some sp ->
  coords sp !! k = None ->
  k ∉ ["parent"; "name"; "axes"; "coords"]%string ->
  special_name k = false ->
  let sp' := with_extra sp (<[k := v]> (extra sp)) in
  ColorSpace_setattr fpow l k v st = (mkStore (self st) (<[l := sp']> (heap st)), Ok tt) /\
  coords sp' = coords sp /\ ColorSpace_tuple sp' = ColorSpace_tuple sp /\
  attribute sp' k = VNum v.
Proof.
  intros Hl Hk Hn _ sp'. split; [|split; [done|split; [done|]]].
  - unfold ColorSpace_setattr. unfold mbind at 1, M_bind at 1, deref at 1.
    by rewrite Hl, Hk.
  - unfold attribute, ColorSpace_dict.
    rewrite !not_elem_of_cons in Hn. destruct Hn as (N1 & N2 & N3 & N4 & _).
    apply String.eqb_neq in N1, N2, N3, N4. rewrite N1, N2, N3, N4.
    cbn [extra sp' with_extra]. by rewrite lookup_insert_eq.
Qed.

(** X15: A ColorSpace built from pairs with distinct axis names iterates over
    the values of the pairs, in their order. *)
Theorem ColorSpace_tuple_init (f : space) (cs : list (string * float)) :
  NoDup (map fst cs) ->
  ColorSpace_tuple (ColorSpace_init f cs) = Ok (map snd cs).
Proof. apply coords_in_order_foldl. Qed.

(** X16: When [srgb] is not cached, [color.css] prints the three sRGB
    coordinates of the channels scaled to 255 and rounded, whatever the
    workspace, and alpha with two decimals when it is below 1. *)
Theorem css_is_computed_in_srgb (st : Store) :
  spaces (self st) !! "srgb" = None ->
  (Color_css fpow st).2
  = (t ← derive_rgb fpow ws_srgb (channels st);
     x ← Py.round (t.1.1 * 255);
     y ← Py.round (t.1.2 * 255);
     z ← Py.round (t.2 * 255);
     Ok (if a (self st) <? 1
         then ("rgba(" +:+ PyFormat.format_d x +:+ ", " +:+ PyFormat.format_d y +:+ ", "
               +:+ PyFormat.format_d z +:+ ", " +:+ PyFormat.format_2f (a (self st))
               +:+ ")")%string
         else ("rgb(" +:+ PyFormat.format_d x +:+ ", " +:+ PyFormat.format_d y +:+ ", "
               +:+ PyFormat.format_d z +:+ ")")%string)).
Proof.
  intros H. pose proof (Color_srgb_miss fpow st H) as Hm. unfold Color_css.
  destruct (derive_rgb fpow ws_srgb (channels st)) as [[[x y] z]|e];
    cbn [mbind result_bind fst snd] in *.
  - rewrite (bind_ok _ _ _ _ _ Hm).
    erewrite bind_ok; cycle 1.
    { unfold deref. rewrite cache_add_heap_lookup. reflexivity. }
    assert (Hc : css_channels (coords (ColorSpace_init srgb [("r", x); ("g", y); ("b", z)]))
                   (axes (ColorSpace_init srgb [("r", x); ("g", y); ("b", z)]))
                 = (k1 ← Py.round (x * 255); k2 ← Py.round (y * 255);
                    k3 ← Py.round (z * 255); Ok [k1; k2; k3])).
    { cbn [axes ColorSpace_init map fst css_channels].
      replace (dict_of [("r", x); ("g", y); ("b", z)] !! "r"%string) with (Some x) by reflexivity.
      replace (dict_of [("r", x); ("g", y); ("b", z)] !! "g"%string) with (Some y) by reflexivity.
      replace (dict_of [("r", x); ("g", y); ("b", z)] !! "b"%string) with (Some z) by reflexivity.
      destruct (Py.round (x * 255)); [|reflexivity].
      destruct (Py.round (y * 255)); [|reflexivity].
      destruct (Py.round (z * 255)); reflexivity. }
    unfold mbind at 1, M_bind at 1, lift at 1. rewrite Hc.
    destruct (Py.round (x * 255)) as [k1|]; [|reflexivity].
    destruct (Py.round (y * 255)) as [k2|]; [|reflexivity].
    destruct (Py.round (z * 255)) as [k3|]; [|reflexivity].
    cbn [mbind result_bind]. unfold mbind, M_bind, get_self.
    destruct st as [[r g b a_ al ws sp] hp]. cbn. by destruct (al <? 1).
  - by rewrite (bind_raise _ _ _ _ _ Hm).
Qed.

End Extras.

(** ** The cache against the channels *)

Lemma fname_inj (f g : space) : fname f = fname g -> f = g.
Proof. by destruct f, g. Qed.

Lemma shaped_init (f : space) (cs : list (string * float)) :
  shaped (ColorSpace_init f cs) f cs.
Proof. repeat split. Qed.


Lemma shaped_tuple (sp : ColorSpace) (f : space) cs :
  shaped sp f cs -> NoDup (map fst cs) -> ColorSpace_tuple sp = Ok (map snd cs).
Proof.
  intros (_ & Ha & Hc & _) Hnd. unfold ColorSpace_tuple. rewrite Ha, Hc.
  by apply coords_in_order_foldl.
Qed.

(** [sp.r], [sp.g] and [sp.b] on an RGB-like space. *)
Lemma shaped_rgb_attributes (sp : ColorSpace) (f : space) (t : float * float * float) :
  shaped sp f (rgb_coords t) ->
  attribute sp "r" = VNum t.1.1 /\ attribute sp "g" = VNum t.1.2 /\
  attribute sp "b" = VNum t.2.
Proof.
  intros (_ & Ha & Hc & He). unfold attribute, ColorSpace_dict, ColorSpace_getattr.
  rewrite Hc. rewrite Ha in He. cbn [rgb_coords map fst] in He.
  rewrite (He "r"), (He "g"), (He "b");
    [|apply list_elem_of_further, list_elem_of_further, list_elem_of_here
     |apply list_elem_of_further, list_elem_of_here
     |apply list_elem_of_here].
  repeat split.
Qed.

Lemma consistent_empty (fpow : float -> float -> result float) (st : Store) :
  spaces (self st) = ∅ -> consistent fpow st.
Proof. intros H f l. rewrite H. by rewrite lookup_empty. Qed.

Lemma consistent_cache_add (fpow : float -> float -> result float) (st : Store)
    (f : space) (cs : list (string * float)) :
  consistent fpow st ->
  derive fpow (workspace (self st)) f (channels st) = Ok cs ->
  consistent fpow (cache_add st f cs).
Proof.
  intros Hc Hd g l Hl. destruct st as [[r g0 b a_ al ws sp] hp]. cbn in *.
  destruct (decide (fname f = fname g)) as [E|Hne].
  - apply fname_inj in E as <-. rewrite lookup_insert_eq in Hl. injection Hl as <-.
    exists (ColorSpace_init f cs), cs. split; [by apply list_lookup_middle|].
    split; [exact Hd|apply shaped_init].
  - rewrite lookup_insert_ne in Hl by done.
    destruct (Hc g l Hl) as (sp0 & cs0 & H1 & H2 & H3). cbn in *.
    exists sp0, cs0. split; [by apply lookup_app_l_Some|done].
Qed.


Lemma coord_store (e : M loc) (k : string) (st : Store) : (coord e k st).1 = (e st).1.
Proof.
  unfold coord. unfold_M. destruct (e st) as [st1 [l|err]]; [|reflexivity].
  by destruct (heap st1 !! l).
Qed.

Lemma preserves_coord (P : Store -> Prop) (e : M loc) (k : string) :
  preserves P e -> preserves P (coord e k).
Proof. intros H st HP. rewrite coord_store. by apply H. Qed.


Section Consistency.

Variable fpow : float -> float -> result float.

Local Open Scope float_scope.

Lemma colorspace_consistent (f : space) (body : M (list (string * float))) :
  body_ok fpow f body -> getter_ok fpow f (colorspace f body).
Proof.
  intros Hb st Hc. destruct (spaces (self st) !! fname f) as [l|] eqn:Hl.
  - rewrite (colorspace_hit f body st l Hl). cbn [fst snd]. split; [exact Hc|].
    destruct (Hc f l Hl) as (sp & cs & H1 & H2 & H3). rewrite H2. by exists l, sp.
  - destruct (Hb st Hc) as (st1 & Hc1 & Hch & Hw & Hbody).
    destruct (derive fpow (workspace (self st)) f (channels st)) as [cs|e] eqn:Hd.
    + rewrite (colorspace_miss f body st st1 cs Hl Hbody). cbn [fst snd].
      split; [apply consistent_cache_add; [exact Hc1|by rewrite Hw, Hch]|].
      exists (List.length (heap st1)), (ColorSpace_init f cs).
      split; [done|]. split; [apply cache_add_heap_lookup|].
      split; [apply cache_add_spaces_lookup|apply shaped_init].
    + rewrite (colorspace_miss_raise f body st st1 e Hl Hbody). by split.
Qed.

Lemma srgb_ok : getter_ok fpow srgb (Color_srgb fpow).
Proof.
  apply colorspace_consistent. intros st Hc. exists st. repeat split; try done.
  unfold derive, derive_rgb, channels. cbn [fst snd]. unfold_M. cbn [getattr].
  destruct (srgb_tx fpow (_r (self st))) as [x|e]; [|reflexivity].
  destruct (srgb_tx fpow (_g (self st))) as [y|e]; [|reflexivity].
  destruct (srgb_tx fpow (_b (self st))) as [z|e]; reflexivity.
Qed.

Lemma linear_rgb_ok : getter_ok fpow linear_rgb Color_linear_rgb.
Proof.
  apply colorspace_consistent. intros st Hc. exists st. repeat split; done.
Qed.

Lemma Color_rgb_eq (st : Store) :
  Color_rgb fpow st = Color_getattr fpow (workspace_space (workspace (self st))) st.
Proof.
  unfold Color_rgb. unfold mbind at 1, M_bind at 1, get_self at 1.
  by destruct (workspace (self st)).
Qed.

(** [self.rgb] on a consistent cache. *)
Lemma rgb_ok (st : Store) :
  consistent fpow st ->
  consistent fpow (Color_rgb fpow st).1 /\
  match derive_rgb fpow (workspace (self st)) (channels st) with
  | Ok t =>
      exists l sp, (Color_rgb fpow st).2 = Ok l /\
                   heap (Color_rgb fpow st).1 !! l = Some sp /\
                   spaces (self (Color_rgb fpow st).1)
                     !! fname (workspace_space (workspace (self st))) = Some l /\
                   shaped sp (workspace_space (workspace (self st))) (rgb_coords t)
  | Raise e => (Color_rgb fpow st).2 = Raise e
  end.
Proof.
  intros Hc. rewrite Color_rgb_eq.
  destruct (workspace (self st)) eqn:Hw; cbn [workspace_space derive_rgb Color_getattr].
  - destruct (srgb_ok st Hc) as [H1 H2]. split; [exact H1|].
    unfold derive in H2. unfold derive_rgb in H2.
    destruct (srgb_tx fpow (channels st).1.1) as [x|e]; [|exact H2].
    destruct (srgb_tx fpow (channels st).1.2) as [y|e]; [|exact H2].
    destruct (srgb_tx fpow (channels st).2) as [z|e]; exact H2.
  - destruct (linear_rgb_ok st Hc) as [H1 H2]. split; [exact H1|].
    destruct (channels st) as [[x y] z]. exact H2.
Qed.

(** The reads [self.rgb.r], [self.rgb.g] and [self.rgb.b] on a consistent
    cache: the first may add the workspace projection to the cache, the
    others find it there. *)
Lemma rgb_coords_ok (st : Store) (t : float * float * float) :
  consistent fpow st ->
  derive_rgb fpow (workspace (self st)) (channels st) = Ok t ->
  exists st1,
    consistent fpow st1 /\ channels st1 = channels st /\
    workspace (self st1) = workspace (self st) /\
    coord (Color_rgb fpow) "r" st = (st1, Ok t.1.1) /\
    coord (Color_rgb fpow) "g" st1 = (st1, Ok t.1.2) /\
    coord (Color_rgb fpow) "b" st1 = (st1, Ok t.2).
Proof.
  intros Hc Hd. destruct (rgb_ok st Hc) as [H1 H2]. rewrite Hd in H2.
  destruct H2 as (l & sp & Hr & Hl & Hs & Hsh).
  destruct (Color_rgb fpow st) as [st1 r] eqn:E. cbn [fst snd] in *. subst r.
  pose proof (reader_Color_rgb fpow st) as R. rewrite E in R.
  destruct R as (C & _ & _ & W & _). cbn [fst] in C, W.
  destruct (shaped_rgb_attributes sp _ t Hsh) as (A1 & A2 & A3).
  assert (Hh : Color_rgb fpow st1 = (st1, Ok l)).
  { apply Color_rgb_hit. by rewrite W. }
  exists st1. repeat split; try done.
  - by apply (coord_ok _ _ _ _ l sp).
  - by apply (coord_ok _ _ _ _ l sp).
  - by apply (coord_ok _ _ _ _ l sp).
Qed.

Lemma rgb_coords_raise (st : Store) (e : error) :
  consistent fpow st ->
  derive_rgb fpow (workspace (self st)) (channels st) = Raise e ->
  exists st1,
    consistent fpow st1 /\ channels st1 = channels st /\
    workspace (self st1) = workspace (self st) /\
    coord (Color_rgb fpow) "r" st = (st1, Raise e).
Proof.
  intros Hc Hd. destruct (rgb_ok st Hc) as [H1 H2]. rewrite Hd in H2.
  destruct (Color_rgb fpow st) as [st1 r] eqn:E. cbn [fst snd] in *. subst r.
  pose proof (reader_Color_rgb fpow st) as R. rewrite E in R.
  destruct R as (C & _ & _ & W & _). cbn [fst] in C, W.
  exists st1. repeat split; try done. by apply coord_raise.
Qed.

Lemma derive_raise (ws : workspace_name) (f : space) (c : float * float * float)
    (e : error) :
  derive_rgb fpow ws c = Raise e -> f <> srgb -> f <> linear_rgb ->
  derive fpow ws f c = Raise e.
Proof. intros H N1 N2. unfold derive. destruct f; try done; by rewrite H. Qed.

Lemma derive_rgb8 (ws : workspace_name) (c : float * float * float) (x y z : float) :
  derive_rgb fpow ws c = Ok (x, y, z) ->
  derive fpow ws rgb8 c
  = (k1 ← Py.round (x * 255); k2 ← Py.round (y * 255); k3 ← Py.round (z * 255);
     Ok [("r", Py.float_of_Z k1); ("g", Py.float_of_Z k2); ("b", Py.float_of_Z k3)]).
Proof. intros H. unfold derive. by rewrite H. Qed.

Lemma derive_hls (ws : workspace_name) (c : float * float * float) (x y z : float) :
  derive_rgb fpow ws c = Ok (x, y, z) ->
  derive fpow ws hls c
  = (u ← colorsys.rgb_to_hls x y z; Ok [("h", u.1.1); ("l", u.1.2); ("s", u.2)]).
Proof. intros H. unfold derive. by rewrite H. Qed.

Lemma derive_hsl (ws : workspace_name) (c : float * float * float) (x y z : float) :
  derive_rgb fpow ws c = Ok (x, y, z) ->
  derive fpow ws hsl c
  = (u ← colorsys.rgb_to_hls x y z; Ok [("h", u.1.1); ("s", u.2); ("l", u.1.2)]).
Proof. intros H. unfold derive. by rewrite H. Qed.

Lemma derive_yiq (ws : workspace_name) (c : float * float * float) (x y z : float) :
  derive_rgb fpow ws c = Ok (x, y, z) ->
  derive fpow ws yiq c
  = (let u := colorsys.rgb_to_yiq x y z in Ok [("y", u.1.1); ("i", u.1.2); ("q", u.2)]).
Proof. intros H. unfold derive. by rewrite H. Qed.

Lemma rgb8_ok : getter_ok fpow rgb8 (Color_rgb8 fpow).
Proof.
  apply colorspace_consistent. intros st Hc.
  destruct (derive_rgb fpow (workspace (self st)) (channels st)) as [[[x y] z]|e] eqn:Hd.
  - destruct (rgb_coords_ok st _ Hc Hd) as (st1 & Hc1 & C & W & R1 & R2 & R3).
    exists st1. repeat split; try done. cbn [fst snd] in R1, R2, R3.
    rewrite (derive_rgb8 _ _ _ _ _ Hd).
    rewrite (bind_ok _ _ _ _ _ R1). unfold mbind at 1, M_bind at 1, lift at 1.
    destruct (Py.round (x * 255)) as [k1|]; [|reflexivity].
    rewrite (bind_ok _ _ _ _ _ R2). unfold mbind at 1, M_bind at 1, lift at 1.
    destruct (Py.round (y * 255)) as [k2|]; [|reflexivity].
    rewrite (bind_ok _ _ _ _ _ R3). unfold mbind at 1, M_bind at 1, lift at 1.
    destruct (Py.round (z * 255)) as [k3|]; reflexivity.
  - destruct (rgb_coords_raise st _ Hc Hd) as (st1 & Hc1 & C & W & R1).
    exists st1. repeat split; try done.
    by rewrite (derive_raise _ rgb8 _ _ Hd), (bind_raise _ _ _ _ _ R1).
Qed.

Lemma hls_ok : getter_ok fpow hls (Color_hls fpow).
Proof.
  apply colorspace_consistent. intros st Hc.
  destruct (derive_rgb fpow (workspace (self st)) (channels st)) as [[[x y] z]|e] eqn:Hd.
  - destruct (rgb_coords_ok st _ Hc Hd) as (st1 & Hc1 & C & W & R1 & R2 & R3).
    exists st1. repeat split; try done. cbn [fst snd] in R1, R2, R3.
    rewrite (derive_hls _ _ _ _ _ Hd).
    rewrite (bind_ok _ _ _ _ _ R1), (bind_ok _ _ _ _ _ R2), (bind_ok _ _ _ _ _ R3).
    unfold mbind at 1, M_bind at 1, lift at 1.
    destruct (colorsys.rgb_to_hls x y z) as [[[h l] s]|]; reflexivity.
  - destruct (rgb_coords_raise st _ Hc Hd) as (st1 & Hc1 & C & W & R1).
    exists st1. repeat split; try done.
    by rewrite (derive_raise _ hls _ _ Hd), (bind_raise _ _ _ _ _ R1).
Qed.

Lemma yiq_ok : getter_ok fpow yiq (Color_yiq fpow).
Proof.
  apply colorspace_consistent. intros st Hc.
  destruct (derive_rgb fpow (workspace (self st)) (channels st)) as [[[x y] z]|e] eqn:Hd.
  - destruct (rgb_coords_ok st _ Hc Hd) as (st1 & Hc1 & C & W & R1 & R2 & R3).
    exists st1. repeat split; try done. cbn [fst snd] in R1, R2, R3.
    rewrite (derive_yiq _ _ _ _ _ Hd).
    by rewrite (bind_ok _ _ _ _ _ R1), (bind_ok _ _ _ _ _ R2), (bind_ok _ _ _ _ _ R3).
  - destruct (rgb_coords_raise st _ Hc Hd) as (st1 & Hc1 & C & W & R1).
    exists st1. repeat split; try done.
    by rewrite (derive_raise _ yiq _ _ Hd), (bind_raise _ _ _ _ _ R1).
Qed.

Lemma hsl_ok : getter_ok fpow hsl (Color_hsl fpow).
Proof.
  apply colorspace_consistent. intros st Hc.
  destruct (hls_ok st Hc) as [Hc1 H].
  pose proof (reader_Color_hls fpow st) as R. destruct R as (C & _ & _ & W & _).
  destruct (Color_hls fpow st) as [st1 r] eqn:E. cbn [fst snd] in *.
  exists st1. repeat split; try done.
  destruct (derive_rgb fpow (workspace (self st)) (channels st)) as [[[x y] z]|e] eqn:Hd.
  - rewrite (derive_hls _ _ _ _ _ Hd) in H. rewrite (derive_hsl _ _ _ _ _ Hd).
    destruct (colorsys.rgb_to_hls x y z) as [[[h l] s]|e]; cbn [mbind result_bind fst snd] in *.
    + destruct H as (l0 & sp & -> & Hl & _ & Hsh).
      rewrite (bind_ok _ _ _ _ _ E).
      rewrite (bind_ok _ _ st1 st1 sp) by (unfold deref; by rewrite Hl).
      assert (Ht : ColorSpace_tuple sp = Ok [h; l; s]).
      { apply (shaped_tuple sp hls [("h", h); ("l", l); ("s", s)] Hsh).
        repeat (apply NoDup_cons; split); try apply NoDup_nil_2;
          rewrite ?not_elem_of_cons; repeat split; try discriminate; apply not_elem_of_nil. }
      rewrite (bind_ok _ _ st1 st1 [h; l; s]) by (unfold lift; by rewrite Ht).
      reflexivity.
    + subst r. by rewrite (bind_raise _ _ _ _ _ E).
  - rewrite (derive_raise _ hls _ _ Hd) in H by done.
    rewrite (derive_raise _ hsl _ _ Hd) by done.
    subst r. by rewrite (bind_raise _ _ _ _ _ E).
Qed.

Lemma Color_getattr_ok (f : space) : getter_ok fpow f (Color_getattr fpow f).
Proof.
  destruct f; cbn [Color_getattr].
  - apply srgb_ok.
  - apply linear_rgb_ok.
  - apply rgb8_ok.
  - apply hls_ok.
  - apply hsl_ok.
  - apply yiq_ok.
Qed.

Lemma Color_getattr_consistent (f : space) :
  preserves (consistent fpow) (Color_getattr fpow f).
Proof. intros st Hc. by destruct (Color_getattr_ok f st Hc). Qed.

(** *** Every operation but a direct channel assignment keeps the cache
    consistent *)

Lemma Color_hex_consistent : preserves (consistent fpow) (Color_hex fpow).
Proof.
  unfold Color_hex.
  repeat first [ apply preserves_coord, (Color_getattr_consistent rgb8)
               | apply preserves_same; reflexivity
               | apply preserves_bind; [|intros ?] ].
Qed.

Lemma Color_css_consistent : preserves (consistent fpow) (Color_css fpow).
Proof.
  unfold Color_css.
  apply preserves_bind; [apply (Color_getattr_consistent srgb)|intros l].
  apply preserves_bind; [apply preserves_same; reflexivity|intros sp].
  apply preserves_bind; [apply preserves_same; reflexivity|intros ns].
  apply preserves_bind; [apply preserves_same; reflexivity|intros c].
  destruct (a c <? 1); destruct ns as [|x [|y [|z [|? ?]]]];
    apply preserves_same; reflexivity.
Qed.








Lemma Color_new_consistent (descr : option string) (a0 : float) (ws : workspace_name)
    (kwargs : list (keyword * list float)) (st : Store) :
  Color_new fpow descr a0 ws kwargs = Ok st -> consistent fpow st.
Proof.
  intros H. apply (Color_new_preserves fpow (consistent fpow) descr a0 ws kwargs st);
    try exact H.
  - apply Color_getattr_consistent.
  - intros s0 H0. by destruct (rgb_ok s0 H0).
  - apply Color_hex_consistent.
  - apply Color_css_consistent.
  - intros f v s0 _. apply consistent_empty, Color_setattr_cleared.
  - intros v s0 _. apply consistent_empty, Color_set_rgb_cleared.
  - by apply consistent_empty.
Qed.

End Consistency.

(** X4: A constructor call that returns gives a Color with the given alpha
    and workspace, [_a] equal to 0 whatever the alpha, channels that pass
    the range test, and a cache whose entries are existing objects holding
    what their getters derive from the channels.  The cache is empty
    unless no coordinates were assigned (the channels are then still
    (0, 0, 0)) and a keyword [hex] or [css] made the constructor read that
    property, which caches the projections it goes through. *)
Theorem constructed_color_state (fpow : float -> float -> result float)
    (descr : option string) (a0 : float) (ws : workspace_name)
    (kwargs : list (keyword * list float)) (st : Store) :
  Color_new fpow descr a0 ws kwargs = Ok st ->
  a (self st) = a0 /\ _a (self st) = 0%float /\ workspace (self st) = ws /\
  channels_in_range st /\ cache_wf st /\ consistent fpow st /\
  (spaces (self st) = ∅ \/ channels st = (0, 0, 0)%float) /\
  (Forall (fun p => p.1 <> kw_hex /\ p.1 <> kw_css) kwargs -> spaces (self st) = ∅).
Proof.
  intros H. destruct (Color_new_ok fpow descr a0 ws kwargs st H) as (H1 & H2 & H3 & H4 & H5).
  destruct (Color_new_cache fpow descr a0 ws kwargs st H) as (H7 & H8).
  pose proof (Color_new_consistent fpow descr a0 ws kwargs st H) as H6.
  exact (conj H1 (conj H2 (conj H3 (conj H4 (conj H5 (conj H6 (conj H7 H8))))))).
Qed.


(** A getter that misses the cache returns an object created after every
    object of the store it started from. *)
Lemma colorspace_miss_fresh (S : list string) (f : space) body (st st' : Store) (l : loc) :
  reader S body ->
  spaces (self st) !! fname f = None ->
  colorspace f body st = (st', Ok l) ->
  (List.length (heap st) <= l)%nat.
Proof.
  intros Hr Hn. unfold colorspace. unfold_M. rewrite Hn.
  pose proof (Hr st) as R. destruct (body st) as [s1 [cs|e]]; [|discriminate].
  intros [= <- <-]. destruct R as (_ & _ & _ & _ & P & _). cbn in P.
  by apply prefix_length.
Qed.

Lemma Color_getattr_miss_fresh (fpow : float -> float -> result float) (f : space)
    (st st' : Store) (l : loc) :
  spaces (self st) !! fname f = None ->
  Color_getattr fpow f st = (st', Ok l) ->
  (List.length (heap st) <= l)%nat.
Proof.
  destruct f; cbn [Color_getattr];
    unfold Color_srgb, Color_linear_rgb, Color_rgb8, Color_hls, Color_hsl, Color_yiq;
    intros Hn H;
    [ eapply (colorspace_miss_fresh []) | eapply (colorspace_miss_fresh [])
    | eapply colorspace_miss_fresh | eapply colorspace_miss_fresh
    | eapply colorspace_miss_fresh | eapply colorspace_miss_fresh ];
    try exact H; try exact Hn.
  all: repeat first [ apply reader_coord, reader_Color_rgb | apply reader_Color_hls
                    | apply reader_ret | apply reader_lift | apply reader_deref
                    | apply reader_get_self | apply reader_bind; [|intros ?] ].
Qed.

(** X22: After [sp.k = v] has returned for an axis [k], the object [sp] is no
    longer the one the Color hands out: the next read of any projection
    returns an object created afterwards, while [sp] stays as assigned,
    holding [v] for [k]. *)
Theorem mutation_detaches_the_object (fpow : float -> float -> result float)
    (st st' st'' : Store) (l l' : loc) (sp : ColorSpace) (k : string) (x v : float)
    (f : space) :
  heap st !! l = Some sp ->
  coords sp !! k = Some x ->
  ColorSpace_setattr fpow l k v st = (st', Ok tt) ->
  Color_getattr fpow f st' = (st'', Ok l') ->
  l' <> l /\
  spaces (self st'') !! fname f = Some l' /\
  heap st'' !! l = Some (with_coords sp (<[k := v]> (coords sp))).
Proof.
  intros Hl Hk Hset Hget.
  set (sp' := with_coords sp (<[k := v]> (coords sp))).
  set (st1 := mkStore (self st) (<[l := sp']> (heap st))).
  assert (Hl1 : heap st1 !! l = Some sp')
    by (apply list_lookup_insert_eq; by eapply lookup_lt_Some).
  unfold ColorSpace_setattr in Hset. unfold mbind at 1, M_bind at 1, deref at 1 in Hset.
  rewrite Hl, Hk in Hset. unfold mbind at 1, M_bind at 1, update at 1 in Hset.
  fold sp' st1 in Hset. unfold mbind at 1, M_bind at 1, deref at 1 in Hset.
  rewrite Hl1 in Hset. unfold mbind at 1, M_bind at 1, lift at 1 in Hset.
  destruct (ColorSpace_tuple sp') as [t|e]; [|discriminate].
  destruct (Color_setattr_ok fpow _ _ _ _ Hset) as (c1 & c2 & c3 & _ & _ & _ & _ & E).
  assert (Hs : spaces (self st') = ∅) by (by rewrite E).
  assert (Hh : heap st' = heap st1) by (by rewrite E).
  assert (Hn : spaces (self st') !! fname f = None) by (by rewrite Hs, lookup_empty).
  pose proof (Color_getattr_miss_fresh fpow f st' st'' l' Hn Hget) as Hfresh.
  pose proof (reader_Color_getattr fpow f st') as R. rewrite Hget in R.
  destruct R as (_ & _ & _ & _ & P & _). cbn [fst] in P.
  destruct (Color_getattr_cached fpow f st' st'' l' Hget) as [Hc _].
  rewrite Hh in Hfresh, P. split; [|split; [exact Hc|]].
  - apply lookup_lt_Some in Hl1. lia.
  - by apply (prefix_lookup_Some _ _ _ _ Hl1).
Qed.

(** ** The properties above on examples, with the stand-in [pow] *)

(** X1, witness: [Color("#0a0bcc").hex]. *)
Lemma reads_change_only_the_cache_witness :
  is_read op_hex = true /\
  let st' := run Libm.pow op_hex example_0a0bcc in
  channels st' = channels example_0a0bcc /\ a (self st') = a (self example_0a0bcc) /\
  workspace (self st') = workspace (self example_0a0bcc) /\
  heap example_0a0bcc `prefix_of` heap st' /\
  spaces (self example_0a0bcc) ⊆ spaces (self st') /\
  (forall k, k ∉ all_names -> spaces (self st') !! k = spaces (self example_0a0bcc) !! k).
Proof.
  split; [reflexivity|].
  apply (reads_change_only_the_cache Libm.pow op_hex example_0a0bcc). reflexivity.
Defined.

(** X2, witness: [Color("#0a0bcc").hls], read twice. *)
Lemma projection_reads_are_cached_witness :
  let st1 := (Color_getattr Libm.pow hls example_0a0bcc).1 in
  Color_getattr Libm.pow hls example_0a0bcc = (st1, Ok 1%nat) /\
  spaces (self st1) !! fname hls = Some 1%nat /\
  Color_getattr Libm.pow hls st1 = (st1, Ok 1%nat).
Proof.
  intros st1.
  assert (H : Color_getattr Libm.pow hls example_0a0bcc = (st1, Ok 1%nat))
    by (vm_compute; reflexivity).
  split; [exact H|].
  exact (projection_reads_are_cached Libm.pow hls example_0a0bcc st1 1%nat H).
Defined.


(** X4, witness: [Color(hex=0, luminance=0)], whose cache holds the [srgb]
    and [rgb8] projections of black. *)
Lemma constructed_color_state_witness :
  let kwargs := [(kw_hex, []); (kw_other, [])] in
  let st := (Color_init Libm.pow None 0.5 ws_srgb kwargs (blank ws_srgb)).1 in
  Color_new Libm.pow None 0.5 ws_srgb kwargs = Ok st /\
  (a (self st) = 0.5%float /\ _a (self st) = 0%float /\ workspace (self st) = ws_srgb /\
   channels_in_range st /\ cache_wf st /\ consistent Libm.pow st /\
   (spaces (self st) = ∅ \/ channels st = (0, 0, 0)%float) /\
   (Forall (fun p => p.1 <> kw_hex /\ p.1 <> kw_css) kwargs -> spaces (self st) = ∅)) /\
  spaces (self st) !! "srgb" = Some 0%nat /\ spaces (self st) !! "rgb8" = Some 1%nat.
Proof.
  intros kwargs st.
  assert (H : Color_new Libm.pow None 0.5 ws_srgb kwargs = Ok st)
    by (vm_compute; reflexivity).
  split; [exact H|]. split; [|split; vm_compute; reflexivity].
  exact (constructed_color_state Libm.pow None 0.5 ws_srgb kwargs st H).
Defined.

(** X6, witness: [c = Color(); c.linear_rgb = (0.2, 0.4, 0.6)]. *)
Lemma linear_rgb_round_trip_witness :
  let st' := mkStore (mkColor 0.2 0.4 0.6 0 1 ws_srgb ∅) [] in
  Color_set_linear_rgb [0.2; 0.4; 0.6]%float (blank ws_srgb) = (st', Ok tt) /\
  (tuple_of Color_linear_rgb st').2 = Ok [0.2; 0.4; 0.6]%float.
Proof.
  intros st'.
  assert (H : Color_set_linear_rgb [0.2; 0.4; 0.6]%float (blank ws_srgb) = (st', Ok tt))
    by reflexivity.
  split; [exact H|].
  exact (linear_rgb_round_trip [0.2; 0.4; 0.6]%float (blank ws_srgb) st' H).
Defined.

(** X7, witness: [c = Color(); c.rgb8 = (10, 11, 204)]. *)
Lemma rgb8_round_trip_witness :
  gamma_exact Libm.pow (workspace (self (blank ws_srgb))) = true /\
  0 <= 10 < 256 /\ 0 <= 11 < 256 /\ 0 <= 204 < 256 /\
  let v := [Py.float_of_Z 10; Py.float_of_Z 11; Py.float_of_Z 204] in
  exists st',
    Color_set_rgb8 Libm.pow v (blank ws_srgb) = (st', Ok tt) /\
    (tuple_of (Color_rgb8 Libm.pow) st').2 = Ok v.
Proof.
  assert (Hg : gamma_exact Libm.pow (workspace (self (blank ws_srgb))) = true)
    by (vm_compute; reflexivity).
  assert (K1 : 0 <= 10 < 256) by lia.
  assert (K2 : 0 <= 11 < 256) by lia.
  assert (K3 : 0 <= 204 < 256) by lia.
  split; [exact Hg|]. split; [exact K1|]. split; [exact K2|]. split; [exact K3|].
  exact (rgb8_round_trip Libm.pow 10 11 204 (blank ws_srgb) Hg K1 K2 K3).
Defined.

(** X8, witness: [Color("#0a0bcc").hsl]. *)
Lemma hsl_is_hls_reordered_witness :
  let st1 := (Color_hls Libm.pow example_0a0bcc).1 in
  spaces (self example_0a0bcc) !! "hsl" = None /\
  tuple_of (Color_hls Libm.pow) example_0a0bcc
  = (st1, Ok [0.66580756013745701; 0.41960784313725491; 0.90654205607476646]%float) /\
  (tuple_of (Color_hsl Libm.pow) example_0a0bcc).2
  = Ok [0.66580756013745701; 0.90654205607476646; 0.41960784313725491]%float.
Proof.
  intros st1.
  assert (H1 : spaces (self example_0a0bcc) !! "hsl" = None) by reflexivity.
  assert (H2 : tuple_of (Color_hls Libm.pow) example_0a0bcc
               = (st1, Ok [0.66580756013745701; 0.41960784313725491;
                           0.90654205607476646]%float))
    by (vm_compute; reflexivity).
  split; [exact H1|]. split; [exact H2|].
  exact (hsl_is_hls_reordered Libm.pow example_0a0bcc st1 _ _ _ H1 H2).
Defined.

(** X9, witness: [c = Color(workspace="linear_rgb"); c.yiq = (2, 3, -1)]. *)
Lemma yiq_assignment_under_linear_rgb_witness :
  workspace (self (blank ws_linear_rgb)) = ws_linear_rgb /\
  let u := colorsys.yiq_to_rgb 2 3 (-1) in
  Color_set_yiq Libm.pow [2; 3; -1]%float (blank ws_linear_rgb)
  = (mkStore (mkColor u.1.1 u.1.2 u.2 (_a (self (blank ws_linear_rgb)))
                (a (self (blank ws_linear_rgb))) ws_linear_rgb ∅)
       (heap (blank ws_linear_rgb)), Ok tt).
Proof.
  split; [reflexivity|].
  apply (yiq_assignment_under_linear_rgb Libm.pow 2 3 (-1) (blank ws_linear_rgb)).
  reflexivity.
Defined.

(** X10, witness: [Color.from_rgb(1, 0, 0.5)]. *)
Lemma from_rgb_decodes_srgb_witness :
  let st := (Color_init Libm.pow None 1 ws_srgb [(kw_rgb, [1; 0; 0.5]%float)]
               (blank ws_srgb)).1 in
  Color_from_rgb Libm.pow 1 0 0.5 1 = Ok st /\
  decode3 Libm.pow [1; 0; 0.5]%float = Ok (channels st) /\
  a (self st) = 1%float /\ workspace (self st) = ws_srgb /\ spaces (self st) = ∅.
Proof.
  intros st.
  assert (H : Color_from_rgb Libm.pow 1 0 0.5 1 = Ok st) by (vm_compute; reflexivity).
  split; [exact H|].
  exact (from_rgb_decodes_srgb Libm.pow 1 0 0.5 1 st H).
Defined.

(** X11, witness: [Color.from_hls(0.5, 0.5, 0.5)]. *)
Lemma from_hls_decodes_srgb_witness :
  let st := (Color_init Libm.pow None 1 ws_srgb [(kw_space hls, [0.5; 0.5; 0.5]%float)]
               (blank ws_srgb)).1 in
  Color_from_hls Libm.pow 0.5 0.5 0.5 1 = Ok st /\
  (let u := colorsys.hls_to_rgb 0.5 0.5 0.5 in
   decode3 Libm.pow [u.1.1; u.1.2; u.2] = Ok (channels st)) /\
  a (self st) = 1%float /\ workspace (self st) = ws_srgb /\ spaces (self st) = ∅.
Proof.
  intros st.
  assert (H : Color_from_hls Libm.pow 0.5 0.5 0.5 1 = Ok st) by (vm_compute; reflexivity).
  split; [exact H|].
  exact (from_hls_decodes_srgb Libm.pow 0.5 0.5 0.5 1 st H).
Defined.

(** X12, witness: [Color("#0a0bcc").lighter(0.2)]. *)
Lemma lighter_builds_a_new_color_witness :
  let st := example_0a0bcc in
  let st1 := (Color_lighter Libm.pow 0.2 st).1 in
  let new := example_lighter in
  Color_lighter Libm.pow 0.2 st = (st1, Ok new) /\
  (exists h l s,
     coord (Color_hls Libm.pow) "h" st1 = (st1, Ok h) /\
     coord (Color_hls Libm.pow) "l" st1 = (st1, Ok l) /\
     coord (Color_hls Libm.pow) "s" st1 = (st1, Ok s) /\
     Color_from_hls Libm.pow h (PyFormat.min2 (l + 0.2) 1.0) s (a (self st)) = Ok new) /\
  a (self new) = a (self st) /\ workspace (self new) = ws_srgb /\
  spaces (self new) = ∅ /\ channels_in_range new /\
  channels st1 = channels st /\ a (self st1) = a (self st) /\
  workspace (self st1) = workspace (self st).
Proof.
  intros st st1 new.
  assert (H : Color_lighter Libm.pow 0.2 st = (st1, Ok new)) by (vm_compute; reflexivity).
  split; [exact H|].
  exact (lighter_builds_a_new_color Libm.pow 0.2 st st1 new H).
Defined.

(** X13, witness: [Color("#0a0bcc").darker(0.2)]. *)
Lemma darker_builds_a_new_color_witness :
  let st := example_0a0bcc in
  let st1 := (Color_darker Libm.pow 0.2 st).1 in
  let new := example_darker in
  Color_darker Libm.pow 0.2 st = (st1, Ok new) /\
  (exists h l s,
     coord (Color_hls Libm.pow) "h" st1 = (st1, Ok h) /\
     coord (Color_hls Libm.pow) "l" st1 = (st1, Ok l) /\
     coord (Color_hls Libm.pow) "s" st1 = (st1, Ok s) /\
     Color_from_hls Libm.pow h (PyFormat.max2 (l - 0.2) 0.0) s (a (self st)) = Ok new) /\
  a (self new) = a (self st) /\ workspace (self new) = ws_srgb /\
  spaces (self new) = ∅ /\ channels_in_range new /\
  channels st1 = channels st /\ a (self st1) = a (self st) /\
  workspace (self st1) = workspace (self st).
Proof.
  intros st st1 new.
  assert (H : Color_darker Libm.pow 0.2 st = (st1, Ok new)) by (vm_compute; reflexivity).
  split; [exact H|].
  exact (darker_builds_a_new_color Libm.pow 0.2 st st1 new H).
Defined.

(** X14, witness: [c = Color("#0a0bcc"); sp = c.hls; sp.note = 7]. *)
Lemma non_axis_attribute_assignment_witness :
  let st := (Color_hls Libm.pow example_0a0bcc).1 in
  let sp := ColorSpace_init hls
              [("h", 0.66580756013745701); ("l", 0.41960784313725491);
               ("s", 0.90654205607476646)]%float in
  let sp' := with_extra sp (<["note" := 7%float]> (extra sp)) in
  heap st !! 1%nat = Some sp /\
  coords sp !! "note" = None /\
  ("note" ∉ ["parent"; "name"; "axes"; "coords"]) /\
  special_name "note" = false /\
  ColorSpace_setattr Libm.pow 1%nat "note" 7 st
  = (mkStore (self st) (<[1%nat := sp']> (heap st)), Ok tt) /\
  coords sp' = coords sp /\ ColorSpace_tuple sp' = ColorSpace_tuple sp /\
  attribute sp' "note" = VNum 7.
Proof.
  assert (H3 : "note" ∉ ["parent"; "name"; "axes"; "coords"]).
  { rewrite !not_elem_of_cons. repeat split; try discriminate. apply not_elem_of_nil. }
  intros st sp sp'.
  assert (H1 : heap st !! 1%nat = Some sp) by (vm_compute; reflexivity).
  assert (H2 : coords sp !! "note" = None) by reflexivity.
  split; [exact H1|]. split; [exact H2|]. split; [exact H3|]. split; [reflexivity|].
  exact (non_axis_attribute_assignment Libm.pow st 1%nat sp "note" 7 H1 H2 H3 eq_refl).
Defined.

(** X15, witness: [tuple(ColorSpace(parent, "hls", [("h", 1), ("l", 2), ("s", 3)]))]. *)
Lemma ColorSpace_tuple_init_witness :
  NoDup (map fst [("h", 1); ("l", 2); ("s", 3)]%float) /\
  ColorSpace_tuple (ColorSpace_init hls [("h", 1); ("l", 2); ("s", 3)]%float)
  = Ok (map snd [("h", 1); ("l", 2); ("s", 3)]%float).
Proof.
  assert (H : NoDup (map fst [("h", 1); ("l", 2); ("s", 3)]%float)).
  { cbn [map fst]. repeat (apply NoDup_cons; split); try apply NoDup_nil_2;
      rewrite ?not_elem_of_cons; repeat split; try discriminate; apply not_elem_of_nil. }
  split; [exact H|].
  exact (ColorSpace_tuple_init hls [("h", 1); ("l", 2); ("s", 3)]%float H).
Defined.

(** X16, witness: [Color("#0a0bcc", a=0.3).css] is ["rgba(10, 11, 204, 0.30)"]. *)
Lemma css_is_computed_in_srgb_witness :
  let st := (Color_set_a 0.3 example_0a0bcc).1 in
  spaces (self st) !! "srgb" = None /\
  (Color_css Libm.pow st).2
  = (t ← derive_rgb Libm.pow ws_srgb (channels st);
     x ← Py.round (t.1.1 * 255);
     y ← Py.round (t.1.2 * 255);
     z ← Py.round (t.2 * 255);
     Ok (if (a (self st) <? 1)%float
         then ("rgba(" +:+ PyFormat.format_d x +:+ ", " +:+ PyFormat.format_d y +:+ ", "
               +:+ PyFormat.format_d z +:+ ", " +:+ PyFormat.format_2f (a (self st))
               +:+ ")")%string
         else ("rgb(" +:+ PyFormat.format_d x +:+ ", " +:+ PyFormat.format_d y +:+ ", "
               +:+ PyFormat.format_d z +:+ ")")%string)) /\
  (Color_css Libm.pow st).2 = Ok "rgba(10, 11, 204, 0.30)".
Proof.
  intros st. split; [reflexivity|]. split; [|vm_compute; reflexivity].
  apply (css_is_computed_in_srgb Libm.pow st). reflexivity.
Defined.


(** X22, witness: [c = Color("#0a0bcc"); sp = c.hls; sp.l = 0.5; c.hls]. *)
Lemma mutation_detaches_the_object_witness :
  let st := (Color_hls Libm.pow example_0a0bcc).1 in
  let sp := ColorSpace_init hls
              [("h", 0.66580756013745701); ("l", 0.41960784313725491);
               ("s", 0.90654205607476646)]%float in
  let st' := (ColorSpace_setattr Libm.pow 1%nat "l" 0.5 st).1 in
  let st'' := (Color_getattr Libm.pow hls st').1 in
  heap st !! 1%nat = Some sp /\
  coords sp !! "l" = Some 0.41960784313725491%float /\
  ColorSpace_setattr Libm.pow 1%nat "l" 0.5 st = (st', Ok tt) /\
  Color_getattr Libm.pow hls st' = (st'', Ok 3%nat) /\
  3%nat <> 1%nat /\
  spaces (self st'') !! fname hls = Some 3%nat /\
  heap st'' !! 1%nat = Some (with_coords sp (<["l" := 0.5%float]> (coords sp))).
Proof.
  intros st sp st' st''.
  assert (H1 : heap st !! 1%nat = Some sp) by (vm_compute; reflexivity).
  assert (H2 : coords sp !! "l" = Some 0.41960784313725491%float) by reflexivity.
  assert (H3 : ColorSpace_setattr Libm.pow 1%nat "l" 0.5 st = (st', Ok tt))
    by (vm_compute; reflexivity).
  assert (H4 : Color_getattr Libm.pow hls st' = (st'', Ok 3%nat))
    by (vm_compute; reflexivity).
  split; [exact H1|]. split; [exact H2|]. split; [exact H3|]. split; [exact H4|].
  exact (mutation_detaches_the_object Libm.pow st st' st'' 1%nat 3%nat sp "l"
           0.41960784313725491%float 0.5%float hls H1 H2 H3 H4).
Defined.
